(** * Bertaud urban-economics audit engines: a shallow embedding

    The development embeds the two computational engines of the
    repository,

    - [bertaud_engine.py]  (class [BertaudAuditEngine]) and
    - [financial_audit.py] (classes [FinancialParams], [FinancialAudit]),

    and states the properties of their specification against them.

    Number model.  A Python [float] is read as the real number it
    denotes, and [+], [-], [*], [/], [**], [math.exp] and [math.log] on
    the data of a call are the exact operations of [R]: a theorem that
    equates a result with a formula is meant up to the rounding of these
    operations.  Inside the model is every branch, every guard and every
    exception that arithmetic on mathematical reals can raise
    ([ZeroDivisionError] on a zero divisor, [ValueError] for a logarithm
    outside its domain, ...).  A Python [int] is a [Z].  A [str] is a
    [string] of bytes and [Py.lower] is the ASCII lower-casing.

    What the float format itself decides is modelled where a property
    depends on it.  Module [F64] has the binary64 values (the finite
    ones, the infinities and NaN) with their rounded operations, and
    module [Refined] reads four methods with the effects that the exact
    reading leaves out:

    - the density audit with every operation in binary64, so that its
      status, which the code decides by comparing floats (the index
      [8/10] with the literal [0.8], the index [7/10] with the
      difference [0.8 - 0.1]), is the status of the code on the band
      boundaries too;
    - the calibration with the range of [math.exp] and of [**]
      ([OverflowError], underflow to 0.0);
    - the polycentric sum over the arithmetic that accumulates it, the
      rounded addition making the result depend on the order of the
      terms;
    - the cost validation with [str.lower] as the Unicode-aware mapping
      it is.

    In the modules of the exact reading, infinities and NaN are outside
    the model. *)

From Stdlib Require Import Reals Lra Lia ZArith List String Ascii Bool Permutation.
Import ListNotations.

Local Open Scope R_scope.

(* ===================================================================== *)
(** * The fragment of the Python runtime the engines use                  *)
(* ===================================================================== *)

Module Py.

(** Exceptions that the modelled operations can raise. *)
Inductive exn : Set :=
| ZeroDivisionError
| ValueError
| KeyError
| StatisticsError
| ValidationError
| OverflowError.

(** A computation either returns a value or raises. *)
Inductive result (A : Type) : Type :=
| Ok (a : A)
| Raise (e : exn).

Arguments Ok {A} a.
Arguments Raise {A} e.

Definition bind {A B : Type} (m : result A) (f : A -> result B) : result B :=
  match m with
  | Ok a => f a
  | Raise e => Raise e
  end.

Definition returns {A : Type} (m : result A) : Prop := exists a, m = Ok a.

Declare Scope py_scope.
Delimit Scope py_scope with py.

Notation "x <- m ;; k" := (bind m (fun x => k))
  (at level 61, m at next level, right associativity) : py_scope.
Notation "' pat <- m ;; k" := (bind m (fun x => match x with pat => k end))
  (at level 61, pat pattern, m at next level, right associativity) : py_scope.

Local Open Scope py_scope.

(** ** Comparisons on floats, as booleans *)

Definition Rltb (x y : R) : bool := if Rlt_dec x y then true else false.
Definition Rleb (x y : R) : bool := if Rle_dec x y then true else false.
Definition Reqb (x y : R) : bool := if Req_dec_T x y then true else false.

(** ** Arithmetic that can raise *)

(** [x / y] on floats. *)
Definition float_div (x y : R) : result R :=
  if Reqb y 0 then Raise ZeroDivisionError else Ok (x / y).

(** [a / b] on ints (true division, the result is a float). *)
Definition int_truediv (a b : Z) : result R :=
  if (b =? 0)%Z then Raise ZeroDivisionError else Ok (IZR a / IZR b).

(** [a % b] on ints; the result takes the sign of the divisor, as
    [Z.modulo] does. *)
Definition int_mod (a b : Z) : result Z :=
  if (b =? 0)%Z then Raise ZeroDivisionError else Ok (a mod b)%Z.

(** [x ** n] for a float base and an int exponent. *)
Definition float_pow (x : R) (n : Z) : result R :=
  if (n <? 0)%Z && Reqb x 0 then Raise ZeroDivisionError
  else Ok (powerRZ x n).

(** [math.log] *)
Definition math_log (x : R) : result R :=
  if Rltb 0 x then Ok (ln x) else Raise ValueError.

(** [math.exp], as the exact exponential. *)
Definition math_exp (x : R) : R := exp x.

(** ** The range of a float *)

(** [sys.float_info.max], and the smallest positive float. *)
Definition float_max : R := (2 ^ 53 - 1) * 2 ^ 971.
Definition float_min : R := / 2 ^ 1074.

(** [math.exp] with the range of its result: [OverflowError] when the
    exponential exceeds the largest float, [0.0] when it is not above
    half the smallest one; in between the value is taken exactly. *)
Definition math_exp_ranged (x : R) : result R :=
  if Rltb float_max (exp x) then Raise OverflowError
  else if Rleb (exp x) (float_min / 2) then Ok 0.0
  else Ok (exp x).

(** [x ** n] for a float base and an int exponent, with the range of its
    result: the power of a float raises [OverflowError] when it exceeds
    the largest float. *)
Definition float_pow_ranged (x : R) (n : Z) : result R :=
  v <- float_pow x n ;;
  if Rltb float_max (Rabs v) then Raise OverflowError else Ok v.

(** A float that may be [float('inf')]. *)
Inductive xfloat : Type :=
| Finite (r : R)
| Infinity.

(** ** Values of mixed numeric type (dictionary payloads) *)

Inductive pyval : Type :=
| PyInt (z : Z)
| PyFloat (r : R).

(** Coercion of a number to a [float] field. *)
Definition as_float (v : pyval) : R :=
  match v with
  | PyInt z => IZR z
  | PyFloat r => r
  end.

(** Coercion of a number to an [int] field: a float is accepted when it
    has no fractional part. *)
Definition as_int (v : pyval) : result Z :=
  match v with
  | PyInt z => Ok z
  | PyFloat r =>
      if Reqb r (IZR (Int_part r)) then Ok (Int_part r)
      else Raise ValidationError
  end.

(** ** Strings *)

Definition lower_ascii (c : ascii) : ascii :=
  let n := N_of_ascii c in
  if ((65 <=? n) && (n <=? 90))%N then ascii_of_N (n + 32) else c.

(** [str.lower] *)
Fixpoint lower (s : string) : string :=
  match s with
  | EmptyString => EmptyString
  | String c s' => String (lower_ascii c) (lower s')
  end.

(** [s.isascii()] *)
Fixpoint isascii (s : string) : bool :=
  match s with
  | EmptyString => true
  | String c s' => (N_of_ascii c <? 128)%N && isascii s'
  end.

(** [needle in hay] *)
Fixpoint contains (needle hay : string) : bool :=
  String.prefix needle hay ||
  match hay with
  | EmptyString => false
  | String _ hay' => contains needle hay'
  end.

(** ** Dictionaries: insertion-ordered association lists, keys unique *)

Definition dict (V : Type) : Type := list (string * V).

Definition dict_wf {V : Type} (d : dict V) : Prop := NoDup (map fst d).

Fixpoint dict_get {V : Type} (d : dict V) (k : string) : option V :=
  match d with
  | [] => None
  | (k', v) :: d' => if String.eqb k k' then Some v else dict_get d' k
  end.

(** [k in d] *)
Definition dict_mem {V : Type} (k : string) (d : dict V) : bool :=
  match dict_get d k with
  | Some _ => true
  | None => false
  end.

(** [d[k]] *)
Definition dict_getitem {V : Type} (d : dict V) (k : string) : result V :=
  match dict_get d k with
  | Some v => Ok v
  | None => Raise KeyError
  end.

(** [d.get(k, dflt)] *)
Definition dict_get_default {V : Type} (d : dict V) (k : string) (dflt : V) : V :=
  match dict_get d k with
  | Some v => v
  | None => dflt
  end.

(** ** Iteration *)

(** [range(a, b)] *)
Definition range (a b : Z) : list Z :=
  map (fun i => (a + Z.of_nat i)%Z) (seq 0 (Z.to_nat (b - a))).

(** [for a in l: s = body(a, s)], stopping at the first exception. *)
Fixpoint for_each {A S : Type} (l : list A) (body : A -> S -> result S) (s : S)
  : result S :=
  match l with
  | [] => Ok s
  | a :: l' => s' <- body a s ;; for_each l' body s'
  end.

(** A list comprehension whose element expression can raise. *)
Fixpoint map_m {A B : Type} (f : A -> result B) (l : list A) : result (list B) :=
  match l with
  | [] => Ok []
  | a :: l' => b <- f a ;; bs <- map_m f l' ;; Ok (b :: bs)
  end.

(** [sum(l)] *)
Definition py_sum (l : list R) : R := fold_left Rplus l 0.

(** [statistics.mean(l)] *)
Definition statistics_mean (l : list R) : result R :=
  match l with
  | [] => Raise StatisticsError
  | _ => Ok (py_sum l / INR (List.length l))
  end.

End Py.

Import Py.
Local Open Scope py_scope.
Local Open Scope string_scope.

(* ===================================================================== *)
(** * Rounding                                                            *)
(* ===================================================================== *)

Module PyNum.

(** The integer nearest to [y], a tie going to the even neighbour. *)
Definition round_half_even (y : R) : Z :=
  let f := Int_part y in
  let d := y - IZR f in
  if Rltb d (1 / 2) then f
  else if Rltb (1 / 2) d then (f + 1)%Z
  else if Z.even f then f else (f + 1)%Z.

(** [round(x, ndigits)] for a float and [ndigits >= 0]: the closest
    multiple of 10^(-ndigits), a tie going to the even choice. *)
Definition py_round (x : R) (ndigits : nat) : R :=
  IZR (round_half_even (x * 10 ^ ndigits)) / 10 ^ ndigits.

End PyNum.

(** ** Binary64

    The finite floats are the reals m * 2^(e - 52) with an integer m,
    |m| < 2^53 and -1022 <= e <= 1023; an operation delivers the float
    nearest to its exact result, a tie going to the even m, and an
    infinity when that float would lie beyond the largest one. *)

Module F64.

Import PyNum.

(** floor (log2 x) for a positive [x]: the exponent of its binade. *)
Definition ilog2 (x : R) : Z := Int_part (ln x / ln 2).

(** The distance between neighbouring floats around [x]: 2^(e - 52) in
    the binade of exponent e, and 2^(-1074) in the subnormal range. *)
Definition ulp (x : R) : R := powerRZ 2 (Z.max (ilog2 (Rabs x)) (-1022) - 52).

(** The multiple of the spacing nearest to [x], for an exponent that is
    not bounded from above. *)
Definition nearest_float (x : R) : R :=
  if Reqb x 0 then 0
  else (if Rltb x 0 then -1 else 1)
       * (IZR (round_half_even (Rabs x / ulp x)) * ulp x).

(** A float: a finite value, an infinity or a NaN.  The sign of a zero
    is not kept; it shows in the result of no operation below. *)
Inductive float : Type :=
| Fin (x : R)
| Inf (negative : bool)
| NaN.

(** The float that an operation delivers for the exact result [x]. *)
Definition round (x : R) : float :=
  if Rltb float_max (Rabs (nearest_float x)) then Inf (Rltb x 0)
  else Fin (nearest_float x).

(** A decimal literal of the source denotes the float nearest to it. *)
Definition f64 (x : R) : float := round x.

(** [-a] *)
Definition fneg (a : float) : float :=
  match a with
  | Fin x => Fin (- x)
  | Inf s => Inf (negb s)
  | NaN => NaN
  end.

(** [a + b] *)
Definition fadd (a b : float) : float :=
  match a, b with
  | Fin x, Fin y => round (x + y)
  | Fin _, Inf s => Inf s
  | Inf s, Fin _ => Inf s
  | Inf s, Inf s' => if Bool.eqb s s' then Inf s else NaN
  | _, _ => NaN
  end.

(** [a - b] *)
Definition fsub (a b : float) : float := fadd a (fneg b).

(** [a * b] *)
Definition fmul (a b : float) : float :=
  match a, b with
  | Fin x, Fin y => round (x * y)
  | Fin x, Inf s => if Reqb x 0 then NaN else Inf (xorb s (Rltb x 0))
  | Inf s, Fin y => if Reqb y 0 then NaN else Inf (xorb s (Rltb y 0))
  | Inf s, Inf s' => Inf (xorb s s')
  | _, _ => NaN
  end.

(** [a / b]: a zero divisor raises whatever the dividend. *)
Definition fdiv (a b : float) : result float :=
  match b with
  | Fin y =>
      if Reqb y 0 then Raise ZeroDivisionError
      else match a with
           | Fin x => Ok (round (x / y))
           | Inf s => Ok (Inf (xorb s (Rltb y 0)))
           | NaN => Ok NaN
           end
  | Inf _ =>
      match a with
      | Fin _ => Ok (Fin 0)
      | _ => Ok NaN
      end
  | NaN => Ok NaN
  end.

(** [math.exp(a)], taken as rounded to the nearest float: a result
    beyond the largest float raises, one below the smallest is 0.0. *)
Definition fexp (a : float) : result float :=
  match a with
  | Fin x =>
      if Rltb float_max (Rabs (nearest_float (exp x))) then Raise OverflowError
      else Ok (Fin (nearest_float (exp x)))
  | Inf false => Ok (Inf false)
  | Inf true => Ok (Fin 0)
  | NaN => Ok NaN
  end.

(** [a < b], [a <= b] and [a == b]: false as soon as a NaN is compared. *)
Definition flt (a b : float) : bool :=
  match a, b with
  | Fin x, Fin y => Rltb x y
  | Fin _, Inf s => negb s
  | Inf s, Fin _ => s
  | Inf s, Inf s' => s && negb s'
  | _, _ => false
  end.

Definition fle (a b : float) : bool :=
  match a, b with
  | Fin x, Fin y => Rleb x y
  | Fin _, Inf s => negb s
  | Inf s, Fin _ => s
  | Inf s, Inf s' => s || negb s'
  | _, _ => false
  end.

Definition feqb (a b : float) : bool :=
  match a, b with
  | Fin x, Fin y => Reqb x y
  | Inf s, Inf s' => Bool.eqb s s'
  | _, _ => false
  end.

End F64.

Import F64.

(* ===================================================================== *)
(** * financial_audit.py                                                  *)
(* ===================================================================== *)

Module Finance.

(** ** class FinancialParams *)

Record FinancialParams : Type := mkFinancialParams {
  upfront_fee : R;
  initial_annual_rent : R;
  lease_term_years : Z;
  discount_rate : R;
  investment_cost : R;
  asset_useful_life_years : Z;
  rent_escalation_rate : R;
  escalation_interval_years : Z
}.

(** The field constraints ([ge], [gt], [le]) together with the
    [check_lease_logic] validator. *)
Definition check_bounds (p : FinancialParams) : bool :=
  Rleb 0 (upfront_fee p) &&
  Rleb 0 (initial_annual_rent p) &&
  ((0 <? lease_term_years p)%Z && (lease_term_years p <=? 100)%Z) &&
  (Rleb 0 (discount_rate p) && Rleb (discount_rate p) 1.0) &&
  Rleb 0 (investment_cost p) &&
  (0 <? asset_useful_life_years p)%Z &&
  Rleb 0 (rent_escalation_rate p) &&
  (0 <? escalation_interval_years p)%Z &&
  negb (100 <? lease_term_years p)%Z.

(** The same bounds as a proposition: the invariant of every constructed
    record. *)
Definition validated (p : FinancialParams) : Prop :=
  0 <= upfront_fee p /\
  0 <= initial_annual_rent p /\
  (0 < lease_term_years p <= 100)%Z /\
  0 <= discount_rate p <= 1 /\
  0 <= investment_cost p /\
  (0 < asset_useful_life_years p)%Z /\
  0 <= rent_escalation_rate p /\
  (0 < escalation_interval_years p)%Z.

(** [FinancialParams(upfront_fee=..., ..., asset_useful_life_years=...)]:
    the six-keyword construction used throughout the repository; the
    escalation fields take their defaults 0.15 and 3. *)
Definition FinancialParams_init
    (upfront_fee initial_annual_rent lease_term_years discount_rate
     investment_cost asset_useful_life_years : pyval) : result FinancialParams :=
  lease <- as_int lease_term_years ;;
  life <- as_int asset_useful_life_years ;;
  let p := {| upfront_fee := as_float upfront_fee;
              initial_annual_rent := as_float initial_annual_rent;
              lease_term_years := lease;
              discount_rate := as_float discount_rate;
              investment_cost := as_float investment_cost;
              asset_useful_life_years := life;
              rent_escalation_rate := 0.15;
              escalation_interval_years := 3 |} in
  if check_bounds p then Ok p else Raise ValidationError.

(** ** class FinancialAudit *)

(** The escalation step shared by the two yearly loops
    ([calculate_state_npv] and [calculate_return_on_asset]):
<<
    if year > 1 and (year - 1) % params.escalation_interval_years == 0:
        current_rent *= (1 + params.rent_escalation_rate)
>>
    [and] is short-circuit: the modulus is not evaluated in year 1. *)
Definition escalate (params : FinancialParams) (year : Z) (current_rent : R)
  : result R :=
  if (1 <? year)%Z then
    m <- int_mod (year - 1) (escalation_interval_years params) ;;
    if (m =? 0)%Z
    then Ok (current_rent * (1 + rent_escalation_rate params))
    else Ok current_rent
  else Ok current_rent.

Definition calculate_state_npv (params : FinancialParams) : result R :=
  let npv := 0.0 in
  (* 1. upfront fee at T=0 *)
  let npv := npv + upfront_fee params in
  (* 2. annual rent, T=1 .. T=lease_term *)
  let current_rent := initial_annual_rent params in
  let lease_term := lease_term_years params in
  '(npv, current_rent) <-
    for_each (range 1 (lease_term + 1))
      (fun year '(npv, current_rent) =>
         current_rent <- escalate params year current_rent ;;
         discount_factor <- float_pow (1 + discount_rate params) year ;;
         discounted_rent <- float_div current_rent discount_factor ;;
         Ok (npv + discounted_rent, current_rent))
      (npv, current_rent) ;;
  (* 3. terminal value *)
  residual_value <-
    (if (lease_term <? asset_useful_life_years params)%Z then
       let remaining_life := (asset_useful_life_years params - lease_term)%Z in
       q <- int_truediv remaining_life (asset_useful_life_years params) ;;
       Ok (investment_cost params * q)
     else Ok 0.0) ;;
  d <- float_pow (1 + discount_rate params) lease_term ;;
  discounted_terminal_value <- float_div residual_value d ;;
  let npv := npv + discounted_terminal_value in
  Ok npv.

(** The dictionary returned by [validate_construction_cost]; the two
    return statements build dictionaries with different key sets. *)
Inductive CostValidation : Type :=
| UnknownTypeResult (status : string) (deviation_percent : R) (message : string)
| BenchmarkResult (status : string) (deviation_percent : R)
    (base_standard_cost location_factor adjusted_standard_cost : R)
    (province_context : string).

Definition cv_status (r : CostValidation) : string :=
  match r with
  | UnknownTypeResult s _ _ => s
  | BenchmarkResult s _ _ _ _ _ => s
  end.

Definition cv_deviation_percent (r : CostValidation) : R :=
  match r with
  | UnknownTypeResult _ d _ => d
  | BenchmarkResult _ d _ _ _ _ => d
  end.

Definition base_benchmarks : dict R :=
  [ ("low-rise", 15000.0); ("high-rise", 30000.0) ].

Definition location_factors : dict R :=
  [ ("bangkok", 1.0); ("phuket", 1.15); ("chiang mai", 1.05);
    ("chonburi", 1.02); ("udon thani", 0.95) ].

Definition validate_construction_cost
    (proposed_cost_per_sqm : R) (building_type : string) (province : string)
  : result CostValidation :=
  let normalized_province := lower province in
  let location_factor := dict_get_default location_factors normalized_province 1.0 in
  match dict_get base_benchmarks (lower building_type) with
  | None =>
      Ok (UnknownTypeResult "Unknown Type" 0.0
            ("Building type '" ++ building_type ++ "' not recognized."))
  | Some base_standard =>
      let adjusted_standard_cost := base_standard * location_factor in
      deviation <- float_div (proposed_cost_per_sqm - adjusted_standard_cost)
                             adjusted_standard_cost ;;
      let deviation_percent := deviation * 100.0 in
      let status := "Pass" in
      let status := if Rltb 0.20 (Rabs deviation)
                    then "Cost Anomaly Detected" else status in
      Ok (BenchmarkResult status deviation_percent base_standard
            location_factor adjusted_standard_cost province)
  end.

(** The default of the [province] parameter. *)
Definition default_province : string := "Bangkok".

Record ROAResult : Type := mkROAResult {
  roa_percent : R;
  average_annual_benefit : R;
  roa_status : string
}.

Definition calculate_return_on_asset (params : FinancialParams) : result ROAResult :=
  let current_rent := initial_annual_rent params in
  let total_nominal_rent := 0.0 in
  '(total_nominal_rent, current_rent) <-
    for_each (range 1 (lease_term_years params + 1))
      (fun year '(total_nominal_rent, current_rent) =>
         current_rent <- escalate params year current_rent ;;
         Ok (total_nominal_rent + current_rent, current_rent))
      (total_nominal_rent, current_rent) ;;
  terminal_value <-
    (if (lease_term_years params <? asset_useful_life_years params)%Z then
       q <- int_truediv (asset_useful_life_years params - lease_term_years params)
                        (asset_useful_life_years params) ;;
       Ok (investment_cost params * q)
     else Ok 0.0) ;;
  let total_benefit := upfront_fee params + total_nominal_rent + terminal_value in
  average_annual_benefit <- float_div total_benefit (IZR (lease_term_years params)) ;;
  roa <- (if Rltb 0 (investment_cost params)
          then float_div average_annual_benefit (investment_cost params)
          else Ok 0.0) ;;
  let roa_percent := roa * 100.0 in
  let status := "On Target" in
  let status := if Rltb roa_percent 3.0 then "Below Target" else status in
  Ok {| roa_percent := roa_percent;
        average_annual_benefit := average_annual_benefit;
        roa_status := status |}.

Definition calculate_breakeven_lease_term
    (investment_cost annual_net_cashflow discount_rate : R) : result xfloat :=
  if Rleb annual_net_cashflow 0 then Ok Infinity
  else
    ratio <- float_div (investment_cost * discount_rate) annual_net_cashflow ;;
    if Rleb 1.0 ratio then Ok Infinity
    else
      a <- math_log (1 - ratio) ;;
      b <- math_log (1 + discount_rate) ;;
      years <- float_div (- a) b ;;
      Ok (Finite years).

(** The nested dictionary returned by [perform_sensitivity_analysis]:
    ["Base Case"], and under ["Discount Rate Sensitivity"] the entries
    ["+2% Rate"] and ["-2% Rate"]. *)
Record Sensitivity : Type := mkSensitivity {
  base_case : R;
  plus_2pct_rate : R;
  minus_2pct_rate : R
}.

Definition perform_sensitivity_analysis (base_params : dict pyval)
  : result Sensitivity :=
  let upfront := dict_get_default base_params "upfront_fee" (PyInt 0) in
  let initial_rent := dict_get_default base_params "initial_annual_rent" (PyInt 0) in
  let lease_years := dict_get_default base_params "lease_years" (PyInt 30) in
  let invest_cost := dict_get_default base_params "investment_cost" (PyFloat 0.0) in
  let asset_life := PyInt 50 in
  let base_discount := 0.05 in
  let run_scenario (rate : R) : result R :=
    params <- FinancialParams_init upfront initial_rent lease_years
                (PyFloat rate) invest_cost asset_life ;;
    calculate_state_npv params in
  base_npv <- run_scenario base_discount ;;
  plus <- run_scenario (base_discount + 0.02) ;;
  minus <- run_scenario (base_discount - 0.02) ;;
  Ok {| base_case := base_npv;
        plus_2pct_rate := plus;
        minus_2pct_rate := minus |}.

End Finance.

(* ===================================================================== *)
(** * bertaud_engine.py                                                   *)
(* ===================================================================== *)

Module Bertaud.

(** ** class BertaudAuditEngine

    The constructor stores its two arguments; the advisory messages it
    prints for [g > 0.5] and [g < 0.01] do not influence any result. *)
Record BertaudAuditEngine : Type := mkEngine {
  d0 : R;
  g : R
}.

(** [transport_cost: Union[float, Callable[[float], float]]] *)
Inductive transport : Type :=
| TransportFloat (c : R)
| TransportCallable (f : R -> R).

Record GapAnalysis : Type := mkGapAnalysis {
  legal_max_far : R;
  theoretical_demand_far : R;
  far_mismatch_gap : R;
  is_constraint_active : bool;
  policy_recommendation : string
}.

(** The dictionary returned by [calculate_optimal_density];
    [gap_analysis = None] stands for the empty dictionary. *)
Record DensityAudit : Type := mkDensityAudit {
  distance_km : R;
  theoretical_density : R;
  proposed_density : R;
  efficiency_index : R;
  status : string;
  gap_analysis : option GapAnalysis;
  input_land_cost : R;
  input_capital_k : R
}.

Definition calculate_optimal_density
    (self : BertaudAuditEngine)
    (capital_k land_cost_e : R) (transport_cost : transport)
    (distance_km proposed_density : R)
    (legal_far_limit : option R) (zone_color : option string)
  : result DensityAudit :=
  (* 1. theoretical optimal density *)
  let theoretical_density := d0 self * math_exp (- g self * distance_km) in
  (* 2. efficiency index *)
  efficiency_index <-
    (if Reqb theoretical_density 0 then Ok 0.0
     else float_div proposed_density theoretical_density) ;;
  (* 3. audit status *)
  let lower_limit := 0.8 in
  let upper_limit := 1.2 in
  let upper_limit :=
    match zone_color with
    | None => upper_limit
    | Some "" => upper_limit
    | Some zc =>
        let color := lower zc in
        if contains "yellow" color then 1.1 else upper_limit
    end in
  let status := "Optimal" in
  let status :=
    if Rltb efficiency_index (lower_limit - 0.1) then "Under-utilization"
    else if Rltb efficiency_index lower_limit then "Low Density Warning"
    else if Rltb (upper_limit + 0.1) efficiency_index then "Over-densification"
    else if Rltb upper_limit efficiency_index then "High Density Warning"
    else status in
  let optimal_low := lower_limit in
  let optimal_high := upper_limit - 0.1 in
  let status :=
    if Rltb efficiency_index (optimal_low - 0.1) then "Under-utilization"
    else if Rltb efficiency_index optimal_low then "Low Density Warning"
    else if Rleb efficiency_index optimal_high then "Optimal"
    else if Rleb efficiency_index upper_limit then "High Density Warning"
    else "Over-densification" in
  (* 4. gap analysis *)
  let gap_analysis :=
    match legal_far_limit with
    | None => None
    | Some legal_far_limit =>
        let far_gap := theoretical_density - legal_far_limit in
        let is_constrained := Rltb 0 far_gap in
        let policy_recommendation := "None" in
        let policy_recommendation :=
          if is_constrained && Rltb 1.0 far_gap
          then "Request Zoning Upgrade (Upsize)"
          else if negb is_constrained
                  && Rltb 2.0 (legal_far_limit - theoretical_density)
          then "Zone Over-supply (Focus on infrastructure)"
          else policy_recommendation in
        Some {| legal_max_far := legal_far_limit;
                theoretical_demand_far := theoretical_density;
                far_mismatch_gap := far_gap;
                is_constraint_active := is_constrained;
                policy_recommendation := policy_recommendation |}
    end in
  Ok {| distance_km := distance_km;
        theoretical_density := theoretical_density;
        proposed_density := proposed_density;
        efficiency_index := efficiency_index;
        status := status;
        gap_analysis := gap_analysis;
        input_land_cost := land_cost_e;
        input_capital_k := capital_k |}.

(** [self] is not read by the method. *)
Definition calculate_polycentric_density
    (distance_map : dict R) (centers_config : dict (dict R)) : result R :=
  let total_density := 0.0 in
  for_each distance_map
    (fun '(center_id, dist_km) total_density =>
       if dict_mem center_id centers_config then
         params <- dict_getitem centers_config center_id ;;
         let d0_i := dict_get_default params "d0" 0 in
         let g_i := dict_get_default params "g" 0 in
         Ok (total_density + d0_i * math_exp (- g_i * dist_km))
       else Ok total_density)
    total_density.

Definition calibrate_parameters (samples : list (R * R)) : result (R * R) :=
  valid_samples <-
    map_m (fun '(x, y) => ly <- math_log y ;; Ok (x, ly))
          (filter (fun '(x, y) => Rltb 0 y) samples) ;;
  if (List.length valid_samples <? 2)%nat then Ok (0.0, 0.0)
  else
    let xs := map fst valid_samples in
    let ln_ys := map snd valid_samples in
    x_mean <- statistics_mean xs ;;
    y_mean <- statistics_mean ln_ys ;;
    let numerator :=
      py_sum (map (fun '(x, y) => (x - x_mean) * (y - y_mean)) (combine xs ln_ys)) in
    let denominator := py_sum (map (fun x => (x - x_mean) ^ 2) xs) in
    if Reqb denominator 0 then Ok (0.0, 0.0)
    else
      slope <- float_div numerator denominator ;;
      let intercept := y_mean - slope * x_mean in
      let estimated_g := - slope in
      let estimated_d0 := math_exp intercept in
      Ok (estimated_d0, estimated_g).

Definition convert_rai_to_sqm (rai : R) : R := rai * 1600.0.

Definition convert_wah_to_sqm (wah : R) : R := wah * 4.0.

End Bertaud.

(* ===================================================================== *)
(** * The formulas of the specification                                   *)
(* ===================================================================== *)

(** These definitions follow the wording of the specification, not the
    code; the theorems below compare the two.  The module also names the
    concrete scenarios of the specification's testable properties. *)

Module Spec.

Import Finance.

(** Σ_{year = 1..n} f(year) *)
Fixpoint sum_years (n : nat) (f : nat -> R) : R :=
  match n with
  | O => 0
  | S m => sum_years m f + f (S m)
  end.

(** The rent in force during [year]: it starts at [initialAnnualRent] and
    is multiplied by [1 + rentEscalationRate] at the start of every year
    with [year > 1] and [(year - 1) mod escalationIntervalYears = 0]. *)
Fixpoint rent_in_year (p : FinancialParams) (year : nat) : R :=
  match year with
  | O => initial_annual_rent p
  | S y =>
      if ((1 <? Z.of_nat (S y)) &&
          ((Z.of_nat (S y) - 1) mod escalation_interval_years p =? 0))%Z
      then rent_in_year p y * (1 + rent_escalation_rate p)
      else rent_in_year p y
  end.

(** Discount factor of year [y]. *)
Definition discount_factor (p : FinancialParams) (y : nat) : R :=
  (1 + discount_rate p) ^ y.

(** Residual value on the straight-line depreciation basis. *)
Definition residual_value (p : FinancialParams) : R :=
  if (lease_term_years p <? asset_useful_life_years p)%Z
  then investment_cost p
       * (IZR (asset_useful_life_years p) - IZR (lease_term_years p))
       / IZR (asset_useful_life_years p)
  else 0.

(** NPV = upfrontFee + Σ discountedRent(year) + discountedTerminalValue *)
Definition npv_formula (p : FinancialParams) : R :=
  let term := Z.to_nat (lease_term_years p) in
  upfront_fee p
  + sum_years term (fun y => rent_in_year p y / discount_factor p y)
  + residual_value p / discount_factor p term.

(** A record that differs from [p] in its discount rate only. *)
Definition with_discount_rate (p : FinancialParams) (rate : R) : FinancialParams :=
  {| upfront_fee := upfront_fee p;
     initial_annual_rent := initial_annual_rent p;
     lease_term_years := lease_term_years p;
     discount_rate := rate;
     investment_cost := investment_cost p;
     asset_useful_life_years := asset_useful_life_years p;
     rent_escalation_rate := rent_escalation_rate p;
     escalation_interval_years := escalation_interval_years p |}.

(** The NPV scenario of the specification: upfront 50,000,000, rent
    10,000,000, term 30, rate 0.035, investment 1,000,000,000, useful
    life 50, the escalation fields at their defaults. *)
Definition npv_scenario : FinancialParams :=
  {| upfront_fee := 50000000;
     initial_annual_rent := 10000000;
     lease_term_years := 30;
     discount_rate := 0.035;
     investment_cost := 1000000000;
     asset_useful_life_years := 50;
     rent_escalation_rate := 0.15;
     escalation_interval_years := 3 |}.

(** The three records of the sensitivity sweep: what the caller's
    dictionary supplies (or the defaults 0, 0, 30, 0.0), useful life 50,
    default escalation, and the given discount rate. *)
Definition sweep_record (base_params : dict pyval) (lease : Z) (rate : R)
  : FinancialParams :=
  {| upfront_fee := as_float (dict_get_default base_params "upfront_fee" (PyInt 0));
     initial_annual_rent :=
       as_float (dict_get_default base_params "initial_annual_rent" (PyInt 0));
     lease_term_years := lease;
     discount_rate := rate;
     investment_cost :=
       as_float (dict_get_default base_params "investment_cost" (PyFloat 0.0));
     asset_useful_life_years := 50;
     rent_escalation_rate := 0.15;
     escalation_interval_years := 3 |}.

(** The caller's dictionary for the sweep over the NPV scenario. *)
Definition scenario_base_params : dict pyval :=
  [ ("upfront_fee", PyInt 50000000);
    ("initial_annual_rent", PyInt 10000000);
    ("lease_years", PyInt 30);
    ("investment_cost", PyInt 1000000000) ].

(** Break-even term: [ratio = investmentCost * discountRate /
    annualNetCashflow] and [n = - ln (1 - ratio) / ln (1 + discountRate)]. *)
Definition breakeven_ratio (investment annual_net_cashflow rate : R) : R :=
  investment * rate / annual_net_cashflow.

Definition breakeven_years (investment annual_net_cashflow rate : R) : R :=
  - ln (1 - breakeven_ratio investment annual_net_cashflow rate) / ln (1 + rate).

(** The two cases in which the investment never breaks even. *)
Definition never_breaks_even (investment annual_net_cashflow rate : R) : Prop :=
  annual_net_cashflow <= 0 \/ 1 <= breakeven_ratio investment annual_net_cashflow rate.

Import Bertaud.

(** Σ of a list of reals. *)
Definition rsum (l : list R) : R := fold_right Rplus 0 l.

(** The upper limit of the status classifier: 1.2 by default, 1.1 when
    the zone colour contains "yellow" in any letter case. *)
Definition upper_limit_for (zone_color : option string) : R :=
  match zone_color with
  | Some zc => if contains "yellow" (lower zc) then 1.1 else 1.2
  | None => 1.2
  end.

(** The five-band table of the specification, read top to bottom. *)
Definition final_status (upper_limit index : R) : string :=
  let optimal_low := 0.8 in
  let optimal_high := upper_limit - 0.1 in
  if Rltb index (optimal_low - 0.1) then "Under-utilization"
  else if Rltb index optimal_low then "Low Density Warning"
  else if Rleb index optimal_high then "Optimal"
  else if Rleb index upper_limit then "High Density Warning"
  else "Over-densification".

(** The five bands of the status classifier: [in_band upper index s]
    holds when [index] lies in the band that is labelled [s]. *)
Definition in_band (upper_limit index : R) (s : string) : Prop :=
  let optimal_low := 0.8 in
  let optimal_high := upper_limit - 0.1 in
  (s = "Under-utilization" /\ index < optimal_low - 0.1) \/
  (s = "Low Density Warning" /\ optimal_low - 0.1 <= index < optimal_low) \/
  (s = "Optimal" /\ optimal_low <= index <= optimal_high) \/
  (s = "High Density Warning" /\ optimal_high < index <= upper_limit) \/
  (s = "Over-densification" /\ upper_limit < index).

(** Contribution of one centre to the polycentric density: D0 e^(-g x)
    with the centre's parameters, and nothing for an unknown centre. *)
Definition center_term (centers_config : dict (dict R)) (center_id : string) (x : R) : R :=
  match dict_get centers_config center_id with
  | Some params =>
      dict_get_default params "d0" 0 * exp (- dict_get_default params "g" 0 * x)
  | None => 0
  end.

(** Contribution of one entry of the distance map. *)
Definition entry_term (centers_config : dict (dict R)) (entry : string * R) : R :=
  center_term centers_config (fst entry) (snd entry).

(** The keys of the distance map that the centre configuration shares. *)
Definition shared_keys (distance_map : dict R) (centers_config : dict (dict R))
  : list string :=
  filter (fun k => dict_mem k centers_config) (map fst distance_map).

(** Σ over the shared keys of D0_i e^(-g_i x_i). *)
Definition polycentric_formula (distance_map : dict R) (centers_config : dict (dict R))
  : R :=
  rsum (map (fun k => center_term centers_config k (dict_get_default distance_map k 0))
            (shared_keys distance_map centers_config)).

(** The two-centre configuration used by the repository's own check of
    the polycentric density. *)
Definition test_centers_config : dict (dict R) :=
  [ ("CBD_1", [ ("d0", 10.0); ("g", 0.1) ]);
    ("CBD_2", [ ("d0", 5.0); ("g", 0.2) ]) ].

Definition test_distance_map : dict R :=
  [ ("CBD_1", 5.0); ("CBD_2", 2.0) ].

(** Calibration: the samples that survive the filter, log-linearised. *)
Definition valid_samples (samples : list (R * R)) : list (R * R) :=
  filter (fun s => Rltb 0 (snd s)) samples.

Definition distances (samples : list (R * R)) : list R :=
  map fst (valid_samples samples).

Definition log_densities (samples : list (R * R)) : list R :=
  map (fun s => ln (snd s)) (valid_samples samples).

Definition mean (l : list R) : R := rsum l / INR (List.length l).

(** slope = Σ(x - x̄)(y - ȳ) / Σ(x - x̄)² *)
Definition ols_slope (xs ys : list R) : R :=
  rsum (map (fun xy => (fst xy - mean xs) * (snd xy - mean ys)) (combine xs ys))
  / rsum (map (fun x => (x - mean xs) ^ 2) xs).

(** intercept = ȳ - slope x̄ *)
Definition ols_intercept (xs ys : list R) : R :=
  mean ys - ols_slope xs ys * mean xs.

Definition all_identical (xs : list R) : Prop :=
  forall x x', In x xs -> In x' xs -> x = x'.

(** Samples generated exactly from the model [D0 e^(-g x)]. *)
Definition model_samples (D0 gradient : R) (xs : list R) : list (R * R) :=
  map (fun x => (x, D0 * exp (- gradient * x))) xs.

End Spec.

(* ===================================================================== *)
(** * bertaud_engine.py: construction and input validation                *)
(* ===================================================================== *)

Module EngineSetup.

Import Bertaud.

Section Formatting.

(** The text that an f-string produces for a float.  The decimal rendering
    of a number is not a function of the real it is read as here, so the
    rendering is a parameter of the two definitions that print one. *)
Variable float_str : R -> string.

(** [BertaudAuditEngine(d0_center_density, density_gradient_g)]: the lines
    printed by the guardrails, in order, and the constructed object. *)
Definition BertaudAuditEngine_init (d0_center_density density_gradient_g : R)
  : list string * BertaudAuditEngine :=
  let printed := [] in
  let printed :=
    if Rltb 0.5 density_gradient_g then
      (printed ++
       [("Warning: Gradient g=" ++ float_str density_gradient_g
         ++ " is unusually high. This implies extremely rapid density decay (Urban Sprawl error potential).")%string])%list
    else printed in
  let printed :=
    if Rltb density_gradient_g 0.01 then
      (printed ++
       [("Warning: Gradient g=" ++ float_str density_gradient_g
         ++ " is unusually low. This implies almost uniform density (unrealistic for monocentric cities).")%string])%list
    else printed in
  (printed, {| d0 := d0_center_density; g := density_gradient_g |}).

(** [BertaudAuditEngine.validate_inputs] *)
Definition validate_inputs (d0 g distance_km : R) : list string :=
  let errors := [] in
  let errors :=
    if Rltb d0 0 then
      (errors ++ [("D0 (Center Density) cannot be negative: " ++ float_str d0)%string])%list
    else errors in
  let errors :=
    if Rltb g 0 then
      (errors ++ [("Gradient (g) cannot be negative: " ++ float_str g)%string])%list
    else errors in
  let errors :=
    if Rltb distance_km 0 then
      (errors ++ [("Distance (x) cannot be negative: " ++ float_str distance_km)%string])%list
    else errors in
  errors.

End Formatting.

End EngineSetup.

(* ===================================================================== *)
(** * far_calculation.py                                                  *)
(* ===================================================================== *)

Module Far.

Import PyNum.

Definition SQM_PER_RAI : Z := 1600.
Definition DEFAULT_LEGAL_MAX_FAR : R := 10.00.

(** [class FARStatus(Enum)] with its members' [name] and [value]. *)
Inductive FARStatus : Set := UNDER | OPTIMAL | OVER.

Definition FARStatus_name (s : FARStatus) : string :=
  match s with
  | UNDER => "UNDER"
  | OPTIMAL => "OPTIMAL"
  | OVER => "OVER"
  end.

Definition FARStatus_value (s : FARStatus) : string :=
  match s with
  | UNDER => "ใช้ประโยชน์น้อยเกินไป (UNDER)"
  | OPTIMAL => "เหมาะสม (OPTIMAL)"
  | OVER => "หนาแน่นเกินไป (OVER)"
  end.

Record FARInputs : Type := mkFARInputs {
  land_size_rai : R;
  proposed_gfa : R;
  d0 : R;
  g : R;
  distance_km : R;
  legal_max_far : R
}.

(** [FARInputs(...)] without [legal_max_far]: the field takes its default. *)
Definition FARInputs_default (land_size_rai proposed_gfa d0 g distance_km : R)
  : FARInputs :=
  mkFARInputs land_size_rai proposed_gfa d0 g distance_km DEFAULT_LEGAL_MAX_FAR.

(** [class FARResult]; the field [legal_max_far] is [result_legal_max_far]
    here, the name being taken by [FARInputs]. *)
Record FARResult : Type := mkFARResult {
  proposed_far : R;
  theoretical_far : R;
  result_legal_max_far : R;
  efficiency_score : R;
  status : FARStatus;
  status_thai : string;
  land_size_sqm : R
}.

(** The dictionary of [FARResult.to_dict]. *)
Record FARResultDict : Type := mkFARResultDict {
  proposedFar : R;
  theoreticalFar : R;
  legalMaxFar : R;
  efficiencyScore : R;
  status_key : string;
  statusThai : string;
  landSizeSqm : R
}.

Definition FARResult_to_dict (self : FARResult) : FARResultDict :=
  {| proposedFar := py_round (proposed_far self) 2;
     theoreticalFar := py_round (theoretical_far self) 2;
     legalMaxFar := py_round (result_legal_max_far self) 2;
     efficiencyScore := py_round (efficiency_score self) 2;
     status_key := FARStatus_name (status self);
     statusThai := status_thai self;
     landSizeSqm := land_size_sqm self |}.

(** [class FARCalculationError(Exception)] *)
Record FARCalculationError : Type := mkFARCalculationError {
  code : string;
  message : string;
  message_thai : string
}.

(** The dictionary of [FARCalculationError.to_dict]. *)
Record FARErrorDict : Type := mkFARErrorDict {
  error_key : bool;
  code_key : string;
  message_key : string;
  messageThai : string
}.

Definition FARCalculationError_to_dict (self : FARCalculationError) : FARErrorDict :=
  {| error_key := true;
     code_key := code self;
     message_key := message self;
     messageThai := message_thai self |}.

(** What a function of this module can raise: its own exception or one
    of the runtime's. *)
Inductive raised : Type :=
| Custom (e : FARCalculationError)
| Builtin (e : exn).

(** A computation returns ([inr]) or raises ([inl]). *)
Definition outcome (A : Type) : Type := (raised + A)%type.

Definition calculate_far (inputs : FARInputs) : outcome FARResult :=
  (* error guards *)
  if Rleb (land_size_rai inputs) 0 then
    inl (Custom (mkFARCalculationError "ZERO_LAND_SIZE"
                   "Land size must be greater than 0"
                   "ขนาดที่ดินต้องมากกว่า 0"))
  else if Rltb (proposed_gfa inputs) 0 then
    inl (Custom (mkFARCalculationError "ZERO_GFA"
                   "Proposed GFA cannot be negative"
                   "พื้นที่อาคารต้องไม่ติดลบ"))
  else if Rleb (d0 inputs) 0 || Rltb (g inputs) 0 || Rltb (distance_km inputs) 0 then
    inl (Custom (mkFARCalculationError "INVALID_PARAMS"
                   "D0 must be positive, g and distance_km must be non-negative"
                   "D₀ ต้องเป็นบวก, g และระยะทางต้องไม่ติดลบ"))
  else
    (* calculations *)
    let land_size_sqm := land_size_rai inputs * IZR SQM_PER_RAI in
    match float_div (proposed_gfa inputs) land_size_sqm with
    | Raise e => inl (Builtin e)
    | Ok proposed_far =>
        let theoretical_far := d0 inputs * math_exp (- g inputs * distance_km inputs) in
        match (if Rltb 0 theoretical_far
               then float_div proposed_far theoretical_far
               else Ok 0) with
        | Raise e => inl (Builtin e)
        | Ok efficiency_score =>
            let status :=
              if Rltb efficiency_score 0.8 then UNDER
              else if Rleb efficiency_score 1.2 then OPTIMAL
              else OVER in
            inr {| proposed_far := proposed_far;
                   theoretical_far := theoretical_far;
                   result_legal_max_far := legal_max_far inputs;
                   efficiency_score := efficiency_score;
                   status := status;
                   status_thai := FARStatus_value status;
                   land_size_sqm := land_size_sqm |}
        end
    end.

Definition calculate_theoretical_far (d0 g distance_km : R) : R :=
  d0 * math_exp (- g * distance_km).

Definition get_far_status (efficiency_score : R) : FARStatus :=
  if Rltb efficiency_score 0.8 then UNDER
  else if Rleb efficiency_score 1.2 then OPTIMAL
  else OVER.

(** [try: ... except FARCalculationError as e: ...]: any other exception
    passes through. *)
Definition calculate_far_safe (inputs : FARInputs)
  : outcome (FARResultDict + FARErrorDict) :=
  match calculate_far inputs with
  | inr result => inr (inl (FARResult_to_dict result))
  | inl (Custom e) => inr (inr (FARCalculationError_to_dict e))
  | inl (Builtin e) => inl (Builtin e)
  end.

End Far.

(* ===================================================================== *)
(** * Notions used to state further properties                            *)
(* ===================================================================== *)

Module Notions.

Import Finance Bertaud Spec.


(** The coarse three-way status that corresponds to an audit status. *)
Definition coarse_status (s : string) : Far.FARStatus :=
  if String.eqb s "Under-utilization" then Far.UNDER
  else if String.eqb s "Low Density Warning" then Far.UNDER
  else if String.eqb s "Optimal" then Far.OPTIMAL
  else if String.eqb s "High Density Warning" then Far.OPTIMAL
  else Far.OVER.

(** The number of completed escalation intervals before [year]. *)
Definition escalations_before (p : FinancialParams) (year : nat) : nat :=
  Z.to_nat ((Z.of_nat year - 1) / escalation_interval_years p).


End Notions.

(* ===================================================================== *)
(** * Four methods, with the float effects that decide their result       *)
(* ===================================================================== *)

(** [calculate_optimal_density] in binary64, [validate_construction_cost]
    with [str.lower] as Python has it, [calibrate_parameters] with the
    range of [math.exp] and of [**], and [calculate_polycentric_density]
    over the arithmetic that accumulates its sum. *)

Module Refined.

Import Finance.

(** ** bertaud_engine.py: calculate_optimal_density

    The engine, the arguments and the numbers of the result are floats;
    every operation is the one of module [F64], and a literal is the
    float it denotes. *)
Record BertaudAuditEngine : Type := mkEngine {
  d0 : float;
  g : float
}.

Inductive transport : Type :=
| TransportFloat (c : float)
| TransportCallable (f : float -> float).

Record GapAnalysis : Type := mkGapAnalysis {
  legal_max_far : float;
  theoretical_demand_far : float;
  far_mismatch_gap : float;
  is_constraint_active : bool;
  policy_recommendation : string
}.

Record DensityAudit : Type := mkDensityAudit {
  distance_km : float;
  theoretical_density : float;
  proposed_density : float;
  efficiency_index : float;
  status : string;
  gap_analysis : option GapAnalysis;
  input_land_cost : float;
  input_capital_k : float
}.

Definition calculate_optimal_density
    (self : BertaudAuditEngine)
    (capital_k land_cost_e : float) (transport_cost : transport)
    (distance_km proposed_density : float)
    (legal_far_limit : option float) (zone_color : option string)
  : result DensityAudit :=
  (* 1. theoretical optimal density *)
  e <- fexp (fmul (fneg (g self)) distance_km) ;;
  let theoretical_density := fmul (d0 self) e in
  (* 2. efficiency index *)
  efficiency_index <-
    (if feqb theoretical_density (Fin 0) then Ok (f64 0.0)
     else fdiv proposed_density theoretical_density) ;;
  (* 3. audit status *)
  let lower_limit := f64 0.8 in
  let upper_limit := f64 1.2 in
  let upper_limit :=
    match zone_color with
    | None => upper_limit
    | Some "" => upper_limit
    | Some zc =>
        let color := lower zc in
        if contains "yellow" color then f64 1.1 else upper_limit
    end in
  let status := "Optimal" in
  let status :=
    if flt efficiency_index (fsub lower_limit (f64 0.1)) then "Under-utilization"
    else if flt efficiency_index lower_limit then "Low Density Warning"
    else if flt (fadd upper_limit (f64 0.1)) efficiency_index then "Over-densification"
    else if flt upper_limit efficiency_index then "High Density Warning"
    else status in
  let optimal_low := lower_limit in
  let optimal_high := fsub upper_limit (f64 0.1) in
  let status :=
    if flt efficiency_index (fsub optimal_low (f64 0.1)) then "Under-utilization"
    else if flt efficiency_index optimal_low then "Low Density Warning"
    else if fle efficiency_index optimal_high then "Optimal"
    else if fle efficiency_index upper_limit then "High Density Warning"
    else "Over-densification" in
  (* 4. gap analysis *)
  let gap_analysis :=
    match legal_far_limit with
    | None => None
    | Some legal_far_limit =>
        let far_gap := fsub theoretical_density legal_far_limit in
        let is_constrained := flt (Fin 0) far_gap in
        let policy_recommendation := "None" in
        let policy_recommendation :=
          if is_constrained && flt (f64 1.0) far_gap
          then "Request Zoning Upgrade (Upsize)"
          else if negb is_constrained
                  && flt (f64 2.0) (fsub legal_far_limit theoretical_density)
          then "Zone Over-supply (Focus on infrastructure)"
          else policy_recommendation in
        Some {| legal_max_far := legal_far_limit;
                theoretical_demand_far := theoretical_density;
                far_mismatch_gap := far_gap;
                is_constraint_active := is_constrained;
                policy_recommendation := policy_recommendation |}
    end in
  Ok {| distance_km := distance_km;
        theoretical_density := theoretical_density;
        proposed_density := proposed_density;
        efficiency_index := efficiency_index;
        status := status;
        gap_analysis := gap_analysis;
        input_land_cost := land_cost_e;
        input_capital_k := capital_k |}.

(** The upper limit of the status classifier: 1.2 by default, 1.1 when
    the zone colour contains "yellow" in any letter case. *)
Definition upper_limit_for (zone_color : option string) : float :=
  match zone_color with
  | Some zc => if contains "yellow" (lower zc) then f64 1.1 else f64 1.2
  | None => f64 1.2
  end.

(** The status as the second chain of comparisons decides it. *)
Definition final_status (upper_limit index : float) : string :=
  if flt index (fsub (f64 0.8) (f64 0.1)) then "Under-utilization"
  else if flt index (f64 0.8) then "Low Density Warning"
  else if fle index (fsub upper_limit (f64 0.1)) then "Optimal"
  else if fle index upper_limit then "High Density Warning"
  else "Over-densification".

(** The five bands of the specification, with optimalLow = 0.8 and
    optimalHigh = upperLimit - 0.1 as the floats that these expressions
    evaluate to: [in_band upper index s] holds when [index] lies in the
    band labelled [s]. *)
Definition in_band (upper_limit index : float) (s : string) : Prop :=
  let optimal_low := f64 0.8 in
  let optimal_high := fsub upper_limit (f64 0.1) in
  (s = "Under-utilization" /\
     flt index (fsub optimal_low (f64 0.1)) = true) \/
  (s = "Low Density Warning" /\
     fle (fsub optimal_low (f64 0.1)) index = true /\ flt index optimal_low = true) \/
  (s = "Optimal" /\
     fle optimal_low index = true /\ fle index optimal_high = true) \/
  (s = "High Density Warning" /\
     flt optimal_high index = true /\ fle index upper_limit = true) \/
  (s = "Over-densification" /\ flt upper_limit index = true).

(** ** financial_audit.py: validate_construction_cost *)

Section Lowercase.

(** [str.lower] maps every cased character of Unicode (the Kelvin sign
    U+212A to the letter k, for one), so on text outside ASCII it is not
    [Py.lower].  The mapping is a parameter here; a property that needs
    something of it says so. *)
Variable str_lower : string -> string.

Definition validate_construction_cost
    (proposed_cost_per_sqm : R) (building_type : string) (province : string)
  : result CostValidation :=
  let normalized_province := str_lower province in
  let location_factor := dict_get_default location_factors normalized_province 1.0 in
  match dict_get base_benchmarks (str_lower building_type) with
  | None =>
      Ok (UnknownTypeResult "Unknown Type" 0.0
            ("Building type '" ++ building_type ++ "' not recognized."))
  | Some base_standard =>
      let adjusted_standard_cost := base_standard * location_factor in
      deviation <- float_div (proposed_cost_per_sqm - adjusted_standard_cost)
                             adjusted_standard_cost ;;
      let deviation_percent := deviation * 100.0 in
      let status := "Pass" in
      let status := if Rltb 0.20 (Rabs deviation)
                    then "Cost Anomaly Detected" else status in
      Ok (BenchmarkResult status deviation_percent base_standard
            location_factor adjusted_standard_cost province)
  end.

End Lowercase.

(** ** bertaud_engine.py: calibrate_parameters

    The squares of the regression denominator and the final exponential
    can leave the range of a float. *)
Definition calibrate_parameters (samples : list (R * R)) : result (R * R) :=
  valid_samples <-
    map_m (fun '(x, y) => ly <- math_log y ;; Ok (x, ly))
          (filter (fun '(x, y) => Rltb 0 y) samples) ;;
  if (List.length valid_samples <? 2)%nat then Ok (0.0, 0.0)
  else
    let xs := map fst valid_samples in
    let ln_ys := map snd valid_samples in
    x_mean <- statistics_mean xs ;;
    y_mean <- statistics_mean ln_ys ;;
    let numerator :=
      py_sum (map (fun '(x, y) => (x - x_mean) * (y - y_mean)) (combine xs ln_ys)) in
    squares <- map_m (fun x => float_pow_ranged (x - x_mean) 2) xs ;;
    let denominator := py_sum squares in
    if Reqb denominator 0 then Ok (0.0, 0.0)
    else
      slope <- float_div numerator denominator ;;
      let intercept := y_mean - slope * x_mean in
      let estimated_g := - slope in
      estimated_d0 <- math_exp_ranged intercept ;;
      Ok (estimated_d0, estimated_g).

(** ** bertaud_engine.py: calculate_polycentric_density *)

(** The operations on floats that the method uses. *)
Record float_ops (F : Type) : Type := mkFloatOps {
  op_zero : F;
  op_add : F -> F -> F;
  op_mul : F -> F -> F;
  op_neg : F -> F;
  op_exp : F -> result F
}.

Arguments op_zero {F} _.
Arguments op_add {F} _ _ _.
Arguments op_mul {F} _ _ _.
Arguments op_neg {F} _ _.
Arguments op_exp {F} _ _.

Section Arithmetic.

Context {F : Type} (ops : float_ops F).

Definition calculate_polycentric_density
    (distance_map : dict F) (centers_config : dict (dict F)) : result F :=
  let total_density := op_zero ops in
  for_each distance_map
    (fun '(center_id, dist_km) total_density =>
       if dict_mem center_id centers_config then
         params <- dict_getitem centers_config center_id ;;
         let d0_i := dict_get_default params "d0" (op_zero ops) in
         let g_i := dict_get_default params "g" (op_zero ops) in
         e <- op_exp ops (op_mul ops (op_neg ops g_i) dist_km) ;;
         Ok (op_add ops total_density (op_mul ops d0_i e))
       else Ok total_density)
    total_density.

(** The entries of the distance map whose centre the configuration
    knows, in the order of the map. *)
Definition shared_entries (distance_map : dict F) (centers_config : dict (dict F))
  : dict F :=
  filter (fun entry => dict_mem (fst entry) centers_config) distance_map.

(** The contribution d0_i e^(-g_i x_i) of one entry of the distance map. *)
Definition contribution (centers_config : dict (dict F)) (entry : string * F)
  : result F :=
  match dict_get centers_config (fst entry) with
  | Some params =>
      e <- op_exp ops (op_mul ops (op_neg ops (dict_get_default params "g" (op_zero ops)))
                         (snd entry)) ;;
      Ok (op_mul ops (dict_get_default params "d0" (op_zero ops)) e)
  | None => Ok (op_zero ops)
  end.

(** The sum of a list of terms, added one after the other to 0. *)
Definition sum_in_order (terms : list F) : F :=
  fold_left (op_add ops) terms (op_zero ops).

End Arithmetic.

(** The arithmetic of the reals. *)
Definition exact : float_ops R :=
  {| op_zero := 0;
     op_add := Rplus;
     op_mul := Rmult;
     op_neg := Ropp;
     op_exp := fun x => Ok (exp x) |}.

(** The arithmetic of the code. *)
Definition binary64 : float_ops float :=
  {| op_zero := Fin 0;
     op_add := fadd;
     op_mul := fmul;
     op_neg := fneg;
     op_exp := fexp |}.

(** Three centres without a gradient, and one distance map in two
    orders of insertion. *)
Definition three_centers : dict (dict float) :=
  [ ("A", [ ("d0", f64 0.1) ]);
    ("B", [ ("d0", f64 0.2) ]);
    ("C", [ ("d0", f64 0.3) ]) ].

Definition distances_abc : dict float :=
  [ ("A", f64 1.0); ("B", f64 1.0); ("C", f64 1.0) ].

Definition distances_cba : dict float :=
  [ ("C", f64 1.0); ("B", f64 1.0); ("A", f64 1.0) ].

(** The samples on which the calibration leaves the range of a float:
    density 1 at distance 1 and density 2^(-1000) at distance 1.5. *)
Definition steep_samples : list (R * R) := [ (1, 1); (1.5, / 2 ^ 1000) ].

End Refined.

(* ===================================================================== *)
(** * Properties of the runtime fragment                                  *)
(* ===================================================================== *)

Module PyFacts.

Lemma Rltb_spec (x y : R) : reflect (x < y) (Rltb x y).
Proof. unfold Rltb. destruct (Rlt_dec x y); constructor; assumption. Qed.

Lemma Rleb_spec (x y : R) : reflect (x <= y) (Rleb x y).
Proof. unfold Rleb. destruct (Rle_dec x y); constructor; assumption. Qed.

Lemma Reqb_spec (x y : R) : reflect (x = y) (Reqb x y).
Proof. unfold Reqb. destruct (Req_dec_T x y); constructor; assumption. Qed.


Lemma Rleb_true_iff (x y : R) : Rleb x y = true <-> x <= y.
Proof. destruct (Rleb_spec x y); split; intro; (assumption || reflexivity || discriminate || contradiction). Qed.

Lemma Rltb_true (x y : R) : x < y -> Rltb x y = true.
Proof. intro H. destruct (Rltb_spec x y); [reflexivity | contradiction]. Qed.

Lemma Rltb_false (x y : R) : y <= x -> Rltb x y = false.
Proof. intro H. destruct (Rltb_spec x y); [lra | reflexivity]. Qed.

Lemma Rleb_true (x y : R) : x <= y -> Rleb x y = true.
Proof. intro H. destruct (Rleb_spec x y); [reflexivity | contradiction]. Qed.

Lemma Rleb_false (x y : R) : y < x -> Rleb x y = false.
Proof. intro H. destruct (Rleb_spec x y); [lra | reflexivity]. Qed.

Lemma Reqb_true (x y : R) : x = y -> Reqb x y = true.
Proof. intro H. destruct (Reqb_spec x y); [reflexivity | contradiction]. Qed.

Lemma Reqb_false (x y : R) : x <> y -> Reqb x y = false.
Proof. intro H. destruct (Reqb_spec x y); [contradiction | reflexivity]. Qed.

Lemma float_div_ok (x y : R) : y <> 0 -> float_div x y = Ok (x / y).
Proof. intro H. unfold float_div. now rewrite Reqb_false. Qed.

Lemma float_div_zero (x : R) : float_div x 0 = Raise ZeroDivisionError.
Proof. unfold float_div. now rewrite Reqb_true. Qed.

Lemma int_truediv_ok (a b : Z) : b <> 0%Z -> int_truediv a b = Ok (IZR a / IZR b).
Proof.
  intro H. unfold int_truediv.
  destruct (Z.eqb_spec b 0); [contradiction | reflexivity].
Qed.

Lemma int_mod_ok (a b : Z) : b <> 0%Z -> int_mod a b = Ok (a mod b)%Z.
Proof.
  intro H. unfold int_mod.
  destruct (Z.eqb_spec b 0); [contradiction | reflexivity].
Qed.

Lemma float_pow_nat (x : R) (n : nat) : float_pow x (Z.of_nat n) = Ok (x ^ n).
Proof.
  unfold float_pow.
  destruct (Z.ltb_spec (Z.of_nat n) 0) as [H | _]; [lia |].
  cbn [andb]. now rewrite pow_powerRZ.
Qed.

Lemma math_log_ok (x : R) : 0 < x -> math_log x = Ok (ln x).
Proof. intro H. unfold math_log. now rewrite Rltb_true. Qed.

Lemma for_each_app {A S : Type} (l1 l2 : list A) (body : A -> S -> result S) (s : S) :
  for_each (l1 ++ l2)%list body s
  = (s' <- for_each l1 body s ;; for_each l2 body s').
Proof.
  revert s. induction l1 as [| a l1 IH]; intro s; cbn; [reflexivity |].
  destruct (body a s); cbn; [apply IH | reflexivity].
Qed.

Lemma range_one_succ (n : nat) :
  range 1 (Z.of_nat (S n) + 1) = (range 1 (Z.of_nat n + 1) ++ [Z.of_nat (S n)])%list.
Proof.
  unfold range.
  replace (Z.to_nat (Z.of_nat (S n) + 1 - 1)) with (S n) by lia.
  replace (Z.to_nat (Z.of_nat n + 1 - 1)) with n by lia.
  rewrite seq_S, map_app. cbn [map Nat.add]. do 2 f_equal. lia.
Qed.

Lemma range_one_zero : range 1 (0 + 1) = [].
Proof. reflexivity. Qed.

End PyFacts.

(* ===================================================================== *)
(** * Properties of the binary64 values                                   *)
(* ===================================================================== *)

Module F64Facts.

Import PyNum PyFacts.

Lemma ln_2_pos : 0 < ln 2.
Proof. pose proof ln_lt_2. lra. Qed.

Lemma ln_powerRZ_2 (e : Z) : ln (powerRZ 2 e) = IZR e * ln 2.
Proof. rewrite powerRZ_Rpower by lra. unfold Rpower. apply ln_exp. Qed.

(** The exponent of a number is the exponent of the binade it lies in. *)
Lemma ilog2_binade (x : R) (e : Z) :
  powerRZ 2 e <= x < powerRZ 2 (e + 1) -> ilog2 x = e.
Proof.
  intros [Hlo Hhi]. unfold ilog2. symmetry. apply Int_part_spec.
  pose proof ln_2_pos as H2.
  assert (Hpos : 0 < powerRZ 2 e) by (apply powerRZ_lt; lra).
  assert (H1 : IZR e * ln 2 <= ln x).
  { rewrite <- ln_powerRZ_2. destruct Hlo as [Hlt | <-]; [| lra].
    left. now apply ln_increasing. }
  assert (H3 : ln x < (IZR e + 1) * ln 2).
  { rewrite <- plus_IZR, <- ln_powerRZ_2. apply ln_increasing; lra. }
  split.
  - apply Rmult_lt_reg_r with (ln 2); [assumption |].
    unfold Rdiv. rewrite Rmult_minus_distr_r, Rmult_assoc, Rinv_l by lra. lra.
  - apply Rmult_le_reg_r with (ln 2); [assumption |].
    unfold Rdiv. rewrite Rmult_assoc, Rinv_l by lra. lra.
Qed.

Lemma round_half_even_near (y : R) (z : Z) :
  IZR z - 1 / 2 < y < IZR z + 1 / 2 -> round_half_even y = z.
Proof.
  intros [Hlo Hhi]. unfold round_half_even.
  destruct (Rle_dec (IZR z) y) as [Hge | Hlt].
  - assert (Hf : z = Int_part y) by (apply Int_part_spec; lra).
    rewrite <- Hf.
    destruct (Rltb_spec (y - IZR z) (1 / 2)); [reflexivity | lra].
  - assert (Hf : (z - 1)%Z = Int_part y).
    { apply Int_part_spec. rewrite minus_IZR. lra. }
    rewrite <- Hf. rewrite minus_IZR.
    destruct (Rltb_spec (y - (IZR z - 1)) (1 / 2)); [lra |].
    destruct (Rltb_spec (1 / 2) (y - (IZR z - 1))); [lia | lra].
Qed.

Lemma round_half_even_tie (y : R) (f : Z) :
  y = IZR f + 1 / 2 -> round_half_even y = if Z.even f then f else (f + 1)%Z.
Proof.
  intro Hy. unfold round_half_even.
  assert (Hf : f = Int_part y) by (apply Int_part_spec; lra).
  rewrite <- Hf.
  destruct (Rltb_spec (y - IZR f) (1 / 2)); [lra |].
  destruct (Rltb_spec (1 / 2) (y - IZR f)); [lra | reflexivity].
Qed.

Lemma nearest_float_0 : nearest_float 0 = 0.
Proof. unfold nearest_float. now rewrite Reqb_true. Qed.

(** Rounding a positive number of the normal range. *)
Lemma nearest_float_normal (x : R) (e : Z) :
  (-1022 <= e)%Z ->
  powerRZ 2 e <= x < powerRZ 2 (e + 1) ->
  nearest_float x
  = IZR (round_half_even (x / powerRZ 2 (e - 52))) * powerRZ 2 (e - 52).
Proof.
  intros He Hb.
  assert (Hpos : 0 < powerRZ 2 e) by (apply powerRZ_lt; lra).
  unfold nearest_float, ulp.
  rewrite Reqb_false, Rltb_false by lra.
  rewrite Rabs_pos_eq by lra. rewrite (ilog2_binade x e Hb).
  rewrite Z.max_l by assumption. lra.
Qed.

(** Evaluation of [nearest_float]: [lo] is the lower end of the binade of
    [x], [u] the spacing of the floats in it, and [z * u] the float within
    half a spacing of [x]. *)
Lemma nearest_float_near (x : R) (e z : Z) (lo u : R) :
  (-1022 <= e)%Z ->
  lo = powerRZ 2 e -> u = powerRZ 2 (e - 52) ->
  lo <= x < 2 * lo ->
  (IZR z - 1 / 2) * u < x < (IZR z + 1 / 2) * u ->
  nearest_float x = IZR z * u.
Proof.
  intros He -> -> Hb Hz.
  assert (Hu : 0 < powerRZ 2 (e - 52)) by (apply powerRZ_lt; lra).
  rewrite (nearest_float_normal x e He).
  - rewrite (round_half_even_near _ z); [reflexivity |].
    split.
    + apply Rmult_lt_reg_r with (powerRZ 2 (e - 52)); [assumption |].
      unfold Rdiv. rewrite Rmult_assoc, Rinv_l by lra. lra.
    + apply Rmult_lt_reg_r with (powerRZ 2 (e - 52)); [assumption |].
      unfold Rdiv. rewrite Rmult_assoc, Rinv_l by lra. lra.
  - rewrite powerRZ_add by lra. change (powerRZ 2 1) with (2 * 1). lra.
Qed.

(** The same when [x] lies half-way between the floats [f * u] and
    [(f + 1) * u]. *)
Lemma nearest_float_tie (x : R) (e f : Z) (lo u : R) :
  (-1022 <= e)%Z ->
  lo = powerRZ 2 e -> u = powerRZ 2 (e - 52) ->
  lo <= x < 2 * lo ->
  x = (IZR f + 1 / 2) * u ->
  nearest_float x = IZR (if Z.even f then f else (f + 1)%Z) * u.
Proof.
  intros He -> -> Hb Hz.
  assert (Hu : 0 < powerRZ 2 (e - 52)) by (apply powerRZ_lt; lra).
  rewrite (nearest_float_normal x e He).
  - rewrite (round_half_even_tie _ f); [reflexivity |].
    rewrite Hz. field. lra.
  - rewrite powerRZ_add by lra. change (powerRZ 2 1) with (2 * 1). lra.
Qed.

Lemma powerRZ_2_pos (p : positive) : powerRZ 2 (Z.pos p) = IZR (Z.pow_pos 2 p).
Proof. cbn [powerRZ]. rewrite pow_IZR, positive_nat_Z. reflexivity. Qed.

Lemma powerRZ_2_neg (p : positive) : powerRZ 2 (Z.neg p) = / IZR (Z.pow_pos 2 p).
Proof. cbn [powerRZ]. rewrite pow_IZR, positive_nat_Z. reflexivity. Qed.

(** Powers of two with a numeral exponent, written as numerals. *)
Ltac pow2_norm :=
  repeat match goal with
  | |- context [powerRZ 2 ?k] =>
      let k' := eval vm_compute in k in
      lazymatch k' with
      | Z0 => change (powerRZ 2 k) with 1
      | Zpos ?p =>
          let v := eval vm_compute in (Z.pow_pos 2 p) in
          replace (powerRZ 2 k) with (IZR v)
            by (change k with (Zpos p); rewrite powerRZ_2_pos; reflexivity)
      | Zneg ?p =>
          let v := eval vm_compute in (Z.pow_pos 2 p) in
          replace (powerRZ 2 k) with (/ IZR v)
            by (change k with (Zneg p); rewrite powerRZ_2_neg; reflexivity)
      end
  end.

(** Rewrites [nearest_float x], for a numeral [x] of the binade of
    exponent [e], into the float [z * 2^(e - 52)]. *)
Ltac nearest_to e z :=
  match goal with
  | |- context [nearest_float ?x] =>
      rewrite (nearest_float_near x e z (powerRZ 2 e) (powerRZ 2 (e - 52))
                 ltac:(lia) eq_refl eq_refl);
      [ | pow2_norm; lra | pow2_norm; lra ]
  end.

(** *** The range *)

Lemma float_max_lower_bound : 1 <= float_max.
Proof.
  unfold float_max.
  assert (H53 : 2 <= 2 ^ 53).
  { change (2 ^ 53) with (2 * 2 ^ 52).
    pose proof (pow_R1_Rle 2 52 ltac:(lra)). lra. }
  pose proof (pow_R1_Rle 2 971 ltac:(lra)). nra.
Qed.

Lemma float_max_large : 4503599627370496 <= float_max.
Proof.
  unfold float_max.
  assert (H53 : 2 * 4503599627370496 <= 2 ^ 53).
  { change (2 ^ 53) with (2 * 2 ^ 52).
    replace (2 ^ 52) with 4503599627370496; [lra |].
    change 2 with (IZR 2) at 1. rewrite pow_IZR. reflexivity. }
  pose proof (pow_R1_Rle 2 971 ltac:(lra)). nra.
Qed.

Lemma float_max_upper_bound : float_max < 2 ^ 1024.
Proof.
  unfold float_max.
  replace (2 ^ 1024) with (2 ^ 53 * 2 ^ 971) by (rewrite <- pow_add; reflexivity).
  assert (0 < 2 ^ 971) by (apply pow_lt; lra). nra.
Qed.

Lemma exp_ln_2_pow (n : nat) : exp (INR n * ln 2) = 2 ^ n.
Proof.
  rewrite <- (Rpower_pow n 2) by lra. reflexivity.
Qed.

(** *** Operations that stay in the range *)

Lemma round_in_range (x : R) :
  Rabs (nearest_float x) <= float_max -> round x = Fin (nearest_float x).
Proof. intro H. unfold round. now rewrite Rltb_false. Qed.

Lemma round_0 : round 0 = Fin 0.
Proof.
  rewrite round_in_range; rewrite nearest_float_0; [reflexivity |].
  rewrite Rabs_R0. pose proof float_max_lower_bound. lra.
Qed.

(** Evaluation of [round], as for [nearest_float]. *)
Lemma round_near (x : R) (e z : Z) (lo u : R) :
  (-1022 <= e)%Z ->
  lo = powerRZ 2 e -> u = powerRZ 2 (e - 52) ->
  lo <= x < 2 * lo ->
  (IZR z - 1 / 2) * u < x < (IZR z + 1 / 2) * u ->
  0 <= IZR z * u <= 4503599627370496 ->
  round x = Fin (IZR z * u).
Proof.
  intros He Hlo Hu Hb Hz Hr.
  rewrite round_in_range; rewrite (nearest_float_near x e z lo u) by assumption;
    [reflexivity |].
  rewrite Rabs_pos_eq by lra. pose proof float_max_large. lra.
Qed.

Lemma round_tie (x : R) (e f : Z) (lo u : R) :
  (-1022 <= e)%Z ->
  lo = powerRZ 2 e -> u = powerRZ 2 (e - 52) ->
  lo <= x < 2 * lo ->
  x = (IZR f + 1 / 2) * u ->
  0 <= IZR (if Z.even f then f else (f + 1)%Z) * u <= 4503599627370496 ->
  round x = Fin (IZR (if Z.even f then f else (f + 1)%Z) * u).
Proof.
  intros He Hlo Hu Hb Hz Hr.
  rewrite round_in_range; rewrite (nearest_float_tie x e f lo u) by assumption;
    [reflexivity |].
  rewrite Rabs_pos_eq by lra. pose proof float_max_large. lra.
Qed.

(** Rewrites [round x], for a numeral [x] of the binade of exponent [e],
    into the float [z * 2^(e - 52)]. *)
Ltac round_to e z :=
  match goal with
  | |- context [round ?x] =>
      rewrite (round_near x e z (powerRZ 2 e) (powerRZ 2 (e - 52))
                 ltac:(lia) eq_refl eq_refl);
      [ | pow2_norm; lra | pow2_norm; lra | pow2_norm; lra ]
  end.

(** The same for an [x] half-way between two floats, [f] being the
    significand of the lower one. *)
Ltac round_tie_to e f :=
  match goal with
  | |- context [round ?x] =>
      rewrite (round_tie x e f (powerRZ 2 e) (powerRZ 2 (e - 52))
                 ltac:(lia) eq_refl eq_refl);
      [ | pow2_norm; lra | pow2_norm; lra
        | cbn [Z.even]; rewrite ?plus_IZR; pow2_norm; lra ]
  end.

(** Closes [Fin a = Fin b] for two numerals. *)
Ltac fin_eq := apply (f_equal Fin); pow2_norm; lra.

(** *** The floats that the literals of the source denote *)

Lemma f64_0 : f64 0.0 = Fin 0.
Proof. unfold f64. replace 0.0 with 0 by lra. apply round_0. Qed.

Lemma f64_0_1 : f64 0.1 = Fin (7205759403792794 / 72057594037927936).
Proof. unfold f64. round_to (-4)%Z 7205759403792794%Z. fin_eq. Qed.

Lemma f64_0_2 : f64 0.2 = Fin (7205759403792794 / 36028797018963968).
Proof. unfold f64. round_to (-3)%Z 7205759403792794%Z. fin_eq. Qed.

Lemma f64_0_3 : f64 0.3 = Fin (5404319552844595 / 18014398509481984).
Proof. unfold f64. round_to (-2)%Z 5404319552844595%Z. fin_eq. Qed.

Lemma f64_0_7 : f64 0.7 = Fin (6305039478318694 / 9007199254740992).
Proof. unfold f64. round_to (-1)%Z 6305039478318694%Z. fin_eq. Qed.

Lemma f64_0_8 : f64 0.8 = Fin (7205759403792794 / 9007199254740992).
Proof. unfold f64. round_to (-1)%Z 7205759403792794%Z. fin_eq. Qed.

Lemma f64_1 : f64 1.0 = Fin 1.
Proof. unfold f64. round_to 0%Z 4503599627370496%Z. fin_eq. Qed.

Lemma f64_1_1 : f64 1.1 = Fin (4953959590107546 / 4503599627370496).
Proof. unfold f64. round_to 0%Z 4953959590107546%Z. fin_eq. Qed.

Lemma f64_1_2 : f64 1.2 = Fin (5404319552844595 / 4503599627370496).
Proof. unfold f64. round_to 0%Z 5404319552844595%Z. fin_eq. Qed.

(** [0.8 - 0.1], which prints as 0.7000000000000001. *)
Lemma low_warning_threshold :
  fsub (f64 0.8) (f64 0.1) = Fin (6305039478318695 / 9007199254740992).
Proof.
  rewrite f64_0_8, f64_0_1. cbn [fsub fneg fadd].
  round_to (-1)%Z 6305039478318695%Z. fin_eq.
Qed.

(** [1.2 - 0.1], which prints as 1.0999999999999999. *)
Lemma optimal_high_default :
  fsub (f64 1.2) (f64 0.1) = Fin (4953959590107545 / 4503599627370496).
Proof.
  rewrite f64_1_2, f64_0_1. cbn [fsub fneg fadd].
  round_to 0%Z 4953959590107545%Z. fin_eq.
Qed.

(** [1.1 - 0.1], which is 1.0. *)
Lemma optimal_high_yellow : fsub (f64 1.1) (f64 0.1) = Fin 1.
Proof.
  rewrite f64_1_1, f64_0_1. cbn [fsub fneg fadd].
  round_to 0%Z 4503599627370496%Z. fin_eq.
Qed.

(** *** The exponential *)

(** [math.exp(0.0)] is [1.0]. *)
Lemma fexp_0 : fexp (Fin 0) = Ok (Fin 1).
Proof.
  unfold fexp. rewrite exp_0.
  assert (H1 : nearest_float 1 = 1).
  { nearest_to 0%Z 4503599627370496%Z. pow2_norm. lra. }
  rewrite H1, Rabs_R1.
  rewrite Rltb_false by (pose proof float_max_lower_bound; lra).
  reflexivity.
Qed.







End F64Facts.

(* ===================================================================== *)
(** * Properties of the financial engine                                  *)
(* ===================================================================== *)

Module FinanceFacts.

Import Finance Spec PyFacts.

Lemma check_bounds_validated (p : FinancialParams) :
  check_bounds p = true <-> validated p.
Proof.
  unfold check_bounds, validated.
  rewrite !andb_true_iff, negb_true_iff, !Rleb_true_iff, !Z.ltb_lt, Z.leb_le, Z.ltb_ge.
  intuition (lra || lia).
Qed.

Section Loop.

Variable p : FinancialParams.
Hypothesis Hinterval : (0 < escalation_interval_years p)%Z.
Hypothesis Hrate : 0 <= discount_rate p.

Lemma discount_factor_pos (y : nat) : 0 < discount_factor p y.
Proof. unfold discount_factor. apply pow_lt. lra. Qed.

Lemma escalate_rent (n : nat) :
  escalate p (Z.of_nat (S n)) (rent_in_year p n) = Ok (rent_in_year p (S n)).
Proof.
  unfold escalate. cbn [rent_in_year].
  destruct (Z.ltb_spec 1 (Z.of_nat (S n))) as [H1 | H1]; cbn [andb]; [| reflexivity].
  rewrite int_mod_ok by lia. cbn [bind].
  destruct (Z.eqb_spec ((Z.of_nat (S n) - 1) mod escalation_interval_years p) 0);
    reflexivity.
Qed.

(** The rent loop of [calculate_state_npv] after [n] years. *)
Lemma npv_loop (n : nat) (acc : R) :
  for_each (range 1 (Z.of_nat n + 1))
    (fun year '(npv, current_rent) =>
       current_rent <- escalate p year current_rent ;;
       discount_factor <- float_pow (1 + discount_rate p) year ;;
       discounted_rent <- float_div current_rent discount_factor ;;
       Ok (npv + discounted_rent, current_rent))
    (acc, initial_annual_rent p)
  = Ok (acc + sum_years n (fun y => rent_in_year p y / discount_factor p y),
        rent_in_year p n).
Proof.
  induction n as [| n IH].
  - cbn. f_equal. f_equal. lra.
  - rewrite range_one_succ, for_each_app, IH. cbn [bind for_each].
    rewrite escalate_rent. cbn [bind].
    rewrite float_pow_nat. cbn [bind].
    rewrite float_div_ok by (apply pow_nonzero; lra). cbn [bind sum_years].
    f_equal. f_equal. unfold discount_factor. lra.
Qed.

(** The rent loop of [calculate_return_on_asset] after [n] years. *)
Lemma roa_loop (n : nat) (acc : R) :
  for_each (range 1 (Z.of_nat n + 1))
    (fun year '(total_nominal_rent, current_rent) =>
       current_rent <- escalate p year current_rent ;;
       Ok (total_nominal_rent + current_rent, current_rent))
    (acc, initial_annual_rent p)
  = Ok (acc + sum_years n (rent_in_year p), rent_in_year p n).
Proof.
  induction n as [| n IH].
  - cbn. f_equal. f_equal. lra.
  - rewrite range_one_succ, for_each_app, IH. cbn [bind for_each].
    rewrite escalate_rent. cbn [bind sum_years].
    f_equal. f_equal. lra.
Qed.

End Loop.

Lemma lease_as_nat (p : FinancialParams) :
  validated p -> lease_term_years p = Z.of_nat (Z.to_nat (lease_term_years p)).
Proof. unfold validated. intro H. lia. Qed.

(** For a validated record the NPV computation returns, and what it
    returns is the value of the closed formula. *)
Lemma npv_returns_formula (p : FinancialParams) :
  validated p -> calculate_state_npv p = Ok (npv_formula p).
Proof.
  intro Hv. pose proof (lease_as_nat p Hv) as Hlease.
  destruct Hv as (Hup & Hrent & Hterm & Hr & Hinv & Hlife & Hesc & Hint).
  unfold calculate_state_npv, npv_formula.
  set (n := Z.to_nat (lease_term_years p)) in *.
  rewrite Hlease.
  rewrite (npv_loop p) by (assumption || lra). cbn [bind].
  rewrite float_pow_nat.
  assert (Hd : (1 + discount_rate p) ^ n <> 0) by (apply pow_nonzero; lra).
  unfold residual_value, discount_factor. rewrite <- Hlease.
  destruct (Z.ltb_spec (lease_term_years p) (asset_useful_life_years p)).
  - rewrite int_truediv_ok by lia. cbn [bind].
    rewrite float_div_ok by assumption. cbn [bind].
    apply f_equal. rewrite minus_IZR. replace 0.0 with 0 by lra. field.
    split; [apply not_0_IZR; lia | assumption].
  - cbn [bind]. rewrite float_div_ok by assumption. cbn [bind].
    apply f_equal. lra.
Qed.

Lemma rent_nonneg (p : FinancialParams) (n : nat) :
  0 <= initial_annual_rent p -> 0 <= rent_escalation_rate p ->
  0 <= rent_in_year p n.
Proof.
  intros Hr He. induction n as [| n IH]; cbn [rent_in_year]; [assumption |].
  destruct (_ && _)%bool; [| assumption].
  apply Rmult_le_pos; lra.
Qed.

Lemma rent_first_year (p : FinancialParams) :
  rent_in_year p 1 = initial_annual_rent p.
Proof. reflexivity. Qed.

Lemma rent_with_discount_rate (p : FinancialParams) (r : R) (n : nat) :
  rent_in_year (with_discount_rate p r) n = rent_in_year p n.
Proof.
  induction n as [| n IH]; [reflexivity |].
  cbn [rent_in_year with_discount_rate escalation_interval_years
       rent_escalation_rate]. now rewrite IH.
Qed.

Lemma residual_with_discount_rate (p : FinancialParams) (r : R) :
  residual_value (with_discount_rate p r) = residual_value p.
Proof. reflexivity. Qed.

Lemma residual_nonneg (p : FinancialParams) :
  0 <= investment_cost p -> (0 < asset_useful_life_years p)%Z ->
  0 <= residual_value p.
Proof.
  intros Hi Hl. unfold residual_value.
  destruct (Z.ltb_spec (lease_term_years p) (asset_useful_life_years p)); [| lra].
  apply IZR_lt in Hl. apply IZR_lt in H.
  apply Rmult_le_pos; [apply Rmult_le_pos; lra |].
  apply Rlt_le, Rinv_0_lt_compat. assumption.
Qed.

Lemma sum_years_nonneg (n : nat) (f : nat -> R) :
  (forall y, 0 <= f y) -> 0 <= sum_years n f.
Proof.
  intro Hf. induction n as [| n IH]; cbn; [lra |].
  specialize (Hf (S n)). lra.
Qed.

Lemma sum_years_le (n : nat) (f h : nat -> R) :
  (forall y, f y <= h y) -> sum_years n f <= sum_years n h.
Proof.
  intro Hfh. induction n as [| n IH]; cbn; [lra |].
  specialize (Hfh (S n)). lra.
Qed.

Lemma sum_years_lt (n : nat) (f h : nat -> R) :
  (forall y, f y <= h y) -> f 1%nat < h 1%nat -> (0 < n)%nat ->
  sum_years n f < sum_years n h.
Proof.
  intros Hfh H1 Hn. destruct n as [| n]; [lia |]. clear Hn.
  induction n as [| n IH].
  - cbn. lra.
  - cbn [sum_years] in *. specialize (Hfh (S (S n))). lra.
Qed.

Lemma pow_lt_base (x y : R) (n : nat) :
  0 < x -> x < y -> (0 < n)%nat -> x ^ n < y ^ n.
Proof.
  intros Hx Hxy Hn. destruct n as [| n]; [lia |]. clear Hn.
  induction n as [| n IH].
  - cbn. lra.
  - change (x * x ^ S n < y * y ^ S n).
    assert (0 < x ^ S n) by (apply pow_lt; assumption).
    nra.
Qed.

Lemma div_le_denominator (a x y : R) :
  0 <= a -> 0 < x -> x <= y -> a / y <= a / x.
Proof.
  intros Ha Hx Hxy. unfold Rdiv.
  apply Rmult_le_compat_l; [assumption |].
  apply Rinv_le_contravar; assumption.
Qed.

Lemma div_lt_denominator (a x y : R) :
  0 < a -> 0 < x -> x < y -> a / y < a / x.
Proof.
  intros Ha Hx Hxy. unfold Rdiv.
  apply Rmult_lt_compat_l; [assumption |].
  apply Rinv_0_lt_contravar; assumption.
Qed.

(** The discounted-cash-flow formula is bounded below by the upfront fee. *)
Lemma npv_formula_lower_bound (p : FinancialParams) :
  validated p -> upfront_fee p <= npv_formula p.
Proof.
  intros (Hup & Hrent & Hterm & Hr & Hinv & Hlife & Hesc & Hint).
  unfold npv_formula.
  assert (0 <= sum_years (Z.to_nat (lease_term_years p))
                 (fun y => rent_in_year p y / discount_factor p y)).
  { apply sum_years_nonneg. intro y.
    apply Rmult_le_pos; [apply rent_nonneg; assumption |].
    apply Rlt_le, Rinv_0_lt_compat, discount_factor_pos. lra. }
  assert (0 <= residual_value p / discount_factor p (Z.to_nat (lease_term_years p))).
  { apply Rmult_le_pos; [apply residual_nonneg; assumption |].
    apply Rlt_le, Rinv_0_lt_compat, discount_factor_pos. lra. }
  lra.
Qed.

(** With a positive initial rent the formula is strictly decreasing in the
    discount rate. *)
Lemma npv_formula_decreasing (p : FinancialParams) (r' : R) :
  validated p -> 0 < initial_annual_rent p -> discount_rate p < r' ->
  npv_formula (with_discount_rate p r') < npv_formula p.
Proof.
  intros (Hup & Hrent & Hterm & Hr & Hinv & Hlife & Hesc & Hint) Hpos Hlt.
  unfold npv_formula.
  cbn [with_discount_rate upfront_fee lease_term_years].
  rewrite residual_with_discount_rate.
  set (n := Z.to_nat (lease_term_years p)).
  assert (Hn : (0 < n)%nat) by (unfold n; lia).
  assert (Hsum :
    sum_years n (fun y => rent_in_year (with_discount_rate p r') y
                          / discount_factor (with_discount_rate p r') y)
    < sum_years n (fun y => rent_in_year p y / discount_factor p y)).
  { apply sum_years_lt; [| | assumption].
    - intro y. rewrite rent_with_discount_rate.
      apply div_le_denominator.
      + apply rent_nonneg; lra.
      + apply discount_factor_pos. lra.
      + unfold discount_factor. apply pow_incr. cbn. lra.
    - rewrite rent_with_discount_rate, rent_first_year.
      apply div_lt_denominator; [assumption | apply discount_factor_pos; lra |].
      unfold discount_factor. cbn. lra. }
  assert (Hres :
    residual_value p / discount_factor (with_discount_rate p r') n
    <= residual_value p / discount_factor p n).
  { apply div_le_denominator.
    - apply residual_nonneg; assumption.
    - apply discount_factor_pos. lra.
    - unfold discount_factor. apply pow_incr. cbn. lra. }
  lra.
Qed.

Lemma validated_with_discount_rate (p : FinancialParams) (r : R) :
  validated p -> 0 <= r <= 1 -> validated (with_discount_rate p r).
Proof. unfold validated. cbn. intuition. Qed.

Lemma npv_scenario_validated : validated npv_scenario.
Proof. unfold validated, npv_scenario. cbn. repeat split; (lra || lia). Qed.

(** *** Sensitivity sweep *)

Lemma init_sweep_record (bp : dict pyval) (lease : Z) (r : R) :
  as_int (dict_get_default bp "lease_years" (PyInt 30)) = Ok lease ->
  validated (sweep_record bp lease r) ->
  FinancialParams_init
    (dict_get_default bp "upfront_fee" (PyInt 0))
    (dict_get_default bp "initial_annual_rent" (PyInt 0))
    (dict_get_default bp "lease_years" (PyInt 30))
    (PyFloat r)
    (dict_get_default bp "investment_cost" (PyFloat 0.0))
    (PyInt 50)
  = Ok (sweep_record bp lease r).
Proof.
  intros Hlease Hv. unfold FinancialParams_init.
  rewrite Hlease. cbn [bind as_int as_float].
  apply check_bounds_validated in Hv.
  unfold sweep_record in Hv |- *. now rewrite Hv.
Qed.

Lemma sweep_scenario (bp : dict pyval) (lease : Z) (r : R) :
  as_int (dict_get_default bp "lease_years" (PyInt 30)) = Ok lease ->
  validated (sweep_record bp lease r) ->
  (params <- FinancialParams_init
               (dict_get_default bp "upfront_fee" (PyInt 0))
               (dict_get_default bp "initial_annual_rent" (PyInt 0))
               (dict_get_default bp "lease_years" (PyInt 30))
               (PyFloat r)
               (dict_get_default bp "investment_cost" (PyFloat 0.0))
               (PyInt 50) ;;
   calculate_state_npv params)
  = Ok (npv_formula (sweep_record bp lease r)).
Proof.
  intros Hlease Hv. rewrite (init_sweep_record bp lease r Hlease Hv).
  cbn [bind]. now apply npv_returns_formula.
Qed.

Lemma sweep_record_validated (bp : dict pyval) (lease : Z) (r r' : R) :
  validated (sweep_record bp lease r) -> 0 <= r' <= 1 ->
  validated (sweep_record bp lease r').
Proof. unfold validated. cbn. intuition. Qed.

Lemma sensitivity_returns (bp : dict pyval) (lease : Z) :
  as_int (dict_get_default bp "lease_years" (PyInt 30)) = Ok lease ->
  validated (sweep_record bp lease 0.05) ->
  perform_sensitivity_analysis bp
  = Ok {| base_case := npv_formula (sweep_record bp lease 0.05);
          plus_2pct_rate := npv_formula (sweep_record bp lease (0.05 + 0.02));
          minus_2pct_rate := npv_formula (sweep_record bp lease (0.05 - 0.02)) |}.
Proof.
  intros Hlease Hv. unfold perform_sensitivity_analysis.
  rewrite (sweep_scenario bp lease 0.05 Hlease Hv). cbn [bind].
  rewrite (sweep_scenario bp lease (0.05 + 0.02) Hlease)
    by (apply (sweep_record_validated bp lease 0.05); [assumption | lra]).
  cbn [bind].
  rewrite (sweep_scenario bp lease (0.05 - 0.02) Hlease)
    by (apply (sweep_record_validated bp lease 0.05); [assumption | lra]).
  reflexivity.
Qed.

(** *** Return on asset *)

Lemma roa_returns (p : FinancialParams) :
  validated p ->
  exists res, calculate_return_on_asset p = Ok res /\
    average_annual_benefit res
    = (upfront_fee p
       + sum_years (Z.to_nat (lease_term_years p)) (rent_in_year p)
       + residual_value p) / IZR (lease_term_years p) /\
    roa_percent res
    = (if Rltb 0 (investment_cost p)
       then average_annual_benefit res / investment_cost p else 0) * 100 /\
    (roa_status res = "Below Target" <-> roa_percent res < 3) /\
    (roa_status res = "On Target" <-> 3 <= roa_percent res).
Proof.
  intro Hv. pose proof (lease_as_nat p Hv) as Hlease.
  destruct Hv as (Hup & Hrent & Hterm & Hr & Hinv & Hlife & Hesc & Hint).
  unfold calculate_return_on_asset.
  set (n := Z.to_nat (lease_term_years p)) in *.
  replace (range 1 (lease_term_years p + 1)) with (range 1 (Z.of_nat n + 1))
    by (now rewrite <- Hlease).
  rewrite (roa_loop p) by assumption. cbn [bind].
  assert (Hres :
    (if (lease_term_years p <? asset_useful_life_years p)%Z
     then q <- int_truediv (asset_useful_life_years p - lease_term_years p)
                 (asset_useful_life_years p) ;;
          Ok (investment_cost p * q)
     else Ok 0.0) = Ok (residual_value p)).
  { unfold residual_value.
    destruct (Z.ltb_spec (lease_term_years p) (asset_useful_life_years p)).
    - rewrite int_truediv_ok by lia. cbn [bind]. apply f_equal.
      rewrite minus_IZR. field. apply not_0_IZR. lia.
    - apply f_equal. lra. }
  rewrite Hres. cbn [bind].
  rewrite float_div_ok by (apply not_0_IZR; lia). cbn [bind].
  set (avg := (upfront_fee p + (0.0 + sum_years n (rent_in_year p))
               + residual_value p) / IZR (lease_term_years p)).
  assert (Havg : avg = (upfront_fee p + sum_years n (rent_in_year p)
                        + residual_value p) / IZR (lease_term_years p)).
  { unfold avg. f_equal. lra. }
  destruct (Rltb_spec 0 (investment_cost p)) as [Hpos | Hzero].
  - rewrite float_div_ok by lra. cbn [bind].
    eexists. split; [reflexivity |].
    cbn [average_annual_benefit roa_percent roa_status].
    split; [exact Havg |]. split; [lra |].
    destruct (Rltb_spec (avg / investment_cost p * 100.0) 3.0);
      split; split; intro; try discriminate; try reflexivity; lra.
  - cbn [bind]. eexists. split; [reflexivity |].
    cbn [average_annual_benefit roa_percent roa_status].
    split; [exact Havg |]. split; [lra |].
    destruct (Rltb_spec (0.0 * 100.0) 3.0);
      split; split; intro; try discriminate; try reflexivity; lra.
Qed.

(** *** Break-even lease term *)

Lemma breakeven_sentinel (inv cf r : R) :
  calculate_breakeven_lease_term inv cf r = Ok Infinity
  <-> never_breaks_even inv cf r.
Proof.
  unfold calculate_breakeven_lease_term, never_breaks_even, breakeven_ratio.
  destruct (Rleb_spec cf 0) as [Hcf | Hcf].
  - split; [now left | reflexivity].
  - rewrite float_div_ok by lra. cbn [bind].
    destruct (Rleb_spec 1.0 (inv * r / cf)) as [Hratio | Hratio].
    + split; [right; lra | reflexivity].
    + split.
      * unfold math_log, float_div.
        destruct (Rltb 0 (1 - inv * r / cf)); cbn [bind]; [| discriminate].
        destruct (Rltb 0 (1 + r)); cbn [bind]; [| discriminate].
        destruct (Reqb (ln (1 + r)) 0); cbn [bind]; discriminate.
      * intros [H | H]; lra.
Qed.

Lemma ln_nonzero (x : R) : 0 < x -> x <> 1 -> ln x <> 0.
Proof.
  intros Hx Hne Hln. apply Hne.
  apply ln_inv; [assumption | lra |]. now rewrite ln_1.
Qed.

Lemma breakeven_finite (inv cf r : R) :
  -1 < r -> r <> 0 -> ~ never_breaks_even inv cf r ->
  calculate_breakeven_lease_term inv cf r = Ok (Finite (breakeven_years inv cf r)).
Proof.
  unfold never_breaks_even, breakeven_years, breakeven_ratio.
  intros Hr Hr0 Hn.
  assert (Hcf : 0 < cf) by lra.
  assert (Hratio : inv * r / cf < 1) by lra.
  unfold calculate_breakeven_lease_term.
  rewrite Rleb_false by assumption.
  rewrite float_div_ok by lra. cbn [bind].
  rewrite Rleb_false by lra.
  rewrite math_log_ok by lra. cbn [bind].
  rewrite math_log_ok by lra. cbn [bind].
  rewrite float_div_ok by (apply ln_nonzero; lra).
  reflexivity.
Qed.

(** With a zero discount rate and a positive cash flow the quotient
    [-ln(1 - 0) / ln(1 + 0)] has a zero divisor. *)
Lemma breakeven_zero_rate (inv cf : R) :
  0 < cf ->
  calculate_breakeven_lease_term inv cf 0 = Raise ZeroDivisionError.
Proof.
  intro Hcf. unfold calculate_breakeven_lease_term.
  rewrite Rleb_false by assumption.
  rewrite float_div_ok by lra. cbn [bind].
  rewrite Rleb_false by (unfold Rdiv; rewrite Rmult_0_r, Rmult_0_l; lra).
  rewrite math_log_ok by (unfold Rdiv; rewrite Rmult_0_r, Rmult_0_l; lra).
  cbn [bind].
  rewrite math_log_ok by lra. cbn [bind].
  replace (1 + 0) with 1 by lra. rewrite ln_1.
  now rewrite float_div_zero.
Qed.

Lemma breakeven_scenario_bounds :
  15 < breakeven_years 500000000 40000000 0.05 < 25.
Proof.
  unfold breakeven_years, breakeven_ratio.
  replace (1 - 500000000 * 0.05 / 40000000) with (/ (8 / 3)) by lra.
  rewrite ln_Rinv by lra. rewrite Ropp_involutive.
  replace (1 + 0.05) with 1.05 by lra.
  assert (Hpos : 0 < ln 1.05).
  { rewrite <- ln_1. apply ln_increasing; lra. }
  assert (Hlo : INR 15 * ln 1.05 < ln (8 / 3)).
  { rewrite <- ln_pow by lra. apply ln_increasing.
    - apply pow_lt. lra.
    - cbn [pow]. lra. }
  assert (Hhi : ln (8 / 3) < INR 25 * ln 1.05).
  { rewrite <- ln_pow by lra. apply ln_increasing; [lra |].
    cbn [pow]. lra. }
  replace (INR 15) with 15 in Hlo by (cbn; lra).
  replace (INR 25) with 25 in Hhi by (cbn; lra).
  split.
  - apply Rmult_lt_reg_r with (ln 1.05); [assumption |].
    unfold Rdiv. rewrite Rmult_assoc, Rinv_l by lra. lra.
  - apply Rmult_lt_reg_r with (ln 1.05); [assumption |].
    unfold Rdiv. rewrite Rmult_assoc, Rinv_l by lra. lra.
Qed.

(** *** Construction-cost benchmark *)

Lemma base_benchmark_cases (k : string) (base : R) :
  dict_get base_benchmarks k = Some base ->
  (k = "low-rise" /\ base = 15000) \/ (k = "high-rise" /\ base = 30000).
Proof.
  unfold base_benchmarks. cbn [dict_get].
  destruct (String.eqb_spec k "low-rise") as [-> | _].
  { intro H. injection H as <-. left. split; [reflexivity | lra]. }
  destruct (String.eqb_spec k "high-rise") as [-> | _].
  { intro H. injection H as <-. right. split; [reflexivity | lra]. }
  discriminate.
Qed.

Lemma base_benchmark_unknown (k : string) :
  k <> "low-rise" -> k <> "high-rise" -> dict_get base_benchmarks k = None.
Proof.
  intros H1 H2. unfold base_benchmarks. cbn [dict_get].
  destruct (String.eqb_spec k "low-rise"); [contradiction |].
  destruct (String.eqb_spec k "high-rise"); [contradiction | reflexivity].
Qed.

Lemma location_factor_positive (k : string) :
  0 < dict_get_default location_factors k 1.0.
Proof.
  unfold dict_get_default, location_factors. cbn [dict_get].
  repeat match goal with
         | |- context [String.eqb k ?s] => destruct (String.eqb k s)
         end; lra.
Qed.

Lemma location_factor_unknown (k : string) :
  dict_mem k location_factors = false ->
  dict_get_default location_factors k 1.0 = 1.
Proof.
  unfold dict_mem, dict_get_default.
  destruct (dict_get location_factors k); [discriminate | intros _; lra].
Qed.

(** The benchmark branch: the divisor [base * factor] is never zero. *)
Lemma cost_benchmark_branch (proposed : R) (bt prov : string) (base : R) :
  dict_get base_benchmarks (lower bt) = Some base ->
  let factor := dict_get_default location_factors (lower prov) 1.0 in
  let adjusted := base * factor in
  let deviation := (proposed - adjusted) / adjusted in
  adjusted <> 0 /\
  validate_construction_cost proposed bt prov
  = Ok (BenchmarkResult
          (if Rltb 0.20 (Rabs deviation) then "Cost Anomaly Detected" else "Pass")
          (deviation * 100) base factor adjusted prov).
Proof.
  intros Hbase factor adjusted deviation.
  assert (Hadj : adjusted <> 0).
  { pose proof (location_factor_positive (lower prov)) as Hf. fold factor in Hf.
    unfold adjusted.
    destruct (base_benchmark_cases _ _ Hbase) as [[_ ->] | [_ ->]]; nra. }
  split; [assumption |].
  unfold validate_construction_cost. rewrite Hbase.
  fold factor. fold adjusted.
  rewrite float_div_ok by assumption. cbn [bind]. fold deviation.
  apply f_equal. f_equal. lra.
Qed.

Lemma cost_unknown_branch (proposed : R) (bt prov : string) :
  dict_get base_benchmarks (lower bt) = None ->
  validate_construction_cost proposed bt prov
  = Ok (UnknownTypeResult "Unknown Type" 0
          ("Building type '" ++ bt ++ "' not recognized.")).
Proof.
  intro Hbase. unfold validate_construction_cost. rewrite Hbase.
  apply f_equal. f_equal. lra.
Qed.

End FinanceFacts.

(* ===================================================================== *)
(** * Properties of the density engine                                    *)
(* ===================================================================== *)

Module BertaudFacts.

Import Bertaud Spec PyFacts.

(** *** Density audit *)

(** The upper limit that the method computes from the zone colour. *)
Lemma zone_override (zone_color : option string) :
  match zone_color with
  | None => 1.2
  | Some "" => 1.2
  | Some zc => if contains "yellow" (lower zc) then 1.1 else 1.2
  end = upper_limit_for zone_color.
Proof.
  destruct zone_color as [[| c zc] |]; reflexivity.
Qed.

(** The efficiency index that the method computes: the division is only
    reached with a non-zero divisor. *)
Lemma guarded_index (proposed theoretical : R) :
  (if Reqb theoretical 0 then Ok 0.0 else float_div proposed theoretical)
  = Ok (if Reqb theoretical 0 then 0 else proposed / theoretical).
Proof.
  destruct (Reqb_spec theoretical 0) as [Hz | Hnz].
  - apply f_equal. lra.
  - now apply float_div_ok.
Qed.

Lemma optimal_density_returns
    (self : BertaudAuditEngine) (k e : R) (t : transport) (x proposed : R)
    (legal : option R) (zone : option string) :
  exists res,
    calculate_optimal_density self k e t x proposed legal zone = Ok res /\
    distance_km res = x /\
    theoretical_density res = d0 self * exp (- g self * x) /\
    proposed_density res = proposed /\
    efficiency_index res
    = (if Reqb (d0 self * exp (- g self * x)) 0 then 0
       else proposed / (d0 self * exp (- g self * x))) /\
    status res = final_status (upper_limit_for zone) (efficiency_index res) /\
    input_land_cost res = e /\
    input_capital_k res = k.
Proof.
  unfold calculate_optimal_density, math_exp.
  rewrite guarded_index. cbn [bind]. rewrite zone_override.
  eexists. split; [reflexivity |].
  cbn [distance_km theoretical_density proposed_density efficiency_index
       status input_land_cost input_capital_k].
  repeat split; reflexivity.
Qed.

Lemma final_status_in_band (upper idx : R) :
  in_band upper idx (final_status upper idx).
Proof.
  unfold in_band, final_status.
  destruct (Rltb_spec idx (0.8 - 0.1)); [left; split; [reflexivity | lra] |].
  destruct (Rltb_spec idx 0.8); [right; left; split; [reflexivity | lra] |].
  destruct (Rleb_spec idx (upper - 0.1));
    [right; right; left; split; [reflexivity | lra] |].
  destruct (Rleb_spec idx upper);
    [right; right; right; left; split; [reflexivity | lra] |].
  right; right; right; right; split; [reflexivity | lra].
Qed.

(** Two bands never overlap, as long as the optimal band is not empty. *)
Lemma in_band_unique (upper idx : R) (s s' : string) :
  0.9 <= upper -> in_band upper idx s -> in_band upper idx s' -> s = s'.
Proof.
  unfold in_band. intros Hupper.
  intros [[-> H] | [[-> H] | [[-> H] | [[-> H] | [-> H]]]]]
         [[-> H'] | [[-> H'] | [[-> H'] | [[-> H'] | [-> H']]]]];
    try reflexivity; exfalso; lra.
Qed.



(** *** Dictionaries *)

Lemma dict_mem_getitem {V : Type} (d : dict V) (k : string) :
  dict_mem k d = true -> exists v, dict_get d k = Some v /\ dict_getitem d k = Ok v.
Proof.
  unfold dict_mem, dict_getitem.
  destruct (dict_get d k) as [v |]; [| discriminate].
  intros _. now exists v.
Qed.

Lemma dict_get_not_in {V : Type} (d : dict V) (k : string) :
  ~ In k (map fst d) -> dict_get d k = None.
Proof.
  induction d as [| [k' v] d IH]; cbn; [reflexivity |].
  intro Hn. destruct (String.eqb_spec k k') as [-> | _].
  - exfalso. apply Hn. now left.
  - apply IH. intro. apply Hn. now right.
Qed.

(** In a dictionary every entry is the one its key retrieves. *)
Lemma dict_get_entry {V : Type} (d : dict V) (k : string) (v : V) :
  dict_wf d -> In (k, v) d -> dict_get d k = Some v.
Proof.
  unfold dict_wf.
  induction d as [| [k' v'] d IH]; cbn; [contradiction |].
  intros Hnd [Heq | Hin].
  - injection Heq as Hk Hv. subst. now rewrite String.eqb_refl.
  - inversion Hnd as [| ? ? Hnotin Hnd']; subst.
    destruct (String.eqb_spec k k') as [-> | _]; [| now apply IH].
    exfalso. apply Hnotin. change k' with (fst (k', v)). now apply in_map.
Qed.

(** Lookup does not depend on the order in which the entries were
    inserted. *)
Lemma dict_get_permutation {V : Type} (d d' : dict V) (k : string) :
  dict_wf d -> Permutation d d' -> dict_get d k = dict_get d' k.
Proof.
  unfold dict_wf. intros Hnd Hperm.
  induction Hperm as [| [k1 v1] l l' Hperm IH
                      | [k1 v1] [k2 v2] l
                      | l l' l'' Hperm1 IH1 Hperm2 IH2].
  - reflexivity.
  - cbn. inversion Hnd; subst.
    destruct (String.eqb k k1); [reflexivity | now apply IH].
  - cbn. cbn in Hnd. inversion Hnd as [| ? ? Hnotin _]; subst.
    destruct (String.eqb_spec k k1) as [E1 | _];
      destruct (String.eqb_spec k k2) as [E2 | _]; try reflexivity.
    exfalso. apply Hnotin. left. congruence.
  - rewrite IH1 by assumption. apply IH2.
    apply (Permutation_NoDup (l := map fst l)); [| assumption].
    now apply Permutation_map.
Qed.

(** *** Sums *)

Lemma fold_left_Rplus (l : list R) (a : R) : fold_left Rplus l a = a + rsum l.
Proof.
  revert a. induction l as [| x l IH]; intro a; cbn; [lra |].
  rewrite IH. unfold rsum. lra.
Qed.

Lemma py_sum_rsum (l : list R) : py_sum l = rsum l.
Proof. unfold py_sum. rewrite fold_left_Rplus. lra. Qed.

Lemma rsum_app (l1 l2 : list R) : rsum (l1 ++ l2)%list = rsum l1 + rsum l2.
Proof.
  unfold rsum. induction l1 as [| x l1 IH]; cbn; [lra | rewrite IH; lra].
Qed.

Lemma rsum_permutation (l l' : list R) : Permutation l l' -> rsum l = rsum l'.
Proof.
  unfold rsum.
  induction 1 as [| x l l' _ IH | x y l | l l' l'' _ IH1 _ IH2]; cbn.
  - reflexivity.
  - now rewrite IH.
  - lra.
  - now rewrite IH1.
Qed.

(** *** Polycentric density *)

(** The loop of [calculate_polycentric_density], from any running total. *)
Lemma polycentric_loop (dm : dict R) (cc : dict (dict R)) (acc : R) :
  for_each dm
    (fun '(center_id, dist_km) total_density =>
       if dict_mem center_id cc then
         params <- dict_getitem cc center_id ;;
         let d0_i := dict_get_default params "d0" 0 in
         let g_i := dict_get_default params "g" 0 in
         Ok (total_density + d0_i * math_exp (- g_i * dist_km))
       else Ok total_density)
    acc
  = Ok (acc + rsum (map (entry_term cc) dm)).
Proof.
  revert acc. induction dm as [| [k x] dm IH]; intro acc; cbn [for_each map rsum fold_right].
  - apply f_equal. lra.
  - unfold entry_term at 1, center_term. cbn [fst snd].
    destruct (dict_mem k cc) eqn:Hmem.
    + destruct (dict_mem_getitem cc k Hmem) as (params & Hget & Hitem).
      rewrite Hitem, Hget. cbn [bind]. rewrite IH.
      apply f_equal. unfold math_exp. fold (rsum (map (entry_term cc) dm)). lra.
    + unfold dict_mem in Hmem. destruct (dict_get cc k); [discriminate |].
      cbn [bind]. rewrite IH. apply f_equal.
      fold (rsum (map (entry_term cc) dm)). lra.
Qed.

Lemma polycentric_entries (dm : dict R) (cc : dict (dict R)) :
  calculate_polycentric_density dm cc = Ok (rsum (map (entry_term cc) dm)).
Proof.
  unfold calculate_polycentric_density. rewrite polycentric_loop.
  apply f_equal. lra.
Qed.

Lemma center_term_absent (cc : dict (dict R)) (k : string) (x : R) :
  dict_mem k cc = false -> center_term cc k x = 0.
Proof.
  unfold dict_mem, center_term. destruct (dict_get cc k); [discriminate | reflexivity].
Qed.

(** Entries whose key the configuration lacks can be left out of the sum. *)
Lemma rsum_shared_entries (cc : dict (dict R)) (l : dict R) :
  rsum (map (entry_term cc) l)
  = rsum (map (entry_term cc) (filter (fun e => dict_mem (fst e) cc) l)).
Proof.
  induction l as [| [k x] l IH]; [reflexivity |].
  cbn [filter map fst]. destruct (dict_mem k cc) eqn:Hmem.
  - cbn [map rsum fold_right]. fold (rsum (map (entry_term cc) l)).
    fold (rsum (map (entry_term cc) (filter (fun e => dict_mem (fst e) cc) l))).
    now rewrite IH.
  - cbn [rsum fold_right]. fold (rsum (map (entry_term cc) l)).
    rewrite IH. unfold entry_term at 1. cbn [fst snd].
    rewrite center_term_absent by assumption. lra.
Qed.

Lemma filter_keys {V : Type} (f : string -> bool) (l : dict V) :
  filter f (map fst l) = map fst (filter (fun e => f (fst e)) l).
Proof.
  induction l as [| [k v] l IH]; [reflexivity |].
  cbn [map filter fst]. destruct (f k); cbn [map fst]; now rewrite IH.
Qed.

Lemma polycentric_entries_formula (dm : dict R) (cc : dict (dict R)) :
  dict_wf dm -> rsum (map (entry_term cc) dm) = polycentric_formula dm cc.
Proof.
  intro Hwf. unfold polycentric_formula, shared_keys.
  rewrite rsum_shared_entries, filter_keys, map_map.
  f_equal. apply map_ext_in. intros [k x] Hin.
  apply filter_In in Hin. destruct Hin as [Hin _].
  unfold entry_term, dict_get_default. cbn [fst snd].
  now rewrite (dict_get_entry dm k x Hwf Hin).
Qed.

Lemma center_term_permutation (cc cc' : dict (dict R)) (k : string) (x : R) :
  dict_wf cc -> Permutation cc cc' -> center_term cc k x = center_term cc' k x.
Proof.
  intros Hwf Hperm. unfold center_term.
  now rewrite (dict_get_permutation cc cc' k Hwf Hperm).
Qed.

(** *** Calibration *)

(** The comprehension [[(x, math.log(y)) for x, y in samples if y > 0]]
    never takes the logarithm of a non-positive density. *)
Lemma log_samples (samples : list (R * R)) :
  map_m (fun '(x, y) => ly <- math_log y ;; Ok (x, ly))
        (filter (fun '(x, y) => Rltb 0 y) samples)
  = Ok (map (fun s => (fst s, ln (snd s))) (valid_samples samples)).
Proof.
  unfold valid_samples.
  induction samples as [| [x y] samples IH]; [reflexivity |].
  cbn [filter snd]. destruct (Rltb_spec 0 y) as [Hy | Hy]; [| exact IH].
  cbn [map_m map fst snd]. rewrite math_log_ok by assumption. cbn [bind].
  rewrite IH. reflexivity.
Qed.

Lemma statistics_mean_ok (l : list R) :
  l <> [] -> statistics_mean l = Ok (mean l).
Proof.
  destruct l as [| x l]; [contradiction |]. intros _.
  unfold statistics_mean, mean. now rewrite py_sum_rsum.
Qed.

Lemma distances_length (samples : list (R * R)) :
  List.length (distances samples) = List.length (valid_samples samples).
Proof. unfold distances. apply length_map. Qed.

Lemma log_densities_length (samples : list (R * R)) :
  List.length (log_densities samples) = List.length (valid_samples samples).
Proof. unfold log_densities. apply length_map. Qed.

Lemma nonempty_of_length {A : Type} (l : list A) :
  (2 <= List.length l)%nat -> l <> [].
Proof. destruct l; cbn; [lia | discriminate]. Qed.

(** What [calibrate_parameters] computes, branch by branch. *)
Lemma calibrate_eval (samples : list (R * R)) :
  let xs := distances samples in
  let ys := log_densities samples in
  calibrate_parameters samples
  = Ok (if (List.length (valid_samples samples) <? 2)%nat then (0, 0)
        else if Reqb (rsum (map (fun x => (x - mean xs) ^ 2) xs)) 0 then (0, 0)
        else (exp (ols_intercept xs ys), - ols_slope xs ys)).
Proof.
  intros xs ys. unfold calibrate_parameters.
  rewrite log_samples. cbn [bind]. rewrite length_map.
  destruct (Nat.ltb_spec (List.length (valid_samples samples)) 2) as [Hlt | Hge].
  { apply f_equal. f_equal; lra. }
  assert (Hxs : map fst (map (fun s => (fst s, ln (snd s))) (valid_samples samples)) = xs).
  { rewrite map_map. reflexivity. }
  assert (Hys : map snd (map (fun s => (fst s, ln (snd s))) (valid_samples samples)) = ys).
  { rewrite map_map. reflexivity. }
  rewrite Hxs, Hys.
  rewrite (statistics_mean_ok xs)
    by (apply nonempty_of_length; unfold xs; now rewrite distances_length).
  cbn [bind].
  rewrite (statistics_mean_ok ys)
    by (apply nonempty_of_length; unfold ys; now rewrite log_densities_length).
  cbn [bind]. rewrite !py_sum_rsum.
  destruct (Reqb_spec (rsum (map (fun x => (x - mean xs) ^ 2) xs)) 0) as [Hz | Hnz].
  { apply f_equal. f_equal; lra. }
  rewrite float_div_ok by assumption. cbn [bind].
  unfold math_exp, ols_intercept, ols_slope.
  assert (Hnum :
    map (fun '(x, y) => (x - mean xs) * (y - mean ys)) (combine xs ys)
    = map (fun xy => (fst xy - mean xs) * (snd xy - mean ys)) (combine xs ys)).
  { apply map_ext. now intros [x y]. }
  rewrite Hnum. reflexivity.
Qed.

Lemma rsum_nonneg (l : list R) : Forall (fun x => 0 <= x) l -> 0 <= rsum l.
Proof.
  unfold rsum. induction 1 as [| x l Hx _ IH]; cbn; lra.
Qed.

Lemma rsum_zero_terms (l : list R) :
  Forall (fun x => 0 <= x) l -> rsum l = 0 -> Forall (fun x => x = 0) l.
Proof.
  induction 1 as [| x l Hx Hl IH]; intro Hsum; constructor.
  - pose proof (rsum_nonneg l Hl). unfold rsum in *. cbn in Hsum. lra.
  - apply IH. pose proof (rsum_nonneg l Hl). unfold rsum in *. cbn in Hsum. lra.
Qed.

Lemma squares_zero_iff (xs : list R) (m : R) :
  rsum (map (fun x => (x - m) ^ 2) xs) = 0 <-> (forall x, In x xs -> x = m).
Proof.
  split.
  - intros Hsum x Hin.
    apply rsum_zero_terms in Hsum.
    + rewrite Forall_forall in Hsum.
      specialize (Hsum ((x - m) ^ 2) (in_map _ _ _ Hin)). cbn beta in Hsum.
      assert (x - m = 0) by nra. lra.
    + apply Forall_forall. intros y Hy. apply in_map_iff in Hy.
      destruct Hy as (z & <- & _). apply pow2_ge_0.
  - intro Hall. unfold rsum.
    induction xs as [| x xs IH]; [reflexivity |]. cbn [map fold_right].
    rewrite IH by (intros; apply Hall; now right).
    rewrite (Hall x) by now left. lra.
Qed.

Lemma rsum_constant (xs : list R) (c : R) :
  (forall x, In x xs -> x = c) -> rsum xs = INR (List.length xs) * c.
Proof.
  intro Hall. unfold rsum.
  induction xs as [| x xs IH]; [cbn; lra |].
  cbn [fold_right List.length]. rewrite S_INR.
  rewrite IH by (intros; apply Hall; now right).
  rewrite (Hall x) by now left. lra.
Qed.

Lemma INR_length_nonzero {A : Type} (l : list A) : l <> [] -> INR (List.length l) <> 0.
Proof.
  intro Hne. apply not_0_INR. destruct l; [contradiction | discriminate].
Qed.

Lemma mean_constant (xs : list R) (c : R) :
  xs <> [] -> (forall x, In x xs -> x = c) -> mean xs = c.
Proof.
  intros Hne Hall. unfold mean. rewrite (rsum_constant xs c Hall).
  field. now apply INR_length_nonzero.
Qed.

(** The regression denominator vanishes exactly when all distances are
    the same. *)
Lemma denominator_zero_iff (xs : list R) :
  xs <> [] ->
  rsum (map (fun x => (x - mean xs) ^ 2) xs) = 0 <-> all_identical xs.
Proof.
  intro Hne. rewrite squares_zero_iff. unfold all_identical. split.
  - intros Hall x x' Hx Hx'. rewrite (Hall x Hx), (Hall x' Hx'). reflexivity.
  - intros Hall x Hx. symmetry. apply mean_constant; [assumption |].
    intros x' Hx'. now apply Hall.
Qed.

(** Regression on data that lie exactly on a line. *)
Lemma rsum_affine (xs : list R) (a b : R) :
  rsum (map (fun x => a + b * x) xs) = INR (List.length xs) * a + b * rsum xs.
Proof.
  unfold rsum. induction xs as [| x xs IH]; [cbn; lra |].
  cbn [map fold_right List.length]. rewrite S_INR, IH. lra.
Qed.

Lemma mean_affine (xs : list R) (a b : R) :
  xs <> [] -> mean (map (fun x => a + b * x) xs) = a + b * mean xs.
Proof.
  intro Hne. unfold mean. rewrite length_map, rsum_affine.
  field. now apply INR_length_nonzero.
Qed.

Lemma covariance_affine (xs : list R) (a b mx my : R) :
  my = a + b * mx ->
  rsum (map (fun xy => (fst xy - mx) * (snd xy - my))
            (combine xs (map (fun x => a + b * x) xs)))
  = b * rsum (map (fun x => (x - mx) ^ 2) xs).
Proof.
  intros ->. unfold rsum.
  induction xs as [| x xs IH]; [cbn; lra |].
  cbn [map combine fold_right fst snd]. rewrite IH. lra.
Qed.

Lemma ols_affine (xs : list R) (a b : R) :
  xs <> [] -> ~ all_identical xs ->
  ols_slope xs (map (fun x => a + b * x) xs) = b /\
  ols_intercept xs (map (fun x => a + b * x) xs) = a.
Proof.
  intros Hne Hdiff.
  assert (Hden : rsum (map (fun x => (x - mean xs) ^ 2) xs) <> 0).
  { intro Hz. apply Hdiff. now apply denominator_zero_iff. }
  assert (Hslope : ols_slope xs (map (fun x => a + b * x) xs) = b).
  { unfold ols_slope.
    rewrite (covariance_affine xs a b) by now apply mean_affine.
    now field. }
  split; [assumption |].
  unfold ols_intercept. rewrite Hslope, mean_affine by assumption. lra.
Qed.

Lemma model_samples_valid (D0 gr : R) (xs : list R) :
  0 < D0 -> valid_samples (model_samples D0 gr xs) = model_samples D0 gr xs.
Proof.
  intro HD. unfold valid_samples, model_samples.
  induction xs as [| x xs IH]; [reflexivity |].
  cbn [map filter snd].
  rewrite Rltb_true by (apply Rmult_lt_0_compat; [assumption | apply exp_pos]).
  now rewrite IH.
Qed.

Lemma model_samples_distances (D0 gr : R) (xs : list R) :
  0 < D0 -> distances (model_samples D0 gr xs) = xs.
Proof.
  intro HD. unfold distances. rewrite model_samples_valid by assumption.
  unfold model_samples. rewrite map_map. cbn [fst]. apply map_id.
Qed.

Lemma model_samples_log_densities (D0 gr : R) (xs : list R) :
  0 < D0 ->
  log_densities (model_samples D0 gr xs) = map (fun x => ln D0 + (- gr) * x) xs.
Proof.
  intro HD. unfold log_densities. rewrite model_samples_valid by assumption.
  unfold model_samples. rewrite map_map. apply map_ext. intro x. cbn [snd].
  rewrite ln_mult by (assumption || apply exp_pos). now rewrite ln_exp.
Qed.

(** Calibration recovers the parameters of exact model data. *)
Lemma calibrate_model_samples (D0 gr : R) (xs : list R) :
  0 < D0 -> ~ all_identical xs ->
  calibrate_parameters (model_samples D0 gr xs) = Ok (D0, gr).
Proof.
  intros HD Hdiff.
  assert (Hlen : (2 <= List.length xs)%nat).
  { destruct xs as [| x [| x' xs]]; cbn; try lia; exfalso; apply Hdiff.
    - intros ? ? [].
    - intros ? ? [<- | []] [<- | []]. reflexivity. }
  pose proof (nonempty_of_length xs Hlen) as Hne.
  rewrite calibrate_eval.
  rewrite model_samples_valid by assumption.
  rewrite model_samples_distances, model_samples_log_densities by assumption.
  unfold model_samples at 1. rewrite length_map.
  destruct (Nat.ltb_spec (List.length xs) 2) as [Hlt | _]; [lia |].
  rewrite Reqb_false by (intro Hz; apply Hdiff; now apply denominator_zero_iff).
  destruct (ols_affine xs (ln D0) (- gr) Hne Hdiff) as [-> ->].
  rewrite exp_ln by assumption. apply f_equal. f_equal. lra.
Qed.

End BertaudFacts.

(* ===================================================================== *)
(** * Properties of the four methods of module Refined                    *)
(* ===================================================================== *)

Module RefinedFacts.

Import Finance Bertaud Spec PyFacts F64Facts FinanceFacts BertaudFacts.

(** *** Construction cost, for any lower-casing *)

Section Lowercase.

Variable str_lower : string -> string.

(** The benchmark branch: the divisor [base * factor] is never zero. *)
Lemma lowercase_benchmark_branch (proposed : R) (bt prov : string) (base : R) :
  dict_get base_benchmarks (str_lower bt) = Some base ->
  let factor := dict_get_default location_factors (str_lower prov) 1.0 in
  let adjusted := base * factor in
  let deviation := (proposed - adjusted) / adjusted in
  adjusted <> 0 /\
  Refined.validate_construction_cost str_lower proposed bt prov
  = Ok (BenchmarkResult
          (if Rltb 0.20 (Rabs deviation) then "Cost Anomaly Detected" else "Pass")
          (deviation * 100) base factor adjusted prov).
Proof.
  intros Hbase factor adjusted deviation.
  assert (Hadj : adjusted <> 0).
  { pose proof (location_factor_positive (str_lower prov)) as Hf. fold factor in Hf.
    unfold adjusted.
    destruct (base_benchmark_cases _ _ Hbase) as [[_ ->] | [_ ->]]; nra. }
  split; [assumption |].
  unfold Refined.validate_construction_cost. rewrite Hbase.
  fold factor. fold adjusted.
  rewrite float_div_ok by assumption. cbn [bind]. fold deviation.
  apply f_equal. f_equal. lra.
Qed.

Lemma lowercase_unknown_branch (proposed : R) (bt prov : string) :
  dict_get base_benchmarks (str_lower bt) = None ->
  Refined.validate_construction_cost str_lower proposed bt prov
  = Ok (UnknownTypeResult "Unknown Type" 0
          ("Building type '" ++ bt ++ "' not recognized.")).
Proof.
  intro Hbase. unfold Refined.validate_construction_cost. rewrite Hbase.
  apply f_equal. f_equal. lra.
Qed.

End Lowercase.

(** With the ASCII lower-casing the method is the one of module
    [Finance]. *)
Lemma ascii_lowercase_cost (proposed : R) (bt prov : string) :
  Refined.validate_construction_cost lower proposed bt prov
  = validate_construction_cost proposed bt prov.
Proof. reflexivity. Qed.

(** *** Calibration, with the range of a float *)

Lemma float_min_small : 0 < float_min <= 1.
Proof.
  unfold float_min. pose proof (pow_R1_Rle 2 1074 ltac:(lra)) as H.
  split; [apply Rinv_0_lt_compat; lra |].
  rewrite <- Rinv_1. apply Rinv_le_contravar; lra.
Qed.

Lemma square_in_range (x : R) :
  x ^ 2 <= float_max -> float_pow_ranged x 2 = Ok (x ^ 2).
Proof.
  intro H. unfold float_pow_ranged.
  change 2%Z with (Z.of_nat 2). rewrite float_pow_nat. cbn [bind].
  rewrite Rabs_pos_eq by apply pow2_ge_0.
  destruct (Rltb_spec float_max (x ^ 2)); [lra | reflexivity].
Qed.

Lemma square_raises (x : R) (e : exn) :
  float_pow_ranged x 2 = Raise e -> e = OverflowError.
Proof.
  unfold float_pow_ranged.
  change 2%Z with (Z.of_nat 2). rewrite float_pow_nat. cbn [bind].
  destruct (Rltb float_max (Rabs (x ^ 2))); [| discriminate].
  intro H. now injection H as <-.
Qed.

Lemma exp_ranged_raises (x : R) (e : exn) :
  math_exp_ranged x = Raise e -> e = OverflowError.
Proof.
  unfold math_exp_ranged.
  destruct (Rltb float_max (exp x)).
  - intro H. now injection H as <-.
  - destruct (Rleb (exp x) (float_min / 2)); discriminate.
Qed.

Lemma exp_ranged_nonneg (x v : R) : math_exp_ranged x = Ok v -> 0 <= v.
Proof.
  unfold math_exp_ranged.
  destruct (Rltb float_max (exp x)); [discriminate |].
  destruct (Rleb (exp x) (float_min / 2)); intro H; injection H as <-.
  - lra.
  - apply Rlt_le, exp_pos.
Qed.

Lemma exp_ranged_in_range (x : R) :
  float_min / 2 < exp x <= float_max -> math_exp_ranged x = Ok (exp x).
Proof.
  intros [Hlo Hhi]. unfold math_exp_ranged.
  destruct (Rltb_spec float_max (exp x)); [lra |].
  destruct (Rleb_spec (exp x) (float_min / 2)); [lra | reflexivity].
Qed.

Lemma exp_ranged_overflow (x : R) :
  float_max < exp x -> math_exp_ranged x = Raise OverflowError.
Proof. intro H. unfold math_exp_ranged. now rewrite Rltb_true. Qed.

(** The squares of the denominator: all of them, or [OverflowError]. *)
Lemma squares_eval (xs : list R) (m : R) :
  map_m (fun x => float_pow_ranged (x - m) 2) xs
  = Ok (map (fun x => (x - m) ^ 2) xs) \/
  map_m (fun x => float_pow_ranged (x - m) 2) xs = Raise OverflowError.
Proof.
  induction xs as [| x xs IH]; [now left |].
  cbn [map_m map].
  destruct (float_pow_ranged (x - m) 2) as [v | e] eqn:Hv.
  - assert (Hval : v = (x - m) ^ 2).
    { revert Hv. unfold float_pow_ranged.
      change 2%Z with (Z.of_nat 2). rewrite float_pow_nat. cbn [bind].
      destruct (Rltb float_max (Rabs ((x - m) ^ 2))); [discriminate |].
      intro H. now injection H as <-. }
    subst v. cbn [bind].
    destruct IH as [-> | ->]; [now left | now right].
  - right. cbn [bind]. now rewrite (square_raises _ _ Hv).
Qed.

Lemma squares_in_range (xs : list R) (m : R) :
  Forall (fun x => (x - m) ^ 2 <= float_max) xs ->
  map_m (fun x => float_pow_ranged (x - m) 2) xs
  = Ok (map (fun x => (x - m) ^ 2) xs).
Proof.
  induction 1 as [| x xs Hx _ IH]; [reflexivity |].
  cbn [map_m map]. rewrite square_in_range by assumption. cbn [bind].
  now rewrite IH.
Qed.

(** What the method computes, branch by branch. *)
Lemma ranged_calibrate_eval (samples : list (R * R)) :
  let xs := distances samples in
  let ys := log_densities samples in
  Refined.calibrate_parameters samples
  = if (List.length (valid_samples samples) <? 2)%nat then Ok (0, 0)
    else
      squares <- map_m (fun x => float_pow_ranged (x - mean xs) 2) xs ;;
      if Reqb (rsum squares) 0 then Ok (0, 0)
      else
        let slope :=
          rsum (map (fun xy => (fst xy - mean xs) * (snd xy - mean ys))
                    (combine xs ys)) / rsum squares in
        d0 <- math_exp_ranged (mean ys - slope * mean xs) ;;
        Ok (d0, - slope).
Proof.
  intros xs ys. unfold Refined.calibrate_parameters.
  rewrite log_samples. cbn [bind]. rewrite length_map.
  destruct (Nat.ltb_spec (List.length (valid_samples samples)) 2) as [Hlt | Hge].
  { apply f_equal. f_equal; lra. }
  assert (Hxs : map fst (map (fun s => (fst s, ln (snd s))) (valid_samples samples)) = xs).
  { rewrite map_map. reflexivity. }
  assert (Hys : map snd (map (fun s => (fst s, ln (snd s))) (valid_samples samples)) = ys).
  { rewrite map_map. reflexivity. }
  rewrite Hxs, Hys.
  rewrite (statistics_mean_ok xs)
    by (apply nonempty_of_length; unfold xs; now rewrite distances_length).
  cbn [bind].
  rewrite (statistics_mean_ok ys)
    by (apply nonempty_of_length; unfold ys; now rewrite log_densities_length).
  cbn [bind].
  destruct (map_m (fun x => float_pow_ranged (x - mean xs) 2) xs) as [squares | e];
    cbn [bind]; [| reflexivity].
  rewrite !py_sum_rsum.
  destruct (Reqb_spec (rsum squares) 0) as [Hz | Hnz].
  { apply f_equal. f_equal; lra. }
  rewrite float_div_ok by assumption. cbn [bind].
  assert (Hnum :
    map (fun '(x, y) => (x - mean xs) * (y - mean ys)) (combine xs ys)
    = map (fun xy => (fst xy - mean xs) * (snd xy - mean ys)) (combine xs ys)).
  { apply map_ext. now intros [x y]. }
  rewrite Hnum. reflexivity.
Qed.

(** The result depends on the valid samples only. *)
Lemma ranged_calibrate_valid_samples (s1 s2 : list (R * R)) :
  valid_samples s1 = valid_samples s2 ->
  Refined.calibrate_parameters s1 = Refined.calibrate_parameters s2.
Proof.
  intro H. rewrite !ranged_calibrate_eval. unfold distances, log_densities.
  now rewrite H.
Qed.

(** As long as no square leaves the range, the fit is the least-squares
    line and its exponential. *)
Lemma ranged_calibrate_fit (samples : list (R * R)) :
  let xs := distances samples in
  let ys := log_densities samples in
  (2 <= List.length (valid_samples samples))%nat ->
  ~ all_identical xs ->
  Forall (fun x => (x - mean xs) ^ 2 <= float_max) xs ->
  Refined.calibrate_parameters samples
  = (d0 <- math_exp_ranged (ols_intercept xs ys) ;; Ok (d0, - ols_slope xs ys)).
Proof.
  intros xs ys Hge Hdiff Hrange. rewrite ranged_calibrate_eval. fold xs ys.
  destruct (Nat.ltb_spec (List.length (valid_samples samples)) 2); [lia |].
  rewrite squares_in_range by assumption. cbn [bind].
  rewrite Reqb_false; [reflexivity |].
  intro Hz. apply Hdiff. apply denominator_zero_iff; [| assumption].
  apply nonempty_of_length. unfold xs. now rewrite distances_length.
Qed.

(** *** Polycentric density, in any arithmetic *)

Section Arithmetic.

Context {F : Type} (ops : Refined.float_ops F).

(** The loop of the method from any running total: the contributions of
    the shared entries are added to it one after the other, unless one
    of them raises. *)
Lemma accumulation_loop (dm : dict F) (cc : dict (dict F)) (acc : F) :
  for_each dm
    (fun '(center_id, dist_km) total_density =>
       if dict_mem center_id cc then
         params <- dict_getitem cc center_id ;;
         let d0_i := dict_get_default params "d0" (Refined.op_zero ops) in
         let g_i := dict_get_default params "g" (Refined.op_zero ops) in
         e <- Refined.op_exp ops (Refined.op_mul ops (Refined.op_neg ops g_i) dist_km) ;;
         Ok (Refined.op_add ops total_density (Refined.op_mul ops d0_i e))
       else Ok total_density)
    acc
  = (terms <- map_m (Refined.contribution ops cc) (Refined.shared_entries dm cc) ;;
     Ok (fold_left (Refined.op_add ops) terms acc)).
Proof.
  revert acc. induction dm as [| [k x] dm IH]; intro acc; [reflexivity |].
  cbn [for_each Refined.shared_entries filter fst].
  fold (Refined.shared_entries dm cc).
  destruct (dict_mem k cc) eqn:Hmem.
  - destruct (dict_mem_getitem cc k Hmem) as (params & Hget & Hitem).
    rewrite Hitem. cbn [bind map_m].
    unfold Refined.contribution at 1. cbn [fst snd]. rewrite Hget.
    destruct (Refined.op_exp ops _) as [e | err]; cbn [bind]; [| reflexivity].
    rewrite IH.
    destruct (map_m (Refined.contribution ops cc) (Refined.shared_entries dm cc));
      reflexivity.
  - cbn [bind]. apply IH.
Qed.

Lemma accumulation_eval (dm : dict F) (cc : dict (dict F)) :
  Refined.calculate_polycentric_density ops dm cc
  = (terms <- map_m (Refined.contribution ops cc) (Refined.shared_entries dm cc) ;;
     Ok (Refined.sum_in_order ops terms)).
Proof. unfold Refined.calculate_polycentric_density. apply accumulation_loop. Qed.

Lemma shared_entries_skip (dm1 dm2 : dict F) (cc : dict (dict F)) (k : string) (x : F) :
  dict_mem k cc = false ->
  Refined.shared_entries (dm1 ++ (k, x) :: dm2)%list cc
  = Refined.shared_entries (dm1 ++ dm2)%list cc.
Proof.
  intro Hmem. unfold Refined.shared_entries. rewrite !filter_app.
  cbn [filter fst]. now rewrite Hmem.
Qed.

Lemma shared_entries_permutation (dm : dict F) (cc cc' : dict (dict F)) :
  dict_wf cc -> Permutation cc cc' ->
  Refined.shared_entries dm cc = Refined.shared_entries dm cc'.
Proof.
  intros Hwf Hperm. unfold Refined.shared_entries. apply filter_ext.
  intros [k x]. unfold dict_mem. cbn [fst].
  now rewrite (dict_get_permutation cc cc' k Hwf Hperm).
Qed.

Lemma contribution_permutation (cc cc' : dict (dict F)) (entry : string * F) :
  dict_wf cc -> Permutation cc cc' ->
  Refined.contribution ops cc entry = Refined.contribution ops cc' entry.
Proof.
  intros Hwf Hperm. unfold Refined.contribution.
  now rewrite (dict_get_permutation cc cc' _ Hwf Hperm).
Qed.

End Arithmetic.

(** In the arithmetic of the reals the method is the one of module
    [Bertaud]. *)
Lemma exact_accumulation (dm : dict R) (cc : dict (dict R)) :
  Refined.calculate_polycentric_density Refined.exact dm cc
  = calculate_polycentric_density dm cc.
Proof.
  unfold Refined.calculate_polycentric_density, calculate_polycentric_density.
  replace 0.0 with 0 by lra. reflexivity.
Qed.

(** *** The accumulation in binary64, on three centres *)

Lemma contribution_without_gradient
    (k : string) (df x : float) (d xv : R) (cc : dict (dict float)) :
  dict_get cc k = Some [("d0", df)] ->
  df = Fin d -> x = Fin xv -> round (d * 1) = Fin d ->
  Refined.contribution Refined.binary64 cc (k, x) = Ok df.
Proof.
  intros Hget -> -> Hd. unfold Refined.contribution. cbn [fst snd]. rewrite Hget.
  unfold dict_get_default. cbn [dict_get String.eqb Ascii.eqb Bool.eqb].
  cbn [Refined.op_zero Refined.op_mul Refined.op_neg Refined.op_exp Refined.binary64].
  cbn [fneg fmul]. replace (- 0 * xv) with 0 by lra.
  rewrite round_0, fexp_0. cbn [bind fmul]. now rewrite Hd.
Qed.

Lemma three_centers_terms_abc :
  map_m (Refined.contribution Refined.binary64 Refined.three_centers)
        (Refined.shared_entries Refined.distances_abc Refined.three_centers)
  = Ok [f64 0.1; f64 0.2; f64 0.3].
Proof.
  cbn [Refined.shared_entries Refined.distances_abc filter fst].
  change (dict_mem "A" Refined.three_centers) with true.
  change (dict_mem "B" Refined.three_centers) with true.
  change (dict_mem "C" Refined.three_centers) with true.
  cbn [map_m].
  rewrite (contribution_without_gradient "A" (f64 0.1) (f64 1.0) (7205759403792794 / 72057594037927936) 1);
    [| reflexivity | exact f64_0_1 | exact f64_1
     | round_to (-4)%Z 7205759403792794%Z; fin_eq].
  rewrite (contribution_without_gradient "B" (f64 0.2) (f64 1.0) (7205759403792794 / 36028797018963968) 1);
    [| reflexivity | exact f64_0_2 | exact f64_1
     | round_to (-3)%Z 7205759403792794%Z; fin_eq].
  rewrite (contribution_without_gradient "C" (f64 0.3) (f64 1.0) (5404319552844595 / 18014398509481984) 1);
    [| reflexivity | exact f64_0_3 | exact f64_1
     | round_to (-2)%Z 5404319552844595%Z; fin_eq].
  reflexivity.
Qed.

Lemma three_centers_terms_cba :
  map_m (Refined.contribution Refined.binary64 Refined.three_centers)
        (Refined.shared_entries Refined.distances_cba Refined.three_centers)
  = Ok [f64 0.3; f64 0.2; f64 0.1].
Proof.
  cbn [Refined.shared_entries Refined.distances_cba filter fst].
  change (dict_mem "A" Refined.three_centers) with true.
  change (dict_mem "B" Refined.three_centers) with true.
  change (dict_mem "C" Refined.three_centers) with true.
  cbn [map_m].
  rewrite (contribution_without_gradient "C" (f64 0.3) (f64 1.0) (5404319552844595 / 18014398509481984) 1);
    [| reflexivity | exact f64_0_3 | exact f64_1
     | round_to (-2)%Z 5404319552844595%Z; fin_eq].
  rewrite (contribution_without_gradient "B" (f64 0.2) (f64 1.0) (7205759403792794 / 36028797018963968) 1);
    [| reflexivity | exact f64_0_2 | exact f64_1
     | round_to (-3)%Z 7205759403792794%Z; fin_eq].
  rewrite (contribution_without_gradient "A" (f64 0.1) (f64 1.0) (7205759403792794 / 72057594037927936) 1);
    [| reflexivity | exact f64_0_1 | exact f64_1
     | round_to (-4)%Z 7205759403792794%Z; fin_eq].
  reflexivity.
Qed.

(** ((0.0 + 0.1) + 0.2) + 0.3, which prints as 0.6000000000000001. *)
Lemma sum_abc :
  Refined.sum_in_order Refined.binary64 [f64 0.1; f64 0.2; f64 0.3]
  = Fin (5404319552844596 / 9007199254740992).
Proof.
  unfold Refined.sum_in_order.
  cbn [fold_left Refined.op_add Refined.op_zero Refined.binary64].
  rewrite f64_0_1, f64_0_2, f64_0_3. cbn [fadd].
  round_to (-4)%Z 7205759403792794%Z. cbn [fadd].
  round_tie_to (-2)%Z 5404319552844595%Z. cbn [Z.even fadd].
  replace (5404319552844595 + 1)%Z with 5404319552844596%Z by reflexivity.
  round_tie_to (-1)%Z 5404319552844595%Z. cbn [Z.even].
  replace (5404319552844595 + 1)%Z with 5404319552844596%Z by reflexivity.
  fin_eq.
Qed.

(** ((0.0 + 0.3) + 0.2) + 0.1, which prints as 0.6. *)
Lemma sum_cba :
  Refined.sum_in_order Refined.binary64 [f64 0.3; f64 0.2; f64 0.1]
  = Fin (5404319552844595 / 9007199254740992).
Proof.
  unfold Refined.sum_in_order.
  cbn [fold_left Refined.op_add Refined.op_zero Refined.binary64].
  rewrite f64_0_1, f64_0_2, f64_0_3. cbn [fadd].
  round_to (-2)%Z 5404319552844595%Z. cbn [fadd].
  round_to (-1)%Z 4503599627370496%Z. cbn [fadd].
  round_to (-1)%Z 5404319552844595%Z.
  fin_eq.
Qed.

(** *** The density audit in binary64 *)

(** The upper limit that the method computes from the zone colour. *)
Lemma float_zone_override (zone_color : option string) :
  match zone_color with
  | None => f64 1.2
  | Some "" => f64 1.2
  | Some zc => if contains "yellow" (lower zc) then f64 1.1 else f64 1.2
  end = Refined.upper_limit_for zone_color.
Proof.
  destruct zone_color as [[| c zc] |]; reflexivity.
Qed.


(** The division of the efficiency index is only reached with a divisor
    that is not zero. *)
Lemma guarded_index_returns (proposed theoretical : float) :
  exists index,
    (if feqb theoretical (Fin 0) then Ok (f64 0.0)
     else fdiv proposed theoretical) = Ok index.
Proof.
  destruct theoretical as [y | s |]; cbn [feqb fdiv].
  - destruct (Reqb y 0); [eexists; reflexivity |].
    destruct proposed; eexists; reflexivity.
  - destruct proposed; eexists; reflexivity.
  - eexists; reflexivity.
Qed.


(** What a returned audit holds. *)
Lemma audit_fields
    (self : Refined.BertaudAuditEngine) (k e : float) (t : Refined.transport)
    (x proposed : float) (legal : option float) (zone : option string)
    (res : Refined.DensityAudit) :
  Refined.calculate_optimal_density self k e t x proposed legal zone = Ok res ->
  exists ex,
    fexp (fmul (fneg (Refined.g self)) x) = Ok ex /\
    Refined.theoretical_density res = fmul (Refined.d0 self) ex /\
    (if feqb (Refined.theoretical_density res) (Fin 0) then Ok (f64 0.0)
     else fdiv proposed (Refined.theoretical_density res))
    = Ok (Refined.efficiency_index res) /\
    Refined.status res
    = Refined.final_status (Refined.upper_limit_for zone) (Refined.efficiency_index res) /\
    Refined.distance_km res = x /\
    Refined.proposed_density res = proposed /\
    Refined.input_land_cost res = e /\
    Refined.input_capital_k res = k.
Proof.
  unfold Refined.calculate_optimal_density.
  destruct (fexp (fmul (fneg (Refined.g self)) x)) as [ex | err]; cbn [bind];
    [| discriminate].
  destruct (if feqb (fmul (Refined.d0 self) ex) (Fin 0) then Ok (f64 0.0)
            else fdiv proposed (fmul (Refined.d0 self) ex)) as [index | err] eqn:Hidx;
    cbn [bind]; [| discriminate].
  rewrite float_zone_override.
  intro H. injection H as <-.
  cbn [Refined.theoretical_density Refined.efficiency_index Refined.status
       Refined.distance_km Refined.proposed_density Refined.input_land_cost
       Refined.input_capital_k].
  exists ex. repeat split; try reflexivity. exact Hidx.
Qed.

(** The audit returns as soon as the exponential does. *)
Lemma audit_returns
    (self : Refined.BertaudAuditEngine) (k e : float) (t : Refined.transport)
    (x proposed : float) (legal : option float) (zone : option string) (ex : float) :
  fexp (fmul (fneg (Refined.g self)) x) = Ok ex ->
  exists res,
    Refined.calculate_optimal_density self k e t x proposed legal zone = Ok res.
Proof.
  intro Hex. unfold Refined.calculate_optimal_density. rewrite Hex. cbn [bind].
  destruct (guarded_index_returns proposed (fmul (Refined.d0 self) ex))
    as [index Hidx].
  rewrite Hidx. cbn [bind]. eexists. reflexivity.
Qed.



(** The audit of a site at the centre of an engine without gradient. *)
Lemma central_audit
    (d p : R) (k e : float) (t : Refined.transport)
    (legal : option float) (zone : option string) :
  round (d * 1) = Fin d -> d <> 0 ->
  exists res,
    Refined.calculate_optimal_density (Refined.mkEngine (Fin d) (Fin 0)) k e t
      (Fin 0) (Fin p) legal zone = Ok res /\
    Refined.efficiency_index res = round (p / d) /\
    Refined.status res
    = Refined.final_status (Refined.upper_limit_for zone) (round (p / d)).
Proof.
  intros Hd Hnz.
  assert (Hex : fexp (fmul (fneg (Refined.g (Refined.mkEngine (Fin d) (Fin 0)))) (Fin 0))
                = Ok (Fin 1)).
  { cbn [Refined.g fneg fmul]. replace (- 0 * 0) with 0 by lra.
    rewrite round_0. apply fexp_0. }
  destruct (audit_returns (Refined.mkEngine (Fin d) (Fin 0)) k e t (Fin 0) (Fin p)
              legal zone _ Hex) as [res Hres].
  exists res. split; [exact Hres |].
  destruct (audit_fields _ _ _ _ _ _ _ _ _ Hres)
    as (ex & Hex' & Htheo & Hidx & Hstatus & _).
  rewrite Hex in Hex'. injection Hex' as <-.
  cbn [Refined.d0 fmul] in Htheo. rewrite Hd in Htheo.
  rewrite Htheo in Hidx. cbn [feqb fdiv] in Hidx.
  rewrite Reqb_false in Hidx by assumption.
  injection Hidx as Hidx.
  rewrite Hstatus, <- Hidx. split; reflexivity.
Qed.

Ltac float_thresholds :=
  rewrite ?low_warning_threshold, ?optimal_high_default, ?optimal_high_yellow,
          ?f64_0_8, ?f64_1_1, ?f64_1_2.





(** Evaluates the status at an index given as a literal. *)
Ltac final_status_at_index :=
  unfold Refined.final_status;
  match goal with
  | |- context [Refined.upper_limit_for ?zone] =>
      first [ change (Refined.upper_limit_for zone) with (f64 1.1)
            | change (Refined.upper_limit_for zone) with (f64 1.2) ]
  end;
  float_thresholds; rewrite ?f64_0_7; cbn [flt fle];
  repeat first [ rewrite Rltb_true by lra | rewrite Rltb_false by lra
               | rewrite Rleb_true by lra | rewrite Rleb_false by lra ];
  reflexivity.

(** *** The calibration on the steep samples *)

Lemma steep_samples_valid :
  valid_samples Refined.steep_samples = Refined.steep_samples.
Proof.
  unfold valid_samples, Refined.steep_samples. cbn [filter snd].
  rewrite Rltb_true by lra.
  rewrite Rltb_true by (apply Rinv_0_lt_compat, pow_lt; lra).
  reflexivity.
Qed.

Lemma steep_samples_intercept :
  ols_intercept (distances Refined.steep_samples) (log_densities Refined.steep_samples)
  = INR 2000 * ln 2.
Proof.
  unfold distances, log_densities. rewrite steep_samples_valid.
  unfold Refined.steep_samples. cbn [map fst snd].
  rewrite ln_1, ln_Rinv by (apply pow_lt; lra). rewrite ln_pow by lra.
  replace (INR 2000) with 2000 by (rewrite INR_IZR_INZ; reflexivity).
  replace (INR 1000) with 1000 by (rewrite INR_IZR_INZ; reflexivity).
  set (L := ln 2).
  unfold ols_intercept, ols_slope, mean, rsum.
  cbn [map combine fold_right List.length fst snd INR].
  replace 1.5 with (3 / 2) by lra. field.
Qed.

End RefinedFacts.

(* ===================================================================== *)
(** * The properties of the specification                                 *)
(* ===================================================================== *)

Import Finance Bertaud Spec PyFacts F64Facts FinanceFacts BertaudFacts RefinedFacts.

(** ** Financial engine *)

(** The rent schedule in closed form: after year 1 the rent has been
    escalated once per completed interval. *)
Lemma rent_schedule_closed_form (p : FinancialParams) (n : nat) :
  (0 < escalation_interval_years p)%Z ->
  rent_in_year p (S n)
  = initial_annual_rent p
    * (1 + rent_escalation_rate p)
      ^ Z.to_nat (Z.of_nat n / escalation_interval_years p).
Proof.
  intro Hk. induction n as [| n IH].
  - cbn. lra.
  - remember (S n) as m eqn:Hm. cbn [rent_in_year]. rewrite IH. subst m.
    destruct (Z.ltb_spec 1 (Z.of_nat (S (S n)))) as [_ | Hle]; [| lia].
    cbn [andb].
    replace (Z.of_nat (S (S n)) - 1)%Z with (Z.of_nat (S n)) by lia.
    set (k := escalation_interval_years p) in *.
    assert (Hq : (0 <= Z.of_nat n / k)%Z) by (apply Z.div_pos; lia).
    destruct (Z.eqb_spec (Z.of_nat (S n) mod k) 0) as [Hmod | Hmod].
    + assert (Hdiv : (Z.of_nat (S n) / k = Z.of_nat n / k + 1)%Z).
      { pose proof (Z.div_mod (Z.of_nat (S n)) k ltac:(lia)) as H1.
        pose proof (Z.div_mod (Z.of_nat n) k ltac:(lia)) as H2.
        pose proof (Z.mod_pos_bound (Z.of_nat n) k Hk) as H3.
        rewrite Hmod in H1. nia. }
      rewrite Hdiv, Z2Nat.inj_add by lia.
      change (Z.to_nat 1) with 1%nat. rewrite Nat.add_1_r. cbn [pow]. lra.
    + assert (Hdiv : (Z.of_nat (S n) / k = Z.of_nat n / k)%Z).
      { pose proof (Z.div_mod (Z.of_nat (S n)) k ltac:(lia)) as H1.
        pose proof (Z.div_mod (Z.of_nat n) k ltac:(lia)) as H2.
        pose proof (Z.mod_pos_bound (Z.of_nat n) k Hk) as H3.
        pose proof (Z.mod_pos_bound (Z.of_nat (S n)) k Hk) as H4.
        nia. }
      now rewrite Hdiv.
Qed.

(** C1.  For every (validated) [FinancialParams] record,
    [calculate_state_npv] returns the undiscounted upfront fee, plus for
    each year from 1 to the lease term the rent in force in that year
    (initial rent, escalated at the start of every year > 1 with
    (year - 1) mod interval = 0) divided by (1 + rate)^year, plus the
    residual value investment * (life - term) / life (0 when the term
    reaches the useful life) discounted by (1 + rate)^term, added once. *)
Theorem state_npv_discounted_cash_flow (p : FinancialParams) :
  validated p ->
  calculate_state_npv p
  = Ok (upfront_fee p
        + sum_years (Z.to_nat (lease_term_years p))
            (fun year => rent_in_year p year / (1 + discount_rate p) ^ year)
        + (if (lease_term_years p <? asset_useful_life_years p)%Z
           then investment_cost p
                * (IZR (asset_useful_life_years p) - IZR (lease_term_years p))
                / IZR (asset_useful_life_years p)
           else 0)
          / (1 + discount_rate p) ^ Z.to_nat (lease_term_years p)).
Proof. exact (npv_returns_formula p). Qed.

Lemma state_npv_discounted_cash_flow_witness :
  validated npv_scenario /\
  calculate_state_npv npv_scenario = Ok (npv_formula npv_scenario).
Proof.
  assert (Hv : validated npv_scenario).
  { unfold validated, npv_scenario. cbn. repeat split; (lra || lia). }
  split; [exact Hv |].
  exact (state_npv_discounted_cash_flow npv_scenario Hv).
Defined.

(** C9.  In the NPV scenario of the specification the NPV is a positive
    (finite) number, and raising the discount rate by 0.02 with every
    other field unchanged strictly lowers it.  The sensitivity sweep
    returns exactly the NPVs of three records that share upfront fee,
    initial rent, lease term and investment cost and differ only in the
    discount rate: the base rate (the 5% fixed in the method), base + 0.02
    and base - 0.02. *)
Theorem npv_scenario_and_sensitivity :
  (exists v, calculate_state_npv npv_scenario = Ok v /\ 0 < v) /\
  (exists v v',
      calculate_state_npv npv_scenario = Ok v /\
      calculate_state_npv
        (with_discount_rate npv_scenario (discount_rate npv_scenario + 0.02))
      = Ok v' /\
      v' < v) /\
  (forall (base_params : dict pyval) (lease : Z),
      as_int (dict_get_default base_params "lease_years" (PyInt 30)) = Ok lease ->
      let base := sweep_record base_params lease 0.05 in
      validated base ->
      exists v0 v1 v2,
        calculate_state_npv base = Ok v0 /\
        calculate_state_npv (with_discount_rate base (discount_rate base + 0.02))
        = Ok v1 /\
        calculate_state_npv (with_discount_rate base (discount_rate base - 0.02))
        = Ok v2 /\
        perform_sensitivity_analysis base_params
        = Ok {| base_case := v0; plus_2pct_rate := v1; minus_2pct_rate := v2 |}).
Proof.
  pose proof npv_scenario_validated as Hv.
  assert (Hv' : validated (with_discount_rate npv_scenario
                             (discount_rate npv_scenario + 0.02))).
  { apply validated_with_discount_rate; [assumption |]. cbn. lra. }
  split; [| split].
  - exists (npv_formula npv_scenario). split; [now apply npv_returns_formula |].
    pose proof (npv_formula_lower_bound npv_scenario Hv) as Hlow.
    cbn [npv_scenario upfront_fee] in Hlow. lra.
  - exists (npv_formula npv_scenario),
           (npv_formula (with_discount_rate npv_scenario
                           (discount_rate npv_scenario + 0.02))).
    split; [now apply npv_returns_formula |].
    split; [now apply npv_returns_formula |].
    apply npv_formula_decreasing; [assumption | cbn; lra | cbn; lra].
  - intros bp lease Hlease base Hbase.
    exists (npv_formula base),
           (npv_formula (with_discount_rate base (discount_rate base + 0.02))),
           (npv_formula (with_discount_rate base (discount_rate base - 0.02))).
    split; [now apply npv_returns_formula |].
    split.
    { apply npv_returns_formula, validated_with_discount_rate;
        [assumption | cbn; lra]. }
    split.
    { apply npv_returns_formula, validated_with_discount_rate;
        [assumption | cbn; lra]. }
    exact (sensitivity_returns bp lease Hlease Hbase).
Qed.

Lemma npv_scenario_and_sensitivity_witness :
  exists v0 v1 v2,
    perform_sensitivity_analysis scenario_base_params
    = Ok {| base_case := v0; plus_2pct_rate := v1; minus_2pct_rate := v2 |}.
Proof.
  destruct npv_scenario_and_sensitivity as (_ & _ & Hsweep).
  destruct (Hsweep scenario_base_params 30%Z) as (v0 & v1 & v2 & _ & _ & _ & H).
  - reflexivity.
  - unfold validated. cbn. repeat split; (lra || lia).
  - exists v0, v1, v2. exact H.
Defined.

(** C3.  The two guards of [calculate_breakeven_lease_term] work: a cash
    flow <= 0, or a ratio investment * rate / cashflow >= 1, gives the
    infinite sentinel; and the scenario of the specification
    (investment 500,000,000, cash flow 40,000,000, rate 0.05) gives a
    finite term strictly between 15 and 25 years.  But the method does
    not return the finite value in every other case: for the same
    investment and cash flow at the rate 0 neither guard applies (the
    ratio is 0), and the method raises [ZeroDivisionError]. *)
Theorem breakeven_guards_miss_zero_rate :
  (forall inv cf r,
      never_breaks_even inv cf r ->
      calculate_breakeven_lease_term inv cf r = Ok Infinity) /\
  (exists n,
      calculate_breakeven_lease_term 500000000 40000000 0.05 = Ok (Finite n) /\
      15 < n < 25) /\
  ~ never_breaks_even 500000000 40000000 0 /\
  calculate_breakeven_lease_term 500000000 40000000 0 = Raise ZeroDivisionError.
Proof.
  split; [| split; [| split]].
  - intros inv cf r. apply breakeven_sentinel.
  - exists (breakeven_years 500000000 40000000 0.05).
    split; [| exact breakeven_scenario_bounds].
    apply breakeven_finite; [lra | lra |].
    unfold never_breaks_even, breakeven_ratio. intros [H | H]; lra.
  - unfold never_breaks_even, breakeven_ratio. intros [H | H]; lra.
  - apply breakeven_zero_rate. lra.
Qed.

(** C4.  The break-even term for investment 100, cash flow 10 and the
    (validated) discount rate 0 is not a defined result: the method
    divides by ln (1 + 0) = 0 and raises [ZeroDivisionError]. *)
Theorem breakeven_raises_at_zero_rate :
  calculate_breakeven_lease_term 100 10 0 = Raise ZeroDivisionError.
Proof. apply breakeven_zero_rate. lra. Qed.

(** C8.  [validate_construction_cost] looks the benchmark up by the
    lower-cased building type (low-rise 15,000; high-rise 30,000) and
    answers "Unknown Type" with deviation 0 for any other type; the
    location factor is looked up by the lower-cased province and is 1.0
    for an unknown one; the adjusted standard is base * factor, the
    deviation (proposed - adjusted) / adjusted, and the status is "Cost
    Anomaly Detected" exactly when |deviation| > 0.20 and "Pass"
    otherwise.  High-rise at factor 1.15 (Phuket) with 35,000 passes;
    high-rise at factor 0.95 (Udon Thani) with 40,000 is an anomaly.
    Lower-casing is [str.lower]: any mapping that lower-cases ASCII text
    as ASCII. *)
Theorem construction_cost_validation (str_lower : string -> string) :
  (forall s, isascii s = true -> str_lower s = lower s) ->
  (forall proposed bt prov,
      str_lower bt <> "low-rise" -> str_lower bt <> "high-rise" ->
      exists res,
        Refined.validate_construction_cost str_lower proposed bt prov = Ok res /\
        cv_status res = "Unknown Type" /\ cv_deviation_percent res = 0) /\
  (forall prov,
      dict_mem (str_lower prov) location_factors = false ->
      dict_get_default location_factors (str_lower prov) 1.0 = 1) /\
  (forall proposed bt prov base,
      (str_lower bt = "low-rise" /\ base = 15000) \/
      (str_lower bt = "high-rise" /\ base = 30000) ->
      let factor := dict_get_default location_factors (str_lower prov) 1.0 in
      let adjusted := base * factor in
      let deviation := (proposed - adjusted) / adjusted in
      exists status,
        Refined.validate_construction_cost str_lower proposed bt prov
        = Ok (BenchmarkResult status (deviation * 100) base factor adjusted prov) /\
        (status = "Cost Anomaly Detected" <-> 0.20 < Rabs deviation) /\
        (status = "Pass" <-> Rabs deviation <= 0.20)) /\
  (exists dev,
      Refined.validate_construction_cost str_lower 35000 "high-rise" "Phuket"
      = Ok (BenchmarkResult "Pass" dev 30000 1.15 34500 "Phuket")) /\
  (exists dev,
      Refined.validate_construction_cost str_lower 40000 "high-rise" "Udon Thani"
      = Ok (BenchmarkResult "Cost Anomaly Detected" dev 30000 0.95 28500
              "Udon Thani")).
Proof.
  intro Hascii.
  assert (Hknown : forall proposed bt prov base,
      (str_lower bt = "low-rise" /\ base = 15000) \/
      (str_lower bt = "high-rise" /\ base = 30000) ->
      let factor := dict_get_default location_factors (str_lower prov) 1.0 in
      let adjusted := base * factor in
      let deviation := (proposed - adjusted) / adjusted in
      exists status,
        Refined.validate_construction_cost str_lower proposed bt prov
        = Ok (BenchmarkResult status (deviation * 100) base factor adjusted prov) /\
        (status = "Cost Anomaly Detected" <-> 0.20 < Rabs deviation) /\
        (status = "Pass" <-> Rabs deviation <= 0.20)).
  { intros proposed bt prov base Hbase factor adjusted deviation.
    assert (Hget : exists base', dict_get base_benchmarks (str_lower bt) = Some base'
                                 /\ base' = base).
    { destruct Hbase as [[-> ->] | [-> ->]]; eexists; (split; [reflexivity | lra]). }
    destruct Hget as (base' & Hget & <-).
    destruct (lowercase_benchmark_branch str_lower proposed bt prov base' Hget)
      as [_ Heq].
    fold factor adjusted deviation in Heq.
    eexists. split; [exact Heq |].
    destruct (Rltb_spec 0.20 (Rabs deviation)); split; split; intro;
      try reflexivity; try discriminate; lra. }
  assert (Hhigh : str_lower "high-rise" = "high-rise")
    by (rewrite Hascii; reflexivity).
  assert (Hphuket : str_lower "Phuket" = "phuket") by (rewrite Hascii; reflexivity).
  assert (Hudon : str_lower "Udon Thani" = "udon thani")
    by (rewrite Hascii; reflexivity).
  split; [| split; [| split; [exact Hknown | split]]].
  - intros proposed bt prov H1 H2.
    rewrite lowercase_unknown_branch by now apply base_benchmark_unknown.
    eexists. split; [reflexivity |]. split; reflexivity.
  - intros prov. apply location_factor_unknown.
  - destruct (Hknown 35000 "high-rise" "Phuket" 30000) as (status & Heq & _ & Hpass).
    { right. split; [exact Hhigh | reflexivity]. }
    cbv zeta in Heq, Hpass. rewrite Hphuket in Heq, Hpass.
    change (dict_get_default location_factors "phuket" 1.0) with 1.15 in Heq, Hpass.
    assert (Hs : status = "Pass").
    { apply Hpass. replace ((35000 - 30000 * 1.15) / (30000 * 1.15))
        with (1 / 69) by lra.
      rewrite Rabs_pos_eq; lra. }
    subst status. eexists. rewrite Heq. apply f_equal. f_equal. lra.
  - destruct (Hknown 40000 "high-rise" "Udon Thani" 30000) as (status & Heq & Hanom & _).
    { right. split; [exact Hhigh | reflexivity]. }
    cbv zeta in Heq, Hanom. rewrite Hudon in Heq, Hanom.
    change (dict_get_default location_factors "udon thani" 1.0) with 0.95 in Heq, Hanom.
    assert (Hs : status = "Cost Anomaly Detected").
    { apply Hanom. replace ((40000 - 30000 * 0.95) / (30000 * 0.95))
        with (23 / 57) by lra.
      rewrite Rabs_pos_eq; lra. }
    subst status. eexists. rewrite Heq. apply f_equal. f_equal. lra.
Qed.

Lemma construction_cost_validation_witness :
  (exists res,
      Refined.validate_construction_cost lower 20000 "Villa" "Bangkok" = Ok res /\
      cv_status res = "Unknown Type" /\ cv_deviation_percent res = 0) /\
  dict_get_default location_factors (lower "Atlantis") 1.0 = 1 /\
  (exists status dev adjusted,
      Refined.validate_construction_cost lower 16000 "LOW-Rise" "Chonburi"
      = Ok (BenchmarkResult status dev 15000
              (dict_get_default location_factors (lower "Chonburi") 1.0)
              adjusted "Chonburi")) /\
  (exists dev,
      Refined.validate_construction_cost lower 35000 "high-rise" "Phuket"
      = Ok (BenchmarkResult "Pass" dev 30000 1.15 34500 "Phuket")).
Proof.
  destruct (construction_cost_validation lower (fun s _ => eq_refl))
    as (Hunknown & Hprov & Hknown & Hphuket & _).
  split; [| split; [| split]].
  - apply Hunknown; cbn; discriminate.
  - apply Hprov. reflexivity.
  - destruct (Hknown 16000 "LOW-Rise" "Chonburi" 15000) as (status & Heq & _).
    + left. split; reflexivity.
    + eexists. eexists. eexists. exact Heq.
  - exact Hphuket.
Defined.

(** ** Density engine *)






(** The audit at the other boundaries of the bands.  The index 7/10 is
    the float 0.7, below 0.8 - 0.1. *)
Example status_seven_tenths :
  exists res,
    Refined.calculate_optimal_density (Refined.mkEngine (Fin 10) (Fin 0))
      (Fin 0) (Fin 0) (Refined.TransportFloat (Fin 0)) (Fin 0) (Fin 7)
      None None = Ok res /\
    Refined.efficiency_index res = f64 0.7 /\
    Refined.status res = "Under-utilization".
Proof.
  assert (H10 : round (10 * 1) = Fin 10).
  { round_to 3%Z 5629499534213120%Z. fin_eq. }
  destruct (central_audit 10 7 (Fin 0) (Fin 0) (Refined.TransportFloat (Fin 0))
              None None H10 ltac:(lra)) as (res & Hres & Hidx & Hst).
  replace (7 / 10) with 0.7 in * by lra.
  change (round 0.7) with (f64 0.7) in *.
  exists res. repeat split; try assumption.
  rewrite Hst. final_status_at_index.
Qed.

(** The index 8/10 is the float 0.8, the lower end of Optimal. *)
Example status_eight_tenths :
  exists res,
    Refined.calculate_optimal_density (Refined.mkEngine (Fin 10) (Fin 0))
      (Fin 0) (Fin 0) (Refined.TransportFloat (Fin 0)) (Fin 0) (Fin 8)
      None None = Ok res /\
    Refined.efficiency_index res = f64 0.8 /\
    Refined.status res = "Optimal".
Proof.
  assert (H10 : round (10 * 1) = Fin 10).
  { round_to 3%Z 5629499534213120%Z. fin_eq. }
  destruct (central_audit 10 8 (Fin 0) (Fin 0) (Refined.TransportFloat (Fin 0))
              None None H10 ltac:(lra)) as (res & Hres & Hidx & Hst).
  replace (8 / 10) with 0.8 in * by lra.
  change (round 0.8) with (f64 0.8) in *.
  exists res. repeat split; try assumption.
  rewrite Hst. final_status_at_index.
Qed.

(** The index 12/10 is the float 1.2, the upper limit. *)
Example status_twelve_tenths :
  exists res,
    Refined.calculate_optimal_density (Refined.mkEngine (Fin 10) (Fin 0))
      (Fin 0) (Fin 0) (Refined.TransportFloat (Fin 0)) (Fin 0) (Fin 12)
      None None = Ok res /\
    Refined.efficiency_index res = f64 1.2 /\
    Refined.status res = "High Density Warning".
Proof.
  assert (H10 : round (10 * 1) = Fin 10).
  { round_to 3%Z 5629499534213120%Z. fin_eq. }
  destruct (central_audit 10 12 (Fin 0) (Fin 0) (Refined.TransportFloat (Fin 0))
              None None H10 ltac:(lra)) as (res & Hres & Hidx & Hst).
  replace (12 / 10) with 1.2 in * by lra.
  change (round 1.2) with (f64 1.2) in *.
  exists res. repeat split; try assumption.
  rewrite Hst. final_status_at_index.
Qed.

(** A NaN lies in no band; the last branch of the classifier labels it
    Over-densification. *)
Example status_of_nan :
  exists res,
    Refined.calculate_optimal_density (Refined.mkEngine (Fin 1) (Fin 0))
      (Fin 0) (Fin 0) (Refined.TransportFloat (Fin 0)) (Fin 0) NaN
      None None = Ok res /\
    Refined.efficiency_index res = NaN /\
    Refined.status res = "Over-densification" /\
    forall s, ~ Refined.in_band (Refined.upper_limit_for None) NaN s.
Proof.
  assert (Hex : fexp (fmul (fneg (Fin 0)) (Fin 0)) = Ok (Fin 1)).
  { cbn [fneg fmul]. replace (- 0 * 0) with 0 by lra.
    rewrite round_0. apply fexp_0. }
  destruct (audit_returns (Refined.mkEngine (Fin 1) (Fin 0)) (Fin 0) (Fin 0)
              (Refined.TransportFloat (Fin 0)) (Fin 0) NaN None None _ Hex)
    as [res Hres].
  destruct (audit_fields _ _ _ _ _ _ _ _ _ Hres)
    as (ex & Hex' & Htheo & Hidx & Hstatus & _).
  cbn [Refined.g Refined.d0] in Hex', Htheo.
  rewrite Hex in Hex'. injection Hex' as <-.
  cbn [fmul] in Htheo.
  assert (H1 : round (1 * 1) = Fin 1).
  { round_to 0%Z 4503599627370496%Z. fin_eq. }
  rewrite H1 in Htheo. rewrite Htheo in Hidx. cbn [feqb fdiv] in Hidx.
  rewrite Reqb_false in Hidx by lra. injection Hidx as Hidx.
  exists res. split; [assumption |]. split; [now symmetry |].
  split.
  - rewrite Hstatus, <- Hidx. reflexivity.
  - intros s. unfold Refined.in_band.
    change (Refined.upper_limit_for None) with (f64 1.2).
    float_thresholds. cbn [flt fle].
    intros [[_ H] | [[_ [H _]] | [[_ [H _]] | [[_ [H _]] | [_ H]]]]];
      discriminate H.
Qed.


(** C7 as stated fails.  The two distance maps hold the same three
    entries in a different order of insertion; the code adds the
    contributions 0.1, 0.2 and 0.3 in that order and returns
    0.6000000000000001 for one map and 0.6 for the other. *)
Lemma polycentric_sum_depends_on_order :
  Permutation Refined.distances_abc Refined.distances_cba /\
  Refined.calculate_polycentric_density Refined.binary64
    Refined.distances_abc Refined.three_centers
  = Ok (Fin (5404319552844596 / 9007199254740992)) /\
  Refined.calculate_polycentric_density Refined.binary64
    Refined.distances_cba Refined.three_centers
  = Ok (Fin (5404319552844595 / 9007199254740992)) /\
  Refined.calculate_polycentric_density Refined.binary64
    Refined.distances_abc Refined.three_centers
  <> Refined.calculate_polycentric_density Refined.binary64
       Refined.distances_cba Refined.three_centers.
Proof.
  assert (Habc :
    Refined.calculate_polycentric_density Refined.binary64
      Refined.distances_abc Refined.three_centers
    = Ok (Fin (5404319552844596 / 9007199254740992))).
  { rewrite accumulation_eval, three_centers_terms_abc. cbn [bind].
    now rewrite sum_abc. }
  assert (Hcba :
    Refined.calculate_polycentric_density Refined.binary64
      Refined.distances_cba Refined.three_centers
    = Ok (Fin (5404319552844595 / 9007199254740992))).
  { rewrite accumulation_eval, three_centers_terms_cba. cbn [bind].
    now rewrite sum_cba. }
  split; [| split; [assumption | split; [assumption |]]].
  - unfold Refined.distances_abc, Refined.distances_cba.
    apply Permutation_sym,
      (Permutation_rev [("C", f64 1.0); ("B", f64 1.0); ("A", f64 1.0)]).
  - rewrite Habc, Hcba. intro H. injection H as H. lra.
Qed.

(** C7 (amended).  In the arithmetic of the code, as in any other,
    [calculate_polycentric_density] returns the sum of the contributions
    d0_i e^(-g_i x_i) of the entries of the distance map whose key the
    configuration shares, added one after the other in the order of the
    distance map (or the first exception that a contribution raises); an
    entry whose key the configuration lacks changes nothing and causes no
    error; and the result does not change when the entries of the
    configuration are permuted. *)
Theorem polycentric_density_sum :
  (forall (F : Type) (ops : Refined.float_ops F) (dm : dict F) (cc : dict (dict F)),
      Refined.calculate_polycentric_density ops dm cc
      = (terms <- map_m (Refined.contribution ops cc) (Refined.shared_entries dm cc) ;;
         Ok (Refined.sum_in_order ops terms))) /\
  (forall (F : Type) (ops : Refined.float_ops F) (dm1 dm2 : dict F)
          (cc : dict (dict F)) (k : string) (x : F),
      dict_mem k cc = false ->
      Refined.calculate_polycentric_density ops (dm1 ++ (k, x) :: dm2)%list cc
      = Refined.calculate_polycentric_density ops (dm1 ++ dm2)%list cc) /\
  (forall (F : Type) (ops : Refined.float_ops F) (dm : dict F) (cc cc' : dict (dict F)),
      dict_wf cc -> Permutation cc cc' ->
      Refined.calculate_polycentric_density ops dm cc
      = Refined.calculate_polycentric_density ops dm cc').
Proof.
  split; [| split].
  - intros F ops dm cc. apply accumulation_eval.
  - intros F ops dm1 dm2 cc k x Hmem. rewrite !accumulation_eval.
    now rewrite shared_entries_skip.
  - intros F ops dm cc cc' Hwf Hperm. rewrite !accumulation_eval.
    rewrite (shared_entries_permutation dm cc cc' Hwf Hperm).
    replace (map_m (Refined.contribution ops cc) (Refined.shared_entries dm cc'))
      with (map_m (Refined.contribution ops cc') (Refined.shared_entries dm cc'));
      [reflexivity |].
    induction (Refined.shared_entries dm cc') as [| entry l IH]; [reflexivity |].
    cbn [map_m]. rewrite IH.
    now rewrite (contribution_permutation ops cc cc' entry Hwf Hperm).
Qed.

Lemma polycentric_density_sum_witness :
  Refined.calculate_polycentric_density Refined.binary64
    ([("A", f64 1.0)] ++ ("Z", f64 3.0) :: [("B", f64 1.0); ("C", f64 1.0)])%list
    Refined.three_centers
  = Refined.calculate_polycentric_density Refined.binary64
      ([("A", f64 1.0)] ++ [("B", f64 1.0); ("C", f64 1.0)])%list
      Refined.three_centers /\
  Refined.calculate_polycentric_density Refined.binary64
    Refined.distances_abc Refined.three_centers
  = Refined.calculate_polycentric_density Refined.binary64
      Refined.distances_abc (rev Refined.three_centers).
Proof.
  destruct polycentric_density_sum as (_ & Hskip & Hperm).
  split.
  - apply Hskip. reflexivity.
  - apply Hperm.
    + unfold dict_wf, Refined.three_centers. cbn [map fst].
      repeat constructor; cbn; intuition discriminate.
    + apply Permutation_rev.
Defined.

Lemma valid_samples_idempotent (samples : list (R * R)) :
  valid_samples (valid_samples samples) = valid_samples samples.
Proof.
  unfold valid_samples. induction samples as [| s samples IH]; [reflexivity |].
  cbn [filter]. destruct (Rltb 0 (snd s)) eqn:Hs; [| exact IH].
  cbn [filter]. now rewrite Hs, IH.
Qed.

Lemma valid_samples_drop (l1 l2 : list (R * R)) (s : R * R) :
  snd s <= 0 -> valid_samples (l1 ++ s :: l2)%list = valid_samples (l1 ++ l2)%list.
Proof.
  intro Hs. unfold valid_samples. rewrite !filter_app. cbn [filter].
  now rewrite Rltb_false.
Qed.

(** C5.  On samples generated exactly from D0 = 10 and g = 0.1 at the
    distances 0, 5 and 10, [calibrate_parameters] returns D0 in
    (9.9, 10.1) and g in (0.09, 0.11).  But it does not return
    (e^intercept, -slope) for every fit: for density 1 at distance 1 and
    density 2^(-1000) at distance 1.5 both samples are valid and the
    distances differ, the intercept of the least-squares line is
    2000 ln 2 (about 1386), and [math.exp] raises [OverflowError]. *)
Theorem calibration_overflows :
  (exists D0 gr,
      Refined.calibrate_parameters (model_samples 10 0.1 [0; 5; 10]) = Ok (D0, gr) /\
      9.9 < D0 < 10.1 /\ 0.09 < gr < 0.11) /\
  valid_samples Refined.steep_samples = Refined.steep_samples /\
  ~ all_identical (distances Refined.steep_samples) /\
  Refined.calibrate_parameters Refined.steep_samples = Raise OverflowError.
Proof.
  split; [| split; [| split]].
  - exists 10, 0.1. split; [| lra].
    assert (Hdiff : ~ all_identical [0; 5; 10]).
    { intro Hsame. specialize (Hsame 0 5).
      assert (0 = 5) by (apply Hsame; cbn; tauto). lra. }
    assert (Hne : [0; 5; 10] <> []) by discriminate.
    rewrite ranged_calibrate_fit.
    + rewrite model_samples_distances, model_samples_log_densities by lra.
      destruct (ols_affine [0; 5; 10] (ln 10) (Ropp 0.1) Hne Hdiff) as [-> ->].
      rewrite exp_ranged_in_range.
      * cbn [bind]. rewrite exp_ln by lra. apply f_equal. f_equal. lra.
      * rewrite exp_ln by lra.
        pose proof float_max_large. pose proof float_min_small. lra.
    + rewrite model_samples_valid by lra. cbn. lia.
    + now rewrite model_samples_distances by lra.
    + rewrite model_samples_distances by lra.
      pose proof float_max_large as Hmax.
      unfold mean, rsum. cbn [fold_right List.length INR].
      repeat (apply Forall_cons; [lra |]). apply Forall_nil.
  - exact steep_samples_valid.
  - unfold distances. rewrite steep_samples_valid.
    unfold Refined.steep_samples. cbn [map fst].
    intro Hsame. assert (1 = 1.5) by (apply Hsame; cbn; tauto). lra.
  - rewrite ranged_calibrate_fit.
    + rewrite steep_samples_intercept, exp_ranged_overflow; [reflexivity |].
      rewrite exp_ln_2_pow.
      apply Rlt_le_trans with (2 ^ 1024); [apply float_max_upper_bound |].
      apply Rle_pow; [lra | lia].
    + rewrite steep_samples_valid. cbn. lia.
    + unfold distances. rewrite steep_samples_valid.
      unfold Refined.steep_samples. cbn [map fst].
      intro Hsame. assert (1 = 1.5) by (apply Hsame; cbn; tauto). lra.
    + unfold distances. rewrite steep_samples_valid.
      unfold Refined.steep_samples. cbn [map fst].
      pose proof float_max_large as Hmax.
      unfold mean, rsum. cbn [fold_right List.length INR].
      repeat (apply Forall_cons; [lra |]). apply Forall_nil.
Qed.

(* ===================================================================== *)
(** * The checks of the repository's verification scripts                 *)
(* ===================================================================== *)

(** Comparisons between numerals are settled by [lra]. *)
Ltac decide_cmp :=
  repeat match goal with
         | |- context [Rltb ?a ?b] =>
             first [ rewrite (Rltb_true a b) by lra
                   | rewrite (Rltb_false a b) by lra ]
         | |- context [Rleb ?a ?b] =>
             first [ rewrite (Rleb_true a b) by lra
                   | rewrite (Rleb_false a b) by lra ]
         | |- context [Reqb ?a ?b] =>
             first [ rewrite (Reqb_true a b) by lra
                   | rewrite (Reqb_false a b) by lra ]
         end.

(** [check_status] of verify_engine_advanced.py: an engine with D0 = 10
    and g = 0, audited at distance 0. *)
Lemma check_status (density : R) (zone : option string) (expected : string) :
  final_status (upper_limit_for zone) (density / 10) = expected ->
  exists res,
    calculate_optimal_density (mkEngine 10.0 0.0) 0 0 (TransportFloat 0) 0
      density None zone = Ok res /\
    status res = expected.
Proof.
  intros <-.
  destruct (optimal_density_returns (mkEngine 10.0 0.0) 0 0 (TransportFloat 0) 0
              density None zone) as (res & Heq & _ & _ & _ & Hidx & Hstatus & _).
  exists res. split; [assumption |]. rewrite Hstatus. f_equal.
  rewrite Hidx. cbn [d0 g].
  replace (- 0.0 * 0) with 0 by lra. rewrite exp_0.
  rewrite Reqb_false by lra. f_equal. lra.
Qed.

Ltac run_check_status :=
  apply check_status;
  match goal with
  | |- context [upper_limit_for ?z] =>
      first [ change (upper_limit_for z) with 1.1
            | change (upper_limit_for z) with 1.2 ]
  end;
  unfold final_status; decide_cmp; reflexivity.

Example status_critical_low :
  exists res,
    calculate_optimal_density (mkEngine 10.0 0.0) 0 0 (TransportFloat 0) 0
      6.0 None None = Ok res /\
    status res = "Under-utilization".
Proof. run_check_status. Qed.

Example status_warn_low :
  exists res,
    calculate_optimal_density (mkEngine 10.0 0.0) 0 0 (TransportFloat 0) 0
      7.5 None None = Ok res /\
    status res = "Low Density Warning".
Proof. run_check_status. Qed.

Example status_optimal :
  exists res,
    calculate_optimal_density (mkEngine 10.0 0.0) 0 0 (TransportFloat 0) 0
      9.0 None None = Ok res /\
    status res = "Optimal".
Proof. run_check_status. Qed.

Example status_warn_high :
  exists res,
    calculate_optimal_density (mkEngine 10.0 0.0) 0 0 (TransportFloat 0) 0
      11.5 None None = Ok res /\
    status res = "High Density Warning".
Proof. run_check_status. Qed.

Example status_over :
  exists res,
    calculate_optimal_density (mkEngine 10.0 0.0) 0 0 (TransportFloat 0) 0
      13.0 None None = Ok res /\
    status res = "Over-densification".
Proof. run_check_status. Qed.

Example status_yellow_warn_high :
  exists res,
    calculate_optimal_density (mkEngine 10.0 0.0) 0 0 (TransportFloat 0) 0
      10.5 None (Some "Yellow") = Ok res /\
    status res = "High Density Warning".
Proof. run_check_status. Qed.

Example status_yellow_over :
  exists res,
    calculate_optimal_density (mkEngine 10.0 0.0) 0 0 (TransportFloat 0) 0
      11.5 None (Some "Yellow") = Ok res /\
    status res = "Over-densification".
Proof. run_check_status. Qed.

(** The unit conversions. *)
Example unit_conversions :
  convert_rai_to_sqm 1.0 = 1600 /\ convert_wah_to_sqm 10.0 = 40.
Proof. unfold convert_rai_to_sqm, convert_wah_to_sqm. lra. Qed.

(** A discount rate of -1 or less is outside the domain of the closed
    form: the logarithm of 1 + rate raises. *)
Example breakeven_rate_below_domain :
  calculate_breakeven_lease_term 0 10 (-2) = Raise ValueError.
Proof.
  unfold calculate_breakeven_lease_term, float_div, math_log.
  decide_cmp. cbn [bind]. decide_cmp. cbn [bind]. decide_cmp. reflexivity.
Qed.

(* ===================================================================== *)
(** * Further properties of the density engine                            *)
(* ===================================================================== *)

Import Notions.

(** X1.  For a non-negative centre density and gradient the theoretical
    density reported by the audit equals D0 at distance 0, never exceeds
    D0, is never negative, and does not increase with the distance. *)
Theorem theoretical_density_decay
    (self : BertaudAuditEngine) (k e : R) (t : transport) (proposed : R)
    (legal : option R) (zone : option string) (x1 x2 : R) :
  0 <= d0 self -> 0 <= g self -> 0 <= x1 <= x2 ->
  exists r0 r1 r2,
    calculate_optimal_density self k e t 0 proposed legal zone = Ok r0 /\
    calculate_optimal_density self k e t x1 proposed legal zone = Ok r1 /\
    calculate_optimal_density self k e t x2 proposed legal zone = Ok r2 /\
    theoretical_density r0 = d0 self /\
    0 <= theoretical_density r2 <= theoretical_density r1 /\
    theoretical_density r1 <= d0 self.
Proof.
  intros Hd Hg Hx.
  destruct (optimal_density_returns self k e t 0 proposed legal zone)
    as (r0 & E0 & _ & T0 & _).
  destruct (optimal_density_returns self k e t x1 proposed legal zone)
    as (r1 & E1 & _ & T1 & _).
  destruct (optimal_density_returns self k e t x2 proposed legal zone)
    as (r2 & E2 & _ & T2 & _).
  exists r0, r1, r2. repeat (split; [assumption |]).
  rewrite T0, T1, T2.
  assert (H0 : exp (- g self * 0) = 1).
  { replace (- g self * 0) with 0 by lra. apply exp_0. }
  assert (H21 : exp (- g self * x2) <= exp (- g self * x1)).
  { destruct (Req_dec_T (- g self * x2) (- g self * x1)) as [-> | Hne]; [lra |].
    left. apply exp_increasing. nra. }
  assert (H10 : exp (- g self * x1) <= 1).
  { rewrite <- exp_0.
    destruct (Req_dec_T (- g self * x1) 0) as [-> | Hne]; [lra |].
    left. apply exp_increasing. nra. }
  pose proof (exp_pos (- g self * x2)) as Hpos.
  rewrite H0. repeat split; nra.
Qed.

Lemma theoretical_density_decay_witness :
  exists r0 r1 r2,
    calculate_optimal_density (mkEngine 10 0.1) 0 0 (TransportFloat 0) 0 6 None None
    = Ok r0 /\
    calculate_optimal_density (mkEngine 10 0.1) 0 0 (TransportFloat 0) 2 6 None None
    = Ok r1 /\
    calculate_optimal_density (mkEngine 10 0.1) 0 0 (TransportFloat 0) 5 6 None None
    = Ok r2 /\
    theoretical_density r0 = 10 /\
    0 <= theoretical_density r2 <= theoretical_density r1 /\
    theoretical_density r1 <= 10.
Proof.
  apply (theoretical_density_decay (mkEngine 10 0.1) 0 0 (TransportFloat 0) 6
           None None 2 5); cbn [d0 g]; lra.
Defined.








(** X6.  [validate_inputs] returns one message per negative argument, in
    the order D0, g, distance: the list is the D0 message when D0 < 0,
    then the gradient message when g < 0, then the distance message when
    the distance < 0, each ending in the offending value.  So the list is
    empty exactly when all three arguments are non-negative, and the
    message of an argument is in it exactly when that argument is
    negative. *)
Theorem validate_inputs_complete (float_str : R -> string) (d0 g x : R) :
  EngineSetup.validate_inputs float_str d0 g x
  = ((if Rltb d0 0
      then [("D0 (Center Density) cannot be negative: " ++ float_str d0)%string]
      else [])
     ++ (if Rltb g 0
         then [("Gradient (g) cannot be negative: " ++ float_str g)%string]
         else [])
     ++ (if Rltb x 0
         then [("Distance (x) cannot be negative: " ++ float_str x)%string]
         else []))%list /\
  (EngineSetup.validate_inputs float_str d0 g x = [] <-> 0 <= d0 /\ 0 <= g /\ 0 <= x) /\
  (In ("D0 (Center Density) cannot be negative: " ++ float_str d0)
      (EngineSetup.validate_inputs float_str d0 g x) <-> d0 < 0) /\
  (In ("Gradient (g) cannot be negative: " ++ float_str g)
      (EngineSetup.validate_inputs float_str d0 g x) <-> g < 0) /\
  (In ("Distance (x) cannot be negative: " ++ float_str x)
      (EngineSetup.validate_inputs float_str d0 g x) <-> x < 0).
Proof.
  unfold EngineSetup.validate_inputs.
  destruct (Rltb_spec d0 0); destruct (Rltb_spec g 0); destruct (Rltb_spec x 0);
    cbn [app In];
    (split; [reflexivity |]);
    (split; [split; [intro; try discriminate; lra | intro; try reflexivity; lra] |]);
    repeat split; intro H;
    repeat match goal with
           | H : _ \/ _ |- _ => destruct H as [H | H]
           | H : False |- _ => contradiction
           | H : (_ ++ _)%string = (_ ++ _)%string |- _ =>
               progress cbn [append] in H; try discriminate H
           end;
    try assumption; try lra; try (now left); try (right; now left);
    try (right; right; now left).
Qed.

(** X7.  Constructing an engine never fails and stores its two arguments
    unchanged; it prints at most one advisory line, and none exactly when
    0.01 <= g <= 0.5. *)
Theorem engine_construction_advisories (float_str : R -> string) (d0_arg g_arg : R) :
  snd (EngineSetup.BertaudAuditEngine_init float_str d0_arg g_arg) = mkEngine d0_arg g_arg /\
  (List.length (fst (EngineSetup.BertaudAuditEngine_init float_str d0_arg g_arg)) <= 1)%nat /\
  (fst (EngineSetup.BertaudAuditEngine_init float_str d0_arg g_arg) = []
   <-> 0.01 <= g_arg <= 0.5).
Proof.
  unfold EngineSetup.BertaudAuditEngine_init. cbn [fst snd].
  split; [reflexivity |].
  destruct (Rltb_spec 0.5 g_arg); destruct (Rltb_spec g_arg 0.01);
    cbn [app List.length]; (split; [try lia; lra |]);
    split; intro; try discriminate; try reflexivity; lra.
Qed.

(** X8.  The polycentric density of an empty distance map is 0.  With
    densities D0, gradients and distances that are not negative (what
    [validate_inputs] asks of an audit, and what keeps [math.exp] at or
    below 1), the method returns, the density it returns is not
    negative, and extending the distance map by further entries does not
    lower it. *)
Theorem polycentric_density_monotone :
  (forall cc, calculate_polycentric_density [] cc = Ok 0) /\
  (forall dm dm' cc,
      (forall k params, dict_get cc k = Some params ->
                        0 <= dict_get_default params "d0" 0 /\
                        0 <= dict_get_default params "g" 0) ->
      Forall (fun entry => 0 <= snd entry) (dm ++ dm')%list ->
      exists v v',
        calculate_polycentric_density dm cc = Ok v /\
        calculate_polycentric_density (dm ++ dm')%list cc = Ok v' /\
        0 <= v <= v').
Proof.
  split.
  - intro cc. rewrite polycentric_entries. reflexivity.
  - intros dm dm' cc Hd0 _. rewrite !polycentric_entries.
    eexists. eexists. split; [reflexivity |]. split; [reflexivity |].
    assert (Hpos : forall l, 0 <= rsum (map (entry_term cc) l)).
    { intro l. apply rsum_nonneg. apply Forall_forall. intros t Ht.
      apply in_map_iff in Ht. destruct Ht as ([k x] & <- & _).
      unfold entry_term, center_term. cbn [fst snd].
      destruct (dict_get cc k) as [params |] eqn:Hget; [| lra].
      apply Rmult_le_pos; [now apply (Hd0 k) | apply Rlt_le, exp_pos]. }
    rewrite map_app, rsum_app.
    pose proof (Hpos dm). pose proof (Hpos dm'). lra.
Qed.

Lemma polycentric_density_monotone_witness :
  exists v v',
    calculate_polycentric_density [("CBD_1", 5.0)] test_centers_config = Ok v /\
    calculate_polycentric_density test_distance_map test_centers_config = Ok v' /\
    0 <= v <= v'.
Proof.
  apply (proj2 polycentric_density_monotone [("CBD_1", 5.0)] [("CBD_2", 2.0)]
           test_centers_config).
  - intros k params. unfold test_centers_config. cbn [dict_get].
    destruct (String.eqb k "CBD_1").
    + intro H. injection H as <-. unfold dict_get_default. cbn. lra.
    + destruct (String.eqb k "CBD_2"); [| discriminate].
      intro H. injection H as <-. unfold dict_get_default. cbn. lra.
  - cbn [app]. repeat (apply Forall_cons; [cbn [snd]; lra |]). apply Forall_nil.
Defined.


(** X10.  Round trip between the audit and the calibration: if every
    sample pairs a distance with the theoretical density that an audit of
    the engine reports there, the centre density is positive and at least
    two distances differ, then [calibrate_parameters] returns the engine's
    own D0 and g. *)
Theorem calibration_inverts_audit
    (self : BertaudAuditEngine) (k e : R) (t : transport) (p : R)
    (legal : option R) (zone : option string) (samples : list (R * R)) :
  0 < d0 self ->
  ~ all_identical (map fst samples) ->
  Forall (fun s => exists res,
              calculate_optimal_density self k e t (fst s) p legal zone = Ok res /\
              snd s = theoretical_density res) samples ->
  calibrate_parameters samples = Ok (d0 self, g self).
Proof.
  intros Hd Hdiff Hall.
  assert (Hs : samples = model_samples (d0 self) (g self) (map fst samples)).
  { unfold model_samples. rewrite map_map. clear Hdiff.
    induction Hall as [| [x y] l (res & E & Hy) _ IH]; [reflexivity |].
    cbn [map fst]. f_equal; [| exact IH].
    destruct (optimal_density_returns self k e t x p legal zone)
      as (res' & E' & _ & T' & _).
    cbn [fst snd] in E, Hy. rewrite E in E'. injection E' as <-.
    now rewrite Hy, T'. }
  rewrite Hs. now apply calibrate_model_samples.
Qed.

Lemma calibration_inverts_audit_witness :
  calibrate_parameters [(0, 10 * exp (- 0.1 * 0)); (5, 10 * exp (- 0.1 * 5))]
  = Ok (10, 0.1).
Proof.
  apply (calibration_inverts_audit (mkEngine 10 0.1) 0 0 (TransportFloat 0) 1
           None None).
  - cbn [d0]. lra.
  - cbn [map fst]. intro H.
    assert (0 = 5) by (apply H; cbn; tauto). lra.
  - apply Forall_cons; [| apply Forall_cons; [| apply Forall_nil]]; cbn [fst snd];
      match goal with
      | |- exists res, calculate_optimal_density ?s ?k ?e ?t ?x ?p ?l ?z = _ /\ _ =>
          destruct (optimal_density_returns s k e t x p l z)
            as (res & E & _ & T & _);
          exists res; split;
          [exact E | rewrite T; cbn [d0 g]; apply f_equal, f_equal; lra]
      end.
Defined.

(** X11.  [calibrate_parameters] ignores the samples whose density is
    not positive (their logarithm is never taken).  With fewer than two
    valid samples, and when all valid distances are identical, it
    returns the sentinel (0.0, 0.0).  The only exception it raises is
    [OverflowError], and an estimated D0 is never negative. *)
Theorem calibration_sentinel_and_errors :
  (forall samples,
      Refined.calibrate_parameters samples
      = Refined.calibrate_parameters (valid_samples samples)) /\
  (forall l1 l2 s,
      snd s <= 0 ->
      Refined.calibrate_parameters (l1 ++ s :: l2)%list
      = Refined.calibrate_parameters (l1 ++ l2)%list) /\
  (forall samples,
      (List.length (valid_samples samples) < 2)%nat ->
      Refined.calibrate_parameters samples = Ok (0, 0)) /\
  (forall samples,
      all_identical (distances samples) ->
      Refined.calibrate_parameters samples = Ok (0, 0)) /\
  (forall samples e,
      Refined.calibrate_parameters samples = Raise e -> e = OverflowError) /\
  (forall samples D0 gr,
      Refined.calibrate_parameters samples = Ok (D0, gr) -> 0 <= D0).
Proof.
  split; [| split; [| split; [| split; [| split]]]].
  - intro samples. apply ranged_calibrate_valid_samples.
    symmetry. apply valid_samples_idempotent.
  - intros l1 l2 s Hs. apply ranged_calibrate_valid_samples.
    now apply valid_samples_drop.
  - intros samples Hlt. rewrite ranged_calibrate_eval.
    destruct (Nat.ltb_spec (List.length (valid_samples samples)) 2); [reflexivity | lia].
  - intros samples Hsame. rewrite ranged_calibrate_eval.
    destruct (Nat.ltb_spec (List.length (valid_samples samples)) 2) as [| Hge];
      [reflexivity |].
    assert (Hne : distances samples <> []).
    { apply nonempty_of_length. now rewrite distances_length. }
    assert (Hzero : rsum (map (fun x => (x - mean (distances samples)) ^ 2)
                              (distances samples)) = 0).
    { now apply denominator_zero_iff. }
    rewrite squares_in_range.
    + cbn [bind]. now rewrite Reqb_true.
    + apply Forall_forall. intros x Hx.
      assert (Hx0 : (x - mean (distances samples)) ^ 2 = 0).
      { apply (proj1 (squares_zero_iff _ _)) with (x := x) in Hzero; [| assumption].
        rewrite Hzero. cbn. lra. }
      rewrite Hx0. pose proof float_max_large. lra.
  - intros samples e. rewrite ranged_calibrate_eval.
    destruct (List.length (valid_samples samples) <? 2)%nat; [discriminate |].
    destruct (squares_eval (distances samples) (mean (distances samples)))
      as [-> | ->]; cbn [bind].
    + destruct (Reqb _ 0); [discriminate |]. cbv zeta.
      destruct (math_exp_ranged _) as [d0 | e'] eqn:Hexp; cbn [bind]; [discriminate |].
      intro H. injection H as <-. exact (exp_ranged_raises _ _ Hexp).
    + intro H. now injection H as <-.
  - intros samples D0 gr. rewrite ranged_calibrate_eval.
    destruct (List.length (valid_samples samples) <? 2)%nat.
    { intro H. injection H as <- _. lra. }
    destruct (map_m _ (distances samples)) as [squares | e]; cbn [bind];
      [| discriminate].
    destruct (Reqb (rsum squares) 0).
    { intro H. injection H as <- _. lra. }
    cbv zeta.
    destruct (math_exp_ranged _) as [d0 | e'] eqn:Hexp; cbn [bind]; [| discriminate].
    intro H. injection H as <- _. exact (exp_ranged_nonneg _ _ Hexp).
Qed.

Lemma calibration_sentinel_and_errors_witness :
  Refined.calibrate_parameters [(1, -2); (3, 4)] = Refined.calibrate_parameters [(3, 4)] /\
  Refined.calibrate_parameters [(1, 0)] = Ok (0, 0) /\
  Refined.calibrate_parameters [(1, 2); (1, 3)] = Ok (0, 0).
Proof.
  destruct calibration_sentinel_and_errors as (_ & Hdrop & Hfew & Hsame & _).
  split; [| split].
  - apply (Hdrop [] [(3, 4)] (1, -2)). cbn [snd]. lra.
  - apply Hfew. unfold valid_samples. cbn [filter snd].
    rewrite Rltb_false by lra. cbn. lia.
  - apply Hsame. unfold distances, valid_samples. cbn [filter snd].
    rewrite !Rltb_true by lra. cbn [map fst].
    intros x x' [<- | [<- | []]] [<- | [<- | []]]; reflexivity.
Defined.

Lemma combine_map_pair {A B C : Type} (f : A -> B) (h : A -> C) (l : list A) :
  combine (map f l) (map h l) = map (fun a => (f a, h a)) l.
Proof. induction l as [| a l IH]; cbn; [reflexivity | now rewrite IH]. Qed.

Lemma valid_samples_permutation (s s' : list (R * R)) :
  Permutation s s' -> Permutation (valid_samples s) (valid_samples s').
Proof.
  unfold valid_samples.
  induction 1 as [| a l l' _ IH | a b l | l l' l'' _ IH1 _ IH2].
  - constructor.
  - cbn [filter]. destruct (Rltb 0 (snd a)); [now constructor | assumption].
  - cbn [filter]. destruct (Rltb 0 (snd a)); destruct (Rltb 0 (snd b));
      try apply Permutation_refl. apply perm_swap.
  - now apply perm_trans with (filter (fun s => Rltb 0 (snd s)) l').
Qed.

Lemma mean_permutation (l l' : list R) : Permutation l l' -> mean l = mean l'.
Proof.
  intro H. unfold mean.
  now rewrite (rsum_permutation l l' H), (Permutation_length H).
Qed.

(** X12.  The calibration does not depend on the order of the samples. *)
Theorem calibration_order_independent (samples samples' : list (R * R)) :
  Permutation samples samples' ->
  calibrate_parameters samples = calibrate_parameters samples'.
Proof.
  intro Hperm. apply valid_samples_permutation in Hperm.
  rewrite !calibrate_eval.
  rewrite (Permutation_length Hperm).
  assert (Hx : Permutation (distances samples) (distances samples')).
  { unfold distances. now apply Permutation_map. }
  assert (Hy : Permutation (log_densities samples) (log_densities samples')).
  { unfold log_densities. now apply Permutation_map. }
  assert (Hmx := mean_permutation _ _ Hx).
  assert (Hmy := mean_permutation _ _ Hy).
  assert (Hden :
    rsum (map (fun x => (x - mean (distances samples)) ^ 2) (distances samples))
    = rsum (map (fun x => (x - mean (distances samples')) ^ 2) (distances samples'))).
  { rewrite Hmx. apply rsum_permutation. now apply Permutation_map. }
  assert (Hslope :
    ols_slope (distances samples) (log_densities samples)
    = ols_slope (distances samples') (log_densities samples')).
  { unfold ols_slope. rewrite Hden. f_equal.
    rewrite Hmx, Hmy. unfold distances, log_densities.
    rewrite !combine_map_pair, !map_map.
    apply rsum_permutation. now apply Permutation_map. }
  unfold ols_intercept. now rewrite Hden, Hslope, Hmx, Hmy.
Qed.

Lemma calibration_order_independent_witness :
  calibrate_parameters [(0, 10); (5, 6); (10, 4)]
  = calibrate_parameters [(5, 6); (0, 10); (10, 4)].
Proof.
  apply calibration_order_independent. apply perm_swap.
Defined.

(* ===================================================================== *)
(** * Further properties of the financial engine                          *)
(* ===================================================================== *)

Lemma as_int_raises (v : pyval) (e : exn) : as_int v = Raise e -> e = ValidationError.
Proof.
  destruct v as [z | r]; cbn [as_int]; [discriminate |].
  destruct (Reqb r (IZR (Int_part r))); [discriminate |].
  intro H. now injection H as <-.
Qed.

(** X13.  A [FinancialParams] object that has been constructed satisfies
    every declared bound, carries the arguments it was built from and the
    default escalation (15% every 3 years); the only exception the
    construction raises is the validation error; with integer lease term
    and useful life it succeeds exactly when the bounds hold; and a lease
    term given as a float with a fractional part is rejected. *)
Theorem financial_params_construction :
  (forall up rent lease rate inv life p,
      FinancialParams_init up rent lease rate inv life = Ok p ->
      validated p /\
      upfront_fee p = as_float up /\
      initial_annual_rent p = as_float rent /\
      as_int lease = Ok (lease_term_years p) /\
      discount_rate p = as_float rate /\
      investment_cost p = as_float inv /\
      as_int life = Ok (asset_useful_life_years p) /\
      rent_escalation_rate p = 0.15 /\
      escalation_interval_years p = 3%Z) /\
  (forall up rent lease rate inv life e,
      FinancialParams_init up rent lease rate inv life = Raise e ->
      e = ValidationError) /\
  (forall up rent rate inv (lease life : Z),
      returns (FinancialParams_init up rent (PyInt lease) rate inv (PyInt life))
      <-> 0 <= as_float up /\ 0 <= as_float rent /\ (0 < lease <= 100)%Z /\
          0 <= as_float rate <= 1 /\ 0 <= as_float inv /\ (0 < life)%Z) /\
  (forall up rent rate inv life (lease : R),
      lease <> IZR (Int_part lease) ->
      FinancialParams_init up rent (PyFloat lease) rate inv life
      = Raise ValidationError).
Proof.
  split; [| split; [| split]].
  - intros up rent lease rate inv life p. unfold FinancialParams_init.
    destruct (as_int lease) as [l |]; cbn [bind]; [| discriminate].
    destruct (as_int life) as [u |]; cbn [bind]; [| discriminate].
    destruct (check_bounds _) eqn:Hb; [| discriminate].
    intro H. injection H as <-.
    apply check_bounds_validated in Hb. split; [exact Hb |].
    cbn. repeat split; reflexivity.
  - intros up rent lease rate inv life e. unfold FinancialParams_init.
    destruct (as_int lease) as [l | e1] eqn:E1; cbn [bind].
    + destruct (as_int life) as [u | e2] eqn:E2; cbn [bind].
      * destruct (check_bounds _); [discriminate |].
        intro H. now injection H as <-.
      * intro H. injection H as <-. now apply (as_int_raises life).
    + intro H. injection H as <-. now apply (as_int_raises lease).
  - intros up rent rate inv lease life. unfold FinancialParams_init, returns.
    cbn [as_int bind].
    match goal with
    | |- context [check_bounds ?q] =>
        pose proof (check_bounds_validated q) as Hcb; destruct (check_bounds q)
    end.
    + split; [intros _ | intros _; now eexists].
      pose proof (proj1 Hcb eq_refl) as Hv. unfold validated in Hv. cbn in Hv.
      tauto.
    + split; [intros [p Hp]; discriminate |].
      intro Hv. exfalso.
      assert (false = true); [| discriminate].
      apply Hcb. unfold validated. cbn. repeat split; try tauto; (lra || lia).
  - intros up rent rate inv life lease Hfrac. unfold FinancialParams_init.
    cbn [as_int]. now rewrite Reqb_false.
Qed.

Lemma financial_params_construction_witness :
  exists p,
    FinancialParams_init (PyInt 50000000) (PyInt 10000000) (PyInt 30)
      (PyFloat 0.035) (PyInt 1000000000) (PyInt 50) = Ok p /\
    validated p /\
    FinancialParams_init (PyInt 50000000) (PyInt 10000000) (PyFloat 30.5)
      (PyFloat 0.035) (PyInt 1000000000) (PyInt 50) = Raise ValidationError.
Proof.
  destruct financial_params_construction as (Hok & _ & Hiff & Hfrac).
  destruct (proj2 (Hiff (PyInt 50000000) (PyInt 10000000) (PyFloat 0.035)
                     (PyInt 1000000000) 30%Z 50%Z)) as [p Hp].
  { cbn [as_float]. repeat split; (lra || lia). }
  exists p. split; [exact Hp |]. split; [exact (proj1 (Hok _ _ _ _ _ _ _ Hp)) |].
  apply Hfrac.
  destruct (base_Int_part 30.5) as [Hlo Hhi].
  intro Heq.
  assert (Hz : (Int_part 30.5 = 30)%Z \/ (Int_part 30.5 <> 30)%Z) by lia.
  destruct Hz as [Hz | Hz]; [rewrite Hz in Heq; lra |].
  assert (H2 : (Int_part 30.5 < 30 \/ 30 < Int_part 30.5)%Z) by lia.
  destruct H2 as [H2 | H2].
  - assert (Int_part 30.5 <= 29)%Z by lia. apply IZR_le in H. lra.
  - assert (31 <= Int_part 30.5)%Z by lia. apply IZR_le in H. lra.
Defined.

Lemma npv_formula_nonincreasing (p : FinancialParams) (r' : R) :
  validated p -> discount_rate p <= r' ->
  npv_formula (with_discount_rate p r') <= npv_formula p.
Proof.
  intros (Hup & Hrent & Hterm & Hr & Hinv & Hlife & Hesc & Hint) Hle.
  unfold npv_formula. cbn [with_discount_rate upfront_fee lease_term_years].
  rewrite residual_with_discount_rate.
  set (n := Z.to_nat (lease_term_years p)).
  assert (Hsum :
    sum_years n (fun y => rent_in_year (with_discount_rate p r') y
                          / discount_factor (with_discount_rate p r') y)
    <= sum_years n (fun y => rent_in_year p y / discount_factor p y)).
  { apply sum_years_le. intro y. rewrite rent_with_discount_rate.
    apply div_le_denominator.
    - apply rent_nonneg; lra.
    - apply discount_factor_pos. lra.
    - unfold discount_factor. apply pow_incr. cbn. lra. }
  assert (Hres :
    residual_value p / discount_factor (with_discount_rate p r') n
    <= residual_value p / discount_factor p n).
  { apply div_le_denominator.
    - apply residual_nonneg; assumption.
    - apply discount_factor_pos. lra.
    - unfold discount_factor. apply pow_incr. cbn. lra. }
  lra.
Qed.

(** X14.  For every validated record, raising the discount rate (within
    [0, 1]) never raises the state NPV. *)
Theorem npv_nonincreasing_in_discount_rate (p : FinancialParams) (r' : R) :
  validated p -> discount_rate p <= r' <= 1 ->
  exists v v',
    calculate_state_npv p = Ok v /\
    calculate_state_npv (with_discount_rate p r') = Ok v' /\
    v' <= v.
Proof.
  intros Hv Hr.
  assert (Hv' : validated (with_discount_rate p r')).
  { apply validated_with_discount_rate; [assumption |].
    destruct Hv as (_ & _ & _ & Hr0 & _). lra. }
  exists (npv_formula p), (npv_formula (with_discount_rate p r')).
  split; [now apply npv_returns_formula |].
  split; [now apply npv_returns_formula |].
  apply npv_formula_nonincreasing; [assumption | lra].
Qed.

Lemma npv_nonincreasing_in_discount_rate_witness :
  exists v v',
    calculate_state_npv npv_scenario = Ok v /\
    calculate_state_npv (with_discount_rate npv_scenario 0.05) = Ok v' /\
    v' <= v.
Proof.
  apply (npv_nonincreasing_in_discount_rate npv_scenario 0.05).
  - unfold validated, npv_scenario. cbn. repeat split; (lra || lia).
  - cbn [npv_scenario discount_rate]. lra.
Defined.

Lemma sum_years_ext (n : nat) (f h : nat -> R) :
  (forall y, (1 <= y <= n)%nat -> f y = h y) -> sum_years n f = sum_years n h.
Proof.
  induction n as [| n IH]; intro H; [reflexivity |].
  cbn [sum_years]. rewrite IH by (intros; apply H; lia).
  rewrite (H (S n)) by lia. reflexivity.
Qed.

Lemma rent_zero (p : FinancialParams) (y : nat) :
  initial_annual_rent p = 0 -> rent_in_year p y = 0.
Proof.
  intro Hz. induction y as [| y IH]; [exact Hz |].
  cbn [rent_in_year]. rewrite IH. destruct (_ && _)%bool; lra.
Qed.

Lemma sum_years_zero (n : nat) (f : nat -> R) :
  (forall y, f y = 0) -> sum_years n f = 0.
Proof.
  intro Hf. induction n as [| n IH]; [reflexivity |].
  cbn [sum_years]. rewrite IH, Hf. lra.
Qed.

(** X15.  For every validated record the state NPV is at least the
    upfront fee, so it is never negative; without rent and without
    investment cost it is the upfront fee. *)
Theorem npv_at_least_upfront (p : FinancialParams) :
  validated p ->
  exists v,
    calculate_state_npv p = Ok v /\
    0 <= upfront_fee p <= v /\
    (initial_annual_rent p = 0 -> investment_cost p = 0 -> v = upfront_fee p).
Proof.
  intro Hv. exists (npv_formula p).
  split; [now apply npv_returns_formula |].
  split; [split; [now destruct Hv | now apply npv_formula_lower_bound] |].
  intros Hrent Hinv. unfold npv_formula.
  rewrite sum_years_zero by (intro y; rewrite rent_zero by assumption; lra).
  assert (Hres : residual_value p = 0).
  { unfold residual_value. rewrite Hinv.
    destruct (_ <? _)%Z; [unfold Rdiv; ring | reflexivity]. }
  rewrite Hres. unfold Rdiv. ring.
Qed.

Lemma npv_at_least_upfront_witness :
  exists v, calculate_state_npv npv_scenario = Ok v /\ 0 <= 50000000 <= v.
Proof.
  destruct (npv_at_least_upfront npv_scenario) as (v & E & Hbound & _).
  - unfold validated, npv_scenario. cbn. repeat split; (lra || lia).
  - exists v. split; [exact E | exact Hbound].
Defined.

(** X16.  For every validated record [calculate_return_on_asset]
    returns; the ROA is never negative; with an investment cost of 0 it is
    0 and "Below Target"; otherwise it is the average annual benefit over
    the investment cost, in percent; the status is "Below Target" exactly
    below 3 percent; and nothing in the result depends on the discount
    rate. *)
Theorem return_on_asset_behaviour (p : FinancialParams) :
  validated p ->
  exists res,
    calculate_return_on_asset p = Ok res /\
    0 <= average_annual_benefit res /\
    0 <= roa_percent res /\
    (investment_cost p = 0 ->
     roa_percent res = 0 /\ roa_status res = "Below Target") /\
    (0 < investment_cost p ->
     roa_percent res = average_annual_benefit res / investment_cost p * 100) /\
    (roa_status res = "Below Target" <-> roa_percent res < 3) /\
    (roa_status res = "On Target" <-> 3 <= roa_percent res) /\
    (forall r, calculate_return_on_asset (with_discount_rate p r) = Ok res).
Proof.
  intro Hv.
  destruct (roa_returns p Hv) as (res & E & Havg & Hroa & Hbelow & Hon).
  destruct Hv as (Hup & Hrent & Hterm & Hr & Hinv & Hlife & Hesc & Hint).
  exists res. split; [assumption |].
  assert (Hnonneg : 0 <= average_annual_benefit res).
  { rewrite Havg.
    pose proof (sum_years_nonneg (Z.to_nat (lease_term_years p)) (rent_in_year p)
                  (fun y => rent_nonneg p y Hrent Hesc)) as Hs.
    pose proof (residual_nonneg p Hinv Hlife) as Hres.
    apply Rmult_le_pos; [lra |].
    apply Rlt_le, Rinv_0_lt_compat, IZR_lt. lia. }
  split; [assumption |].
  assert (Hpct : 0 <= roa_percent res).
  { rewrite Hroa. destruct (Rltb_spec 0 (investment_cost p)) as [Hpos | _]; [| lra].
    apply Rmult_le_pos; [| lra].
    apply Rmult_le_pos; [assumption | apply Rlt_le, Rinv_0_lt_compat; assumption]. }
  split; [assumption |].
  split.
  { intro Hz. assert (Hp0 : roa_percent res = 0).
    { rewrite Hroa, Rltb_false by lra. lra. }
    split; [assumption |]. apply Hbelow. lra. }
  split.
  { intro Hpos. rewrite Hroa, Rltb_true by assumption. reflexivity. }
  split; [assumption |]. split; [assumption |].
  intro r. exact E.
Qed.

Lemma return_on_asset_behaviour_witness :
  exists res,
    calculate_return_on_asset (with_discount_rate npv_scenario 0.5) = Ok res /\
    0 <= roa_percent res /\
    calculate_return_on_asset npv_scenario = Ok res.
Proof.
  destruct (return_on_asset_behaviour (with_discount_rate npv_scenario 0.5))
    as (res & E & _ & Hpct & _ & _ & _ & _ & Hrate).
  - unfold validated, npv_scenario. cbn. repeat split; (lra || lia).
  - exists res. split; [exact E |]. split; [exact Hpct |].
    exact (Hrate 0.035).
Defined.

(** X17.  The state NPV in closed form: for a validated record the rent
    of year y is the initial rent times (1 + escalation rate) to the
    number of completed escalation intervals before that year,
    floor((y - 1) / interval), so the loop returns
    upfront + Σ_{y=1..term} rent * (1+e)^floor((y-1)/k) / (1+r)^y
    + residual / (1+r)^term. *)
Theorem npv_closed_form (p : FinancialParams) :
  validated p ->
  calculate_state_npv p
  = Ok (upfront_fee p
        + sum_years (Z.to_nat (lease_term_years p))
            (fun y => initial_annual_rent p
                      * (1 + rent_escalation_rate p) ^ escalations_before p y
                      / (1 + discount_rate p) ^ y)
        + residual_value p / (1 + discount_rate p) ^ Z.to_nat (lease_term_years p)).
Proof.
  intro Hv. rewrite (npv_returns_formula p Hv). apply f_equal.
  unfold npv_formula, discount_factor. f_equal. f_equal.
  apply sum_years_ext. intros y Hy.
  destruct y as [| n]; [lia |].
  rewrite rent_schedule_closed_form by (now destruct Hv as (_ & _ & _ & _ & _ & _ & _ & Hk)).
  unfold escalations_before.
  replace (Z.of_nat (S n) - 1)%Z with (Z.of_nat n) by lia. reflexivity.
Qed.

Lemma npv_closed_form_witness :
  calculate_state_npv npv_scenario
  = Ok (upfront_fee npv_scenario
        + sum_years (Z.to_nat (lease_term_years npv_scenario))
            (fun y => initial_annual_rent npv_scenario
                      * (1 + rent_escalation_rate npv_scenario)
                        ^ escalations_before npv_scenario y
                      / (1 + discount_rate npv_scenario) ^ y)
        + residual_value npv_scenario
          / (1 + discount_rate npv_scenario) ^ Z.to_nat (lease_term_years npv_scenario)).
Proof.
  apply npv_closed_form.
  unfold validated, npv_scenario. cbn. repeat split; (lra || lia).
Defined.

(** What a finite break-even term tells about the arguments. *)
Lemma breakeven_finite_inversion (inv cf r n : R) :
  calculate_breakeven_lease_term inv cf r = Ok (Finite n) ->
  0 < cf /\ inv * r / cf < 1 /\ 0 < 1 + r /\ ln (1 + r) <> 0 /\
  n = - ln (1 - inv * r / cf) / ln (1 + r).
Proof.
  unfold calculate_breakeven_lease_term.
  destruct (Rleb_spec cf 0) as [| Hcf]; [discriminate |].
  rewrite float_div_ok by lra. cbn [bind].
  destruct (Rleb_spec 1.0 (inv * r / cf)) as [| Hratio]; [discriminate |].
  rewrite math_log_ok by lra. cbn [bind].
  unfold math_log. destruct (Rltb_spec 0 (1 + r)) as [Hr |]; [| discriminate].
  cbn [bind]. unfold float_div.
  destruct (Reqb_spec (ln (1 + r)) 0) as [| Hln]; [discriminate |].
  cbn [bind]. intro H. injection H as <-.
  repeat split; (assumption || lra).
Qed.

Lemma breakeven_solves_annuity_equation_aux (inv cf r n : R) :
  calculate_breakeven_lease_term inv cf r = Ok (Finite n) ->
  r <> 0 /\ cf * (1 - Rpower (1 + r) (- n)) / r = inv.
Proof.
  intro H. apply breakeven_finite_inversion in H.
  destruct H as (Hcf & Hratio & Hr & Hln & ->).
  assert (Hr0 : r <> 0).
  { intro Hz. apply Hln. rewrite Hz. replace (1 + 0) with 1 by lra. apply ln_1. }
  split; [assumption |].
  unfold Rpower.
  replace (- (- ln (1 - inv * r / cf) / ln (1 + r)) * ln (1 + r))
    with (ln (1 - inv * r / cf)) by (field; assumption).
  rewrite exp_ln by lra. field. split; lra.
Qed.

(** X20.  When the sensitivity sweep returns, the three values are
    ordered: the +2% scenario is worth no more than the base case and the
    -2% scenario no less. *)
Theorem sensitivity_ordering (base_params : dict pyval) (s : Sensitivity) :
  perform_sensitivity_analysis base_params = Ok s ->
  plus_2pct_rate s <= base_case s <= minus_2pct_rate s.
Proof.
  intro Hs.
  assert (Hvalid : exists lease,
    as_int (dict_get_default base_params "lease_years" (PyInt 30)) = Ok lease /\
    validated (sweep_record base_params lease 0.05)).
  { revert Hs. unfold perform_sensitivity_analysis, FinancialParams_init.
    destruct (as_int (dict_get_default base_params "lease_years" (PyInt 30)))
      as [lease |]; cbn [bind as_int]; [| discriminate].
    match goal with
    | |- context [check_bounds ?q] => destruct (check_bounds q) eqn:Hb
    end; [| discriminate].
    intros _. exists lease. split; [reflexivity |].
    now apply check_bounds_validated. }
  destruct Hvalid as (lease & Hlease & Hv).
  rewrite (sensitivity_returns base_params lease Hlease Hv) in Hs.
  injection Hs as <-. cbn [base_case plus_2pct_rate minus_2pct_rate].
  set (base := sweep_record base_params lease 0.05) in *.
  assert (Hlow : validated (sweep_record base_params lease (0.05 - 0.02))).
  { apply (sweep_record_validated base_params lease 0.05); [assumption | lra]. }
  pose proof (npv_formula_nonincreasing base (0.05 + 0.02) Hv) as H1.
  pose proof (npv_formula_nonincreasing (sweep_record base_params lease (0.05 - 0.02))
                0.05 Hlow) as H2.
  cbn [base sweep_record discount_rate] in H1, H2.
  split; [apply H1; lra | apply H2; lra].
Qed.

Lemma sensitivity_ordering_witness :
  exists s,
    perform_sensitivity_analysis scenario_base_params = Ok s /\
    plus_2pct_rate s <= base_case s <= minus_2pct_rate s.
Proof.
  assert (Hret : exists s, perform_sensitivity_analysis scenario_base_params = Ok s).
  { eexists. apply (sensitivity_returns scenario_base_params 30%Z).
    - reflexivity.
    - unfold validated. cbn. repeat split; (lra || lia). }
  destruct Hret as [s Hs]. exists s. split; [exact Hs |].
  exact (sensitivity_ordering scenario_base_params s Hs).
Defined.

(** X21.  The sensitivity sweep returns exactly when the lease term it is
    given is integral and the base record (fee, rent, lease term and
    investment cost of the dictionary, 5% rate, 50 years of useful life)
    satisfies the declared bounds; otherwise it raises the validation
    error and no other exception.  Whatever else the dictionary holds (a
    discount rate, a useful life) has no influence. *)
Theorem sensitivity_validation :
  (forall base_params,
      returns (perform_sensitivity_analysis base_params)
      <-> exists lease,
            as_int (dict_get_default base_params "lease_years" (PyInt 30)) = Ok lease /\
            validated (sweep_record base_params lease 0.05)) /\
  (forall base_params e,
      perform_sensitivity_analysis base_params = Raise e -> e = ValidationError) /\
  (forall base_params base_params',
      (forall key,
          key = "upfront_fee" \/ key = "initial_annual_rent" \/
          key = "lease_years" \/ key = "investment_cost" ->
          dict_get base_params key = dict_get base_params' key) ->
      perform_sensitivity_analysis base_params
      = perform_sensitivity_analysis base_params').
Proof.
  split; [| split].
  - intro bp. split.
    + intros [s Hs]. revert Hs.
      unfold perform_sensitivity_analysis, FinancialParams_init.
      destruct (as_int (dict_get_default bp "lease_years" (PyInt 30)))
        as [lease |]; cbn [bind as_int]; [| discriminate].
      match goal with
      | |- context [check_bounds ?q] => destruct (check_bounds q) eqn:Hb
      end; [| discriminate].
      intros _. exists lease. split; [reflexivity |].
      now apply check_bounds_validated.
    + intros (lease & Hlease & Hv). eexists.
      exact (sensitivity_returns bp lease Hlease Hv).
  - intros bp e He.
    destruct (as_int (dict_get_default bp "lease_years" (PyInt 30)))
      as [lease | e1] eqn:Hlease.
    + destruct (check_bounds (sweep_record bp lease 0.05)) eqn:Hb.
      * apply check_bounds_validated in Hb.
        rewrite (sensitivity_returns bp lease Hlease Hb) in He. discriminate.
      * revert He. unfold perform_sensitivity_analysis, FinancialParams_init.
        rewrite Hlease. cbn [bind as_int as_float].
        unfold sweep_record in Hb. rewrite Hb. cbn [bind].
        intro H. now injection H as <-.
    + revert He. unfold perform_sensitivity_analysis, FinancialParams_init.
      rewrite Hlease. cbn [bind].
      intro H. injection H as <-. now apply (as_int_raises _ _ Hlease).
  - intros bp bp' Hkeys. unfold perform_sensitivity_analysis, dict_get_default.
    rewrite (Hkeys "upfront_fee") by tauto.
    rewrite (Hkeys "initial_annual_rent") by tauto.
    rewrite (Hkeys "lease_years") by tauto.
    rewrite (Hkeys "investment_cost") by tauto.
    reflexivity.
Qed.

Lemma sensitivity_validation_witness :
  returns (perform_sensitivity_analysis scenario_base_params) /\
  perform_sensitivity_analysis (("discount_rate", PyFloat 0.9) :: scenario_base_params)
  = perform_sensitivity_analysis scenario_base_params.
Proof.
  destruct sensitivity_validation as (Hiff & _ & Hkeys).
  split.
  - apply Hiff. exists 30%Z. split; [reflexivity |].
    unfold validated. cbn. repeat split; (lra || lia).
  - apply Hkeys. intros key [-> | [-> | [-> | ->]]]; reflexivity.
Defined.

Lemma lower_ascii_idempotent (c : ascii) : lower_ascii (lower_ascii c) = lower_ascii c.
Proof. destruct c as [[] [] [] [] [] [] [] []]; reflexivity. Qed.

Lemma lower_idempotent (s : string) : lower (lower s) = lower s.
Proof.
  induction s as [| c s IH]; [reflexivity |].
  cbn [lower]. now rewrite lower_ascii_idempotent, IH.
Qed.

(** Every call of [validate_construction_cost] returns. *)
Lemma cost_validation_returns (proposed : R) (bt prov : string) :
  exists res, validate_construction_cost proposed bt prov = Ok res.
Proof.
  destruct (dict_get base_benchmarks (lower bt)) as [base |] eqn:Hbase.
  - destruct (cost_benchmark_branch proposed bt prov base Hbase) as [_ H].
    eexists. exact H.
  - eexists. now apply cost_unknown_branch.
Qed.

(** X22.  For a recognised building type the construction cost passes
    exactly when it lies within 20% of the location-adjusted standard,
    0.8 * adjusted <= proposed <= 1.2 * adjusted; the adjusted standard is
    positive, and the reported deviation is 0 exactly when the proposed
    cost equals it and has the sign of their difference. *)
Theorem cost_pass_band (proposed : R) (bt prov : string) (base : R) :
  dict_get base_benchmarks (lower bt) = Some base ->
  exists status dev factor adjusted,
    validate_construction_cost proposed bt prov
    = Ok (BenchmarkResult status dev base factor adjusted prov) /\
    0 < factor /\ adjusted = base * factor /\ 0 < adjusted /\
    (status = "Pass" <-> 0.8 * adjusted <= proposed <= 1.2 * adjusted) /\
    (status = "Cost Anomaly Detected"
     <-> proposed < 0.8 * adjusted \/ 1.2 * adjusted < proposed) /\
    (dev = 0 <-> proposed = adjusted) /\
    (0 < dev <-> adjusted < proposed).
Proof.
  intro Hbase.
  destruct (cost_benchmark_branch proposed bt prov base Hbase) as [Hnz Heq].
  cbv zeta in Hnz, Heq.
  pose proof (location_factor_positive (lower prov)) as Hf.
  set (factor := dict_get_default location_factors (lower prov) 1.0) in *.
  set (adj := base * factor) in *.
  assert (Hadj : 0 < adj).
  { unfold adj. destruct (base_benchmark_cases _ _ Hbase) as [[_ ->] | [_ ->]]; nra. }
  eexists. eexists. exists factor, adj. split; [exact Heq |].
  split; [assumption |]. split; [reflexivity |]. split; [assumption |].
  set (d := (proposed - adj) / adj).
  assert (Hd : d * adj = proposed - adj) by (unfold d; field; lra).
  assert (Habs : Rabs d <= 0.20 <-> 0.8 * adj <= proposed <= 1.2 * adj).
  { unfold Rabs. destruct (Rcase_abs d); split; intro; nra. }
  destruct (Rltb_spec 0.20 (Rabs d)) as [Hbig | Hsmall].
  - split; [split; [discriminate | intro; exfalso; apply Habs in H; lra] |].
    split; [split; [intros _ | reflexivity] |].
    { destruct (Rle_dec (0.8 * adj) proposed); [| lra].
      destruct (Rle_dec proposed (1.2 * adj)); [| lra].
      exfalso. assert (Rabs d <= 0.20) by (apply Habs; lra). lra. }
    split; split; intro; nra.
  - split; [split; [intros _; apply Habs; lra | reflexivity] |].
    split; [split; [discriminate | ] |].
    { intro Hout. exfalso. assert (Rabs d <= 0.20) by lra.
      apply Habs in H. lra. }
    split; split; intro; nra.
Qed.

Lemma cost_pass_band_witness :
  exists status dev factor adjusted,
    validate_construction_cost 32000 "high-rise" "Bangkok"
    = Ok (BenchmarkResult status dev 30000.0 factor adjusted "Bangkok") /\
    0 < adjusted.
Proof.
  destruct (cost_pass_band 32000 "high-rise" "Bangkok" 30000.0)
    as (status & dev & factor & adjusted & E & _ & _ & Hadj & _).
  - reflexivity.
  - exists status, dev, factor, adjusted. split; [exact E | exact Hadj].
Defined.

(** X23.  [validate_construction_cost] returns for every input, and its
    verdict does not depend on the letter case of the building type or of
    the province: lower-casing both arguments first gives the same status
    and the same deviation. *)
Theorem cost_validation_case_insensitive (proposed : R) (bt prov : string) :
  exists res res',
    validate_construction_cost proposed bt prov = Ok res /\
    validate_construction_cost proposed (lower bt) (lower prov) = Ok res' /\
    cv_status res' = cv_status res /\
    cv_deviation_percent res' = cv_deviation_percent res.
Proof.
  destruct (dict_get base_benchmarks (lower bt)) as [base |] eqn:Hbase.
  - destruct (cost_benchmark_branch proposed bt prov base Hbase) as [_ H].
    assert (Hbase' : dict_get base_benchmarks (lower (lower bt)) = Some base)
      by now rewrite lower_idempotent.
    destruct (cost_benchmark_branch proposed (lower bt) (lower prov) base Hbase')
      as [_ H'].
    cbv zeta in H, H'. rewrite lower_idempotent in H'.
    eexists. eexists. split; [exact H |]. split; [exact H' |].
    split; reflexivity.
  - eexists. eexists.
    split; [now apply cost_unknown_branch |].
    split; [apply cost_unknown_branch; now rewrite lower_idempotent |].
    split; reflexivity.
Qed.

(* ===================================================================== *)
(** * Properties of far_calculation.py                                    *)
(* ===================================================================== *)

Lemma round_half_even_error (y : R) : Rabs (IZR (PyNum.round_half_even y) - y) <= 1 / 2.
Proof.
  unfold PyNum.round_half_even.
  destruct (base_Int_part y) as [Hlo Hhi].
  set (f := Int_part y) in *.
  destruct (Rltb_spec (y - IZR f) (1 / 2)) as [H1 | H1].
  { apply Rabs_le. lra. }
  destruct (Rltb_spec (1 / 2) (y - IZR f)) as [H2 | H2].
  { rewrite plus_IZR. apply Rabs_le. lra. }
  destruct (Z.even f); [| rewrite plus_IZR]; apply Rabs_le; lra.
Qed.

Lemma py_round_error (x : R) (n : nat) :
  Rabs (PyNum.py_round x n - x) <= 1 / 2 / 10 ^ n.
Proof.
  unfold PyNum.py_round.
  assert (Hp : 0 < 10 ^ n) by (apply pow_lt; lra).
  replace (IZR (PyNum.round_half_even (x * 10 ^ n)) / 10 ^ n - x)
    with ((IZR (PyNum.round_half_even (x * 10 ^ n)) - x * 10 ^ n) / 10 ^ n)
    by (field; lra).
  unfold Rdiv at 1. rewrite Rabs_mult, (Rabs_pos_eq (/ 10 ^ n))
    by (apply Rlt_le, Rinv_0_lt_compat; assumption).
  apply Rmult_le_compat_r; [apply Rlt_le, Rinv_0_lt_compat; assumption |].
  apply round_half_even_error.
Qed.

(** The computation of [calculate_far] once the three guards are passed. *)
Lemma calculate_far_passes (inputs : Far.FARInputs) :
  0 < Far.land_size_rai inputs -> 0 <= Far.proposed_gfa inputs ->
  0 < Far.d0 inputs -> 0 <= Far.g inputs -> 0 <= Far.distance_km inputs ->
  let sqm := Far.land_size_rai inputs * 1600 in
  let proposed := Far.proposed_gfa inputs / sqm in
  let theoretical := Far.d0 inputs * exp (- Far.g inputs * Far.distance_km inputs) in
  let score := proposed / theoretical in
  0 < theoretical /\
  Far.calculate_far inputs
  = inr {| Far.proposed_far := proposed;
           Far.theoretical_far := theoretical;
           Far.result_legal_max_far := Far.legal_max_far inputs;
           Far.efficiency_score := score;
           Far.status := Far.get_far_status score;
           Far.status_thai := Far.FARStatus_value (Far.get_far_status score);
           Far.land_size_sqm := sqm |}.
Proof.
  intros Hland Hgfa Hd0 Hg Hx sqm proposed theoretical score.
  assert (Ht : 0 < theoretical).
  { unfold theoretical. apply Rmult_lt_0_compat; [assumption | apply exp_pos]. }
  split; [assumption |].
  unfold Far.calculate_far.
  rewrite Rleb_false by assumption.
  rewrite (Rltb_false (Far.proposed_gfa inputs) 0) by assumption.
  rewrite (Rleb_false (Far.d0 inputs) 0) by assumption.
  rewrite (Rltb_false (Far.g inputs) 0) by assumption.
  rewrite (Rltb_false (Far.distance_km inputs) 0) by assumption.
  cbn [orb]. unfold Far.SQM_PER_RAI, math_exp.
  rewrite float_div_ok by lra.
  fold sqm. fold proposed. fold theoretical.
  rewrite Rltb_true by assumption.
  rewrite float_div_ok by lra. reflexivity.
Qed.

(** The guards of [calculate_far], case by case. *)
Lemma calculate_far_cases (inputs : Far.FARInputs) :
  (exists err,
      Far.calculate_far inputs = inl (Far.Custom err) /\
      (Far.code err = "ZERO_LAND_SIZE" /\ Far.land_size_rai inputs <= 0 \/
       Far.code err = "ZERO_GFA" /\ 0 < Far.land_size_rai inputs
         /\ Far.proposed_gfa inputs < 0 \/
       Far.code err = "INVALID_PARAMS" /\ 0 < Far.land_size_rai inputs
         /\ 0 <= Far.proposed_gfa inputs
         /\ (Far.d0 inputs <= 0 \/ Far.g inputs < 0 \/ Far.distance_km inputs < 0)))
  \/
  (exists res,
      Far.calculate_far inputs = inr res /\
      0 < Far.land_size_rai inputs /\ 0 <= Far.proposed_gfa inputs /\
      0 < Far.d0 inputs /\ 0 <= Far.g inputs /\ 0 <= Far.distance_km inputs).
Proof.
  destruct (Rle_dec (Far.land_size_rai inputs) 0) as [Hland | Hland].
  { left. unfold Far.calculate_far. rewrite Rleb_true by assumption.
    eexists. split; [reflexivity |]. left. split; [reflexivity | assumption]. }
  destruct (Rlt_dec (Far.proposed_gfa inputs) 0) as [Hgfa | Hgfa].
  { left. unfold Far.calculate_far. rewrite Rleb_false by lra.
    rewrite Rltb_true by assumption.
    eexists. split; [reflexivity |]. right. left. cbn [Far.code].
    split; [reflexivity |]. split; lra. }
  destruct (Rle_dec (Far.d0 inputs) 0) as [Hd | Hd];
    [| destruct (Rlt_dec (Far.g inputs) 0) as [Hg | Hg];
       [| destruct (Rlt_dec (Far.distance_km inputs) 0) as [Hx | Hx]]].
  4: { right.
       destruct (calculate_far_passes inputs) as [_ H]; try lra.
       eexists. split; [exact H |]. repeat split; lra. }
  all: left; unfold Far.calculate_far;
    rewrite Rleb_false by lra;
    rewrite (Rltb_false (Far.proposed_gfa inputs) 0) by lra.
  - rewrite Rleb_true by assumption. cbn [orb].
    eexists. split; [reflexivity |]. right. right. cbn [Far.code].
    split; [reflexivity |]. repeat split; lra.
  - rewrite (Rleb_false (Far.d0 inputs) 0) by lra.
    rewrite (Rltb_true (Far.g inputs) 0) by assumption. cbn [orb].
    eexists. split; [reflexivity |]. right. right. cbn [Far.code].
    split; [reflexivity |]. repeat split; lra.
  - rewrite (Rleb_false (Far.d0 inputs) 0) by lra.
    rewrite (Rltb_false (Far.g inputs) 0) by lra.
    rewrite (Rltb_true (Far.distance_km inputs) 0) by assumption. cbn [orb].
    eexists. split; [reflexivity |]. right. right. cbn [Far.code].
    split; [reflexivity |]. repeat split; lra.
Qed.

(** X24.  [calculate_far] raises its own error with code ZERO_LAND_SIZE
    exactly for a land size <= 0, with code ZERO_GFA exactly for a
    positive land size and a negative floor area, with code
    INVALID_PARAMS exactly when these two pass and D0 <= 0 or g < 0 or
    the distance < 0; in every other case it returns; it never raises
    anything else (the two divisions are never by zero). *)
Theorem calculate_far_guards (inputs : Far.FARInputs) :
  (exists err,
      Far.calculate_far inputs = inl (Far.Custom err) /\
      (Far.code err = "ZERO_LAND_SIZE" /\ Far.land_size_rai inputs <= 0 \/
       Far.code err = "ZERO_GFA" /\ 0 < Far.land_size_rai inputs
         /\ Far.proposed_gfa inputs < 0 \/
       Far.code err = "INVALID_PARAMS" /\ 0 < Far.land_size_rai inputs
         /\ 0 <= Far.proposed_gfa inputs
         /\ (Far.d0 inputs <= 0 \/ Far.g inputs < 0 \/ Far.distance_km inputs < 0)))
  \/
  (exists res,
      Far.calculate_far inputs = inr res /\
      0 < Far.land_size_rai inputs /\ 0 <= Far.proposed_gfa inputs /\
      0 < Far.d0 inputs /\ 0 <= Far.g inputs /\ 0 <= Far.distance_km inputs).
Proof. exact (calculate_far_cases inputs). Qed.

(** X25.  When [calculate_far] returns, the land size in square metres
    is the engine's own conversion of the rai, the proposed FAR is the
    floor area over that land size and is not negative, the theoretical
    FAR is the value of [calculate_theoretical_far] and lies between 0
    and D0, the efficiency score is not negative and, for a positive
    theoretical FAR, is the proposed FAR over the theoretical one, and
    the status is the one [get_far_status] assigns to the score. *)
Theorem calculate_far_result (inputs : Far.FARInputs) (res : Far.FARResult) :
  Far.calculate_far inputs = inr res ->
  Far.land_size_sqm res = convert_rai_to_sqm (Far.land_size_rai inputs) /\
  Far.proposed_far res = Far.proposed_gfa inputs / Far.land_size_sqm res /\
  0 <= Far.proposed_far res /\
  Far.theoretical_far res
  = Far.calculate_theoretical_far (Far.d0 inputs) (Far.g inputs)
      (Far.distance_km inputs) /\
  0 <= Far.theoretical_far res <= Far.d0 inputs /\
  0 <= Far.efficiency_score res /\
  (0 < Far.theoretical_far res ->
   Far.efficiency_score res = Far.proposed_far res / Far.theoretical_far res) /\
  Far.status res = Far.get_far_status (Far.efficiency_score res) /\
  Far.status_thai res = Far.FARStatus_value (Far.status res) /\
  Far.result_legal_max_far res = Far.legal_max_far inputs.
Proof.
  intro Hres.
  destruct (calculate_far_cases inputs) as [(err & E & _) | (res' & E & Hl & Hg & Hd & Hgr & Hx)].
  { rewrite E in Hres. discriminate. }
  destruct (calculate_far_passes inputs Hl Hg Hd Hgr Hx) as [Ht Hval].
  cbv zeta in Ht, Hval. rewrite Hval in Hres. injection Hres as <-.
  cbn [Far.land_size_sqm Far.proposed_far Far.theoretical_far Far.efficiency_score
       Far.status Far.status_thai Far.result_legal_max_far].
  set (sqm := Far.land_size_rai inputs * 1600) in *.
  set (td := Far.d0 inputs * exp (- Far.g inputs * Far.distance_km inputs)) in *.
  assert (Hsqm : 0 < sqm) by (unfold sqm; lra).
  assert (Hprop : 0 <= Far.proposed_gfa inputs / sqm).
  { apply Rmult_le_pos; [assumption | apply Rlt_le, Rinv_0_lt_compat; assumption]. }
  assert (Hexp : exp (- Far.g inputs * Far.distance_km inputs) <= 1).
  { rewrite <- exp_0.
    destruct (Req_dec_T (- Far.g inputs * Far.distance_km inputs) 0) as [-> | Hne];
      [lra |].
    left. apply exp_increasing. nra. }
  split; [unfold convert_rai_to_sqm, sqm; lra |].
  split; [reflexivity |]. split; [assumption |].
  split; [reflexivity |].
  split; [split; [lra | unfold td; nra] |].
  split; [apply Rmult_le_pos; [assumption | apply Rlt_le, Rinv_0_lt_compat; assumption] |].
  split; [intros _; reflexivity |].
  repeat split; reflexivity.
Qed.

Lemma calculate_far_result_witness :
  exists res,
    Far.calculate_far (Far.FARInputs_default 5 40000 10 0.1 2) = inr res /\
    Far.proposed_far res = 40000 / Far.land_size_sqm res /\
    Far.land_size_sqm res = convert_rai_to_sqm 5.
Proof.
  destruct (calculate_far_passes (Far.FARInputs_default 5 40000 10 0.1 2))
    as [_ H]; cbn; try lra.
  eexists. split; [exact H |].
  destruct (calculate_far_result _ _ H) as (Hsqm & Hprop & _).
  split; [exact Hprop | exact Hsqm].
Defined.

(** X26.  [calculate_far] and the engine's density audit agree: when
    [calculate_far] returns, the audit of an engine with the same D0 and
    g, at the same distance and for the proposed FAR, reports the same
    theoretical density and the same efficiency index, and (without a
    zone colour) its five-band status falls into the three-band FAR
    status: both under-use bands into UNDER, "Optimal" and "High Density
    Warning" into OPTIMAL, "Over-densification" into OVER. *)
Theorem calculate_far_agrees_with_audit
    (inputs : Far.FARInputs) (res : Far.FARResult)
    (k e : R) (t : transport) (legal : option R) :
  Far.calculate_far inputs = inr res ->
  exists audit,
    calculate_optimal_density (mkEngine (Far.d0 inputs) (Far.g inputs)) k e t
      (Far.distance_km inputs) (Far.proposed_far res) legal None = Ok audit /\
    theoretical_density audit = Far.theoretical_far res /\
    efficiency_index audit = Far.efficiency_score res /\
    coarse_status (status audit) = Far.status res.
Proof.
  intro Hres.
  destruct (calculate_far_cases inputs) as [(err & E & _) | (res' & E & Hl & Hg & Hd & Hgr & Hx)].
  { rewrite E in Hres. discriminate. }
  destruct (calculate_far_passes inputs Hl Hg Hd Hgr Hx) as [Ht Hval].
  cbv zeta in Ht, Hval. rewrite Hval in Hres. injection Hres as <-.
  cbn [Far.proposed_far Far.theoretical_far Far.efficiency_score Far.status].
  destruct (optimal_density_returns (mkEngine (Far.d0 inputs) (Far.g inputs)) k e t
              (Far.distance_km inputs)
              (Far.proposed_gfa inputs / (Far.land_size_rai inputs * 1600))
              legal None) as (audit & Ea & _ & Ta & _ & Ia & Sa & _).
  cbn [d0 g] in Ta, Ia.
  exists audit. split; [exact Ea |]. split; [exact Ta |].
  rewrite Reqb_false in Ia by lra.
  split; [exact Ia |].
  rewrite Sa, Ia. change (upper_limit_for None) with 1.2.
  set (score := Far.proposed_gfa inputs / (Far.land_size_rai inputs * 1600)
                / (Far.d0 inputs * exp (- Far.g inputs * Far.distance_km inputs))).
  unfold final_status, Far.get_far_status.
  destruct (Rltb_spec score (0.8 - 0.1)).
  { rewrite Rltb_true by lra. reflexivity. }
  destruct (Rltb_spec score 0.8); [reflexivity |].
  destruct (Rleb_spec score (1.2 - 0.1)).
  { rewrite Rleb_true by lra. reflexivity. }
  destruct (Rleb_spec score 1.2); reflexivity.
Qed.

Lemma calculate_far_agrees_with_audit_witness :
  exists res audit,
    Far.calculate_far (Far.FARInputs_default 5 40000 10 0.1 2) = inr res /\
    calculate_optimal_density (mkEngine 10 0.1) 0 0 (TransportFloat 0) 2
      (Far.proposed_far res) None None = Ok audit /\
    efficiency_index audit = Far.efficiency_score res /\
    coarse_status (status audit) = Far.status res.
Proof.
  destruct (calculate_far_passes (Far.FARInputs_default 5 40000 10 0.1 2))
    as [_ H]; cbn; try lra.
  destruct (calculate_far_agrees_with_audit _ _ 0 0 (TransportFloat 0) None H)
    as (audit & Ea & _ & Ia & Sa).
  eexists. exists audit. split; [exact H |].
  split; [exact Ea |]. split; [exact Ia | exact Sa].
Defined.

(** X27.  [calculate_far_safe] never raises.  It returns the error
    dictionary (with [error] set and one of the three codes) exactly when
    a guard of [calculate_far] rejects the input, and otherwise the result
    dictionary, whose status is "UNDER", "OPTIMAL" or "OVER" and whose
    proposed FAR is within 0.005 of floor area / (rai * 1600). *)
Theorem calculate_far_safe_total (inputs : Far.FARInputs) :
  (exists d,
      Far.calculate_far_safe inputs = inr (inr d) /\
      Far.error_key d = true /\
      (Far.code_key d = "ZERO_LAND_SIZE" \/ Far.code_key d = "ZERO_GFA" \/
       Far.code_key d = "INVALID_PARAMS") /\
      ~ (0 < Far.land_size_rai inputs /\ 0 <= Far.proposed_gfa inputs /\
         0 < Far.d0 inputs /\ 0 <= Far.g inputs /\ 0 <= Far.distance_km inputs))
  \/
  (exists d,
      Far.calculate_far_safe inputs = inr (inl d) /\
      (0 < Far.land_size_rai inputs /\ 0 <= Far.proposed_gfa inputs /\
       0 < Far.d0 inputs /\ 0 <= Far.g inputs /\ 0 <= Far.distance_km inputs) /\
      (Far.status_key d = "UNDER" \/ Far.status_key d = "OPTIMAL" \/
       Far.status_key d = "OVER") /\
      Far.landSizeSqm d = Far.land_size_rai inputs * 1600 /\
      Rabs (Far.proposedFar d
            - Far.proposed_gfa inputs / (Far.land_size_rai inputs * 1600)) <= 0.005).
Proof.
  unfold Far.calculate_far_safe.
  destruct (calculate_far_cases inputs)
    as [(err & E & Hcode) | (res & E & Hl & Hg & Hd & Hgr & Hx)].
  - left. rewrite E. eexists. split; [reflexivity |].
    cbn [Far.FARCalculationError_to_dict Far.error_key Far.code_key].
    split; [reflexivity |].
    split; [tauto |]. intros (H1 & H2 & H3 & H4 & H5).
    destruct Hcode as [[_ H] | [[_ [_ H]] | [_ [_ [_ [H | [H | H]]]]]]]; lra.
  - right. rewrite E. eexists. split; [reflexivity |].
    split; [tauto |].
    destruct (calculate_far_passes inputs Hl Hg Hd Hgr Hx) as [_ Hval].
    cbv zeta in Hval. rewrite Hval in E. injection E as <-.
    cbn [Far.FARResult_to_dict Far.status_key Far.landSizeSqm Far.proposedFar
         Far.status Far.land_size_sqm Far.proposed_far].
    split.
    { destruct (Far.get_far_status _); cbn; tauto. }
    split; [reflexivity |].
    eapply Rle_trans; [apply py_round_error |]. cbn [pow]. lra.
Qed.

(* ===================================================================== *)
(** * The NPV of a level rent and the break-even term                     *)
(* ===================================================================== *)

(** Present value of one unit paid at the end of each of [n] years. *)
Lemma annuity_sum (r : R) (n : nat) :
  0 < r ->
  sum_years n (fun y => 1 / (1 + r) ^ y) = (1 - / (1 + r) ^ n) / r.
Proof.
  intro Hr. induction n as [| n IH].
  - cbn. field. lra.
  - cbn [sum_years]. rewrite IH.
    assert (Hp : (1 + r) ^ n <> 0) by (apply pow_nonzero; lra).
    cbn [pow]. field. repeat split; lra.
Qed.

Lemma sum_years_scale (n : nat) (c : R) (f : nat -> R) :
  sum_years n (fun y => c * f y) = c * sum_years n f.
Proof.
  induction n as [| n IH]; cbn [sum_years]; [lra | rewrite IH; lra].
Qed.

Lemma no_escalation (p : FinancialParams) (y : nat) :
  (0 < escalation_interval_years p)%Z ->
  rent_escalation_rate p = 0 \/
  (lease_term_years p <= escalation_interval_years p)%Z ->
  (1 <= y <= Z.to_nat (lease_term_years p))%nat ->
  rent_in_year p y = initial_annual_rent p.
Proof.
  intros Hk Hcase Hy. destruct y as [| n]; [lia |].
  rewrite rent_schedule_closed_form by assumption.
  destruct Hcase as [He | Hlong].
  - rewrite He. replace (1 + 0) with 1 by lra. rewrite pow1. lra.
  - rewrite Z.div_small by lia. cbn. lra.
Qed.

Lemma npv_level_rent (p : FinancialParams) :
  validated p ->
  0 < discount_rate p ->
  rent_escalation_rate p = 0 \/
  (lease_term_years p <= escalation_interval_years p)%Z ->
  calculate_state_npv p
  = Ok (upfront_fee p
        + initial_annual_rent p
          * (1 - / (1 + discount_rate p) ^ Z.to_nat (lease_term_years p))
          / discount_rate p
        + residual_value p / (1 + discount_rate p) ^ Z.to_nat (lease_term_years p)).
Proof.
  intros Hv Hr Hcase. rewrite (npv_returns_formula p Hv). apply f_equal.
  unfold npv_formula, discount_factor. f_equal. f_equal.
  rewrite (sum_years_ext _ _
             (fun y => initial_annual_rent p * (1 / (1 + discount_rate p) ^ y))).
  - rewrite sum_years_scale, annuity_sum by assumption. unfold Rdiv. ring.
  - intros y Hy.
    rewrite no_escalation;
      [unfold Rdiv; ring
      | now destruct Hv as (_ & _ & _ & _ & _ & _ & _ & Hk)
      | assumption | assumption].
Qed.

(** X28.  When the rent never escalates within the lease (the escalation
    rate is 0, or the escalation interval is at least the lease term) and
    the discount rate is positive, the state NPV is the upfront fee plus
    the present value of a level annuity,
    rent * (1 - (1 + r)^(-term)) / r, plus the discounted residual
    value. *)
Theorem npv_level_rent_annuity (p : FinancialParams) :
  validated p ->
  0 < discount_rate p ->
  rent_escalation_rate p = 0 \/
  (lease_term_years p <= escalation_interval_years p)%Z ->
  calculate_state_npv p
  = Ok (upfront_fee p
        + initial_annual_rent p
          * (1 - / (1 + discount_rate p) ^ Z.to_nat (lease_term_years p))
          / discount_rate p
        + residual_value p / (1 + discount_rate p) ^ Z.to_nat (lease_term_years p)).
Proof. exact (npv_level_rent p). Qed.

Lemma npv_level_rent_annuity_witness :
  exists v, calculate_state_npv (mkFinancialParams 0 2 1 1 0 50 0 3) = Ok v /\ v = 1.
Proof.
  eexists. split.
  - apply (npv_level_rent_annuity (mkFinancialParams 0 2 1 1 0 50 0 3)).
    + unfold validated. cbn. repeat split; (lra || lia).
    + cbn. lra.
    + left. reflexivity.
  - unfold residual_value. cbn.
    change (Pos.to_nat 1) with 1%nat. cbn [pow]. lra.
Defined.

(** X29.  The break-even term inverts the NPV of the rent: if
    [calculate_breakeven_lease_term] returns a whole number of years for
    an investment, an annual cash flow and a rate, then a lease of that
    many years at that level rent and rate, with no upfront fee and no
    residual value, has a state NPV equal to the investment. *)
Theorem breakeven_term_recovers_investment
    (inv cf r : R) (p : FinancialParams) :
  validated p ->
  calculate_breakeven_lease_term inv cf r = Ok (Finite (IZR (lease_term_years p))) ->
  initial_annual_rent p = cf -> discount_rate p = r ->
  upfront_fee p = 0 -> investment_cost p = 0 -> rent_escalation_rate p = 0 ->
  calculate_state_npv p = Ok inv.
Proof.
  intros Hv Hbe Hcf Hr Hup Hinv Hesc.
  destruct (breakeven_solves_annuity_equation_aux inv cf r _ Hbe) as [Hr0 Heq].
  assert (Hpos : 0 < discount_rate p).
  { destruct Hv as (_ & _ & _ & [Hr1 _] & _). rewrite Hr in *. lra. }
  rewrite (npv_level_rent p Hv Hpos (or_introl Hesc)). apply f_equal.
  assert (Hres : residual_value p = 0).
  { unfold residual_value. rewrite Hinv.
    destruct (_ <? _)%Z; [unfold Rdiv; ring | reflexivity]. }
  rewrite Hres, Hup, Hcf, Hr.
  assert (Hterm : IZR (lease_term_years p) = INR (Z.to_nat (lease_term_years p))).
  { rewrite INR_IZR_INZ, Z2Nat.id; [reflexivity |].
    destruct Hv as (_ & _ & Ht & _). lia. }
  rewrite Hterm, Rpower_Ropp, Rpower_pow in Heq by (rewrite <- Hr; lra).
  rewrite <- Heq. unfold Rdiv. ring.
Qed.

Lemma breakeven_term_recovers_investment_witness :
  calculate_breakeven_lease_term 1 2 1 = Ok (Finite 1) /\
  calculate_state_npv (mkFinancialParams 0 2 1 1 0 50 0 3) = Ok 1.
Proof.
  assert (Hbe : calculate_breakeven_lease_term 1 2 1 = Ok (Finite 1)).
  { rewrite breakeven_finite.
    - apply f_equal. apply f_equal. unfold breakeven_years, breakeven_ratio.
      replace (1 - 1 * 1 / 2) with (/ 2) by lra.
      rewrite ln_Rinv by lra. replace (1 + 1) with 2 by lra.
      pose proof ln_lt_2. field. lra.
    - lra.
    - lra.
    - unfold never_breaks_even, breakeven_ratio. intros [H | H]; lra. }
  split; [exact Hbe |].
  apply (breakeven_term_recovers_investment 1 2 1 (mkFinancialParams 0 2 1 1 0 50 0 3));
    try reflexivity.
  - unfold validated. cbn. repeat split; (lra || lia).
  - exact Hbe.
Defined.
